(** * LittleKernel build configuration: the editor's config store and the
      header generator

    A shallow embedding of [scripts/menuconfig.py] and
    [scripts/config_header_generator.py], and the properties of the
    configuration model that the two scripts implement.

    Conventions of the embedding:
    - a [str] is a [string]; a character is a code point below 256, and the
      character classes of the interpreter (white space, decimal digits,
      lower-casing) are written out for that range;
    - the interpreter's [int] is [Z]; [int(s)] is [py_int s], which returns
      [None] where the interpreter raises [ValueError] (the optional limit
      of the interpreter on the number of digits is left out);
    - a [dict] is an insertion-ordered association list with unique keys;
    - the file system is a finite map from paths to file contents, which
      are text: a file that the interpreter cannot decode is not modelled;
    - the interactive functions run in a small state monad over the
      configuration, the file system, the pending input lines and the
      terminal output. *)

From Stdlib Require Import ZArith Ascii String Decimal DecimalString DecimalZ
  DecimalPos Lia.
From stdpp Require Import gmap strings list fin_maps sorting.

Local Open Scope Z_scope.

(** ** Strings of the interpreter *)

Module Py.

Definition code (c : ascii) : N := N_of_ascii c.

(** [str.isspace] on one character. *)
Definition isspace (c : ascii) : bool :=
  let n := code c in
  ((9 <=? n) && (n <=? 13) || (28 <=? n) && (n <=? 32)
   || (n =? 133) || (n =? 160))%N.

(** [str.lower] on one character. *)
Definition lower_char (c : ascii) : ascii :=
  let n := code c in
  if ((65 <=? n) && (n <=? 90)
      || (192 <=? n) && (n <=? 222) && negb (n =? 215))%N
  then ascii_of_N (n + 32) else c.

Fixpoint lower (s : string) : string :=
  match s with
  | EmptyString => EmptyString
  | String c s' => String (lower_char c) (lower s')
  end.

Definition is_empty (s : string) : bool :=
  match s with EmptyString => true | _ => false end.

(** [s.startswith(p)] and [s.endswith(p)]. *)
Fixpoint startswith (p s : string) : bool :=
  match p, s with
  | EmptyString, _ => true
  | String _ _, EmptyString => false
  | String a p', String b s' => Ascii.eqb a b && startswith p' s'
  end.

Fixpoint endswith (p s : string) : bool :=
  String.eqb s p
  || match s with
     | EmptyString => false
     | String _ s' => endswith p s'
     end.

(** [sub in s]. *)
Fixpoint contains (sub s : string) : bool :=
  startswith sub s
  || match s with
     | EmptyString => false
     | String _ s' => contains sub s'
     end.

(** [s.find(sub)]: the least index where [sub] occurs, or [-1]. *)
Fixpoint find_from (i : Z) (sub s : string) : Z :=
  if startswith sub s then i
  else match s with
       | EmptyString => -1
       | String _ s' => find_from (i + 1) sub s'
       end.

Definition find (sub s : string) : Z := find_from 0 sub s.

Definition len (s : string) : Z := Z.of_nat (String.length s).

(** One bound of a slice: negative bounds count from the end, and every
    bound is clipped to the string. *)
Definition clip (n : Z) (i : Z) : Z :=
  let j := if i <? 0 then i + n else i in
  Z.max 0 (Z.min n j).

(** [s[a:b]]. *)
Definition slice (s : string) (a b : Z) : string :=
  let a' := clip (len s) a in
  let b' := clip (len s) b in
  String.substring (Z.to_nat a') (Z.to_nat (b' - a')) s.

(** [s.lstrip(chars)], [s.rstrip(chars)] and [s.strip(chars)], for the set
    of characters on which [p] holds. *)
Fixpoint lstrip_with (p : ascii -> bool) (s : string) : string :=
  match s with
  | EmptyString => EmptyString
  | String c s' => if p c then lstrip_with p s' else s
  end.

Fixpoint rstrip_with (p : ascii -> bool) (s : string) : string :=
  match s with
  | EmptyString => EmptyString
  | String c s' =>
      match rstrip_with p s' with
      | EmptyString => if p c then EmptyString else String c EmptyString
      | r => String c r
      end
  end.

Definition strip_with (p : ascii -> bool) (s : string) : string :=
  rstrip_with p (lstrip_with p s).

(** [s.strip()]. *)
Definition strip (s : string) : string := strip_with isspace s.

(** The double quote character, and [s.strip(DQ)]. *)
Definition DQ : ascii := "034"%char.

Definition strip_quotes (s : string) : string :=
  strip_with (Ascii.eqb DQ) s.

(** [s.split(sep, 1)] for a one-character separator: the text before the
    first [sep] and the text after it; [None] when [sep] does not occur
    (the result then has a single element, which no caller unpacks). *)
Fixpoint split_once (sep : ascii) (s : string) : option (string * string) :=
  match s with
  | EmptyString => None
  | String c s' =>
      if Ascii.eqb c sep then Some (EmptyString, s')
      else match split_once sep s' with
           | Some (a, b) => Some (String c a, b)
           | None => None
           end
  end.

(** The lines a text file yields when iterated, with universal newlines:
    [\n], [\r] and [\r\n] all end a line and are handed over as [\n]. *)
Definition LF : ascii := "010"%char.
Definition CR : ascii := "013"%char.
Definition nl : string := String LF EmptyString.

Fixpoint file_lines (s : string) : list string :=
  match s with
  | EmptyString => []
  | String c s' =>
      if Ascii.eqb c LF then nl :: file_lines s'
      else if Ascii.eqb c CR then
        match s' with
        | String c' s'' =>
            if Ascii.eqb c' LF then nl :: file_lines s''
            else nl :: file_lines s'
        | EmptyString => [nl]
        end
      else match file_lines s' with
           | [] => [String c EmptyString]
           | l :: ls => String c l :: ls
           end
  end.

(** *** Integers *)

Definition digit (c : ascii) : option (uint -> uint) :=
  match c with
  | "0" => Some D0 | "1" => Some D1 | "2" => Some D2 | "3" => Some D3
  | "4" => Some D4 | "5" => Some D5 | "6" => Some D6 | "7" => Some D7
  | "8" => Some D8 | "9" => Some D9
  | _ => None
  end%char.

Definition is_digit (c : ascii) : bool :=
  match digit c with Some _ => true | None => false end.

(** The digits of an integer literal: decimal digits, with single
    underscores allowed between two digits. [after_digit] tells whether
    the previous character was a digit. *)
Fixpoint digits (after_digit : bool) (s : string) : option uint :=
  match s with
  | EmptyString => if after_digit then Some Nil else None
  | String c s' =>
      match digit c with
      | Some d => option_map d (digits true s')
      | None =>
          if Ascii.eqb c "_"%char && after_digit then
            match s' with
            | EmptyString => None
            | String c' _ =>
                match digit c' with
                | Some _ => digits false s'
                | None => None
                end
            end
          else None
      end
  end.

(** The white space that [int] drops around a literal: that of
    [str.isspace] without the four separators 28 to 31. *)
Definition int_isspace (c : ascii) : bool :=
  let n := code c in
  ((9 <=? n) && (n <=? 13) || (n =? 32) || (n =? 133) || (n =? 160))%N.

(** [int(s)]: white space around the literal is dropped, then an optional
    sign, then the digits. *)
Definition py_int (s : string) : option Z :=
  match strip_with int_isspace s with
  | String "-" s' => option_map (fun u => Z.opp (Z.of_uint u)) (digits false s')
  | String "+" s' => option_map Z.of_uint (digits false s')
  | s' => option_map Z.of_uint (digits false s')
  end.

(** [str(n)] for an integer. *)
Definition str_int (n : Z) : string := NilZero.string_of_int (Z.to_int n).

(** [sorted(d.items())] compares the keys by code point. *)
Definition key_le {A} (x y : string * A) : Prop := String.le (fst x) (fst y).

#[global] Instance key_le_dec {A} : RelDecision (@key_le A).
Proof. intros x y. unfold key_le. apply _. Defined.

End Py.

(** ** Values and dictionaries *)

(** The values a configuration holds. A [bool] of the interpreter is also an
    [int]: [isinstance_int] holds of it. *)
Inductive pyval : Type :=
  | PyBool (b : bool)
  | PyInt (n : Z)
  | PyStr (s : string).

#[global] Instance pyval_eq_dec : EqDecision pyval.
Proof. solve_decision. Defined.

Definition isinstance_bool (v : pyval) : bool :=
  match v with PyBool _ => true | _ => false end.

Definition isinstance_int (v : pyval) : bool :=
  match v with PyBool _ | PyInt _ => true | PyStr _ => false end.

Definition isinstance_str (v : pyval) : bool :=
  match v with PyStr _ => true | _ => false end.

(** Truth value of [v], as [if v:] and [not v] take it. *)
Definition truthy (v : pyval) : bool :=
  match v with
  | PyBool b => b
  | PyInt n => negb (n =? 0)
  | PyStr s => negb (Py.is_empty s)
  end.

(** [str(v)], which is also what an f-string writes for [{v}]. *)
Definition py_str (v : pyval) : string :=
  match v with
  | PyBool true => "True"
  | PyBool false => "False"
  | PyInt n => Py.str_int n
  | PyStr s => s
  end.

(** A dictionary keeps its keys in the order of their first insertion. *)
Abbreviation dict := (list (string * pyval)).

Fixpoint dict_get (k : string) (d : dict) : option pyval :=
  match d with
  | [] => None
  | (k', v) :: d' => if String.eqb k' k then Some v else dict_get k d'
  end.

(** [d[k] = v]: an existing key keeps its place. *)
Fixpoint dict_set (k : string) (v : pyval) (d : dict) : dict :=
  match d with
  | [] => [(k, v)]
  | (k', v') :: d' =>
      if String.eqb k' k then (k, v) :: d' else (k', v') :: dict_set k v d'
  end.

(** [d.update(other)]. *)
Definition dict_update (d other : dict) : dict :=
  fold_left (fun acc kv => dict_set (fst kv) (snd kv) acc) other d.

Definition dict_keys (d : dict) : list string := map fst d.

(** Equality of dictionaries: the same keys with the same values, whatever
    the order of insertion. *)
Definition dict_eq (d1 d2 : dict) : Prop :=
  forall k, dict_get k d1 = dict_get k d2.

(** The file system: the files that exist, with their contents. *)
Abbreviation files := (gmap string string).

(** ** menuconfig.py: the config store *)

Module Menuconfig.
Import Py.

(** The typed value of the text after the first [=] of a line. *)
Definition typed_value (value : string) : pyval :=
  if startswith (String DQ "") value && endswith (String DQ "") value
  then PyStr (slice value 1 (-1))
  else if String.eqb value "y" then PyBool true
  else if String.eqb value "n" then PyBool false
  else match py_int value with
       | Some n => PyInt n
       | None => PyStr value
       end.

(** The body of the loop of [load_config], for one line of the file. The
    branch for commented-out options sits, as in the script, under the
    test that the line does not start with [#]. *)
Definition load_line (config : dict) (raw : string) : dict :=
  let line := strip raw in
  if negb (is_empty line) && negb (startswith "#" line) then
    if contains "=" line then
      match split_once "="%char line with
      | Some (key, value) => dict_set key (typed_value value) config
      | None => config
      end
    else if startswith "#" line && contains " is not set" line then
      let key := slice line 2 (find " is not set" line) in
      dict_set key (PyBool false) config
    else config
  else config.

(** [load_config] on the text of an existing file. *)
Definition load_text (text : string) : dict :=
  fold_left load_line (file_lines text) [].

Definition load_config (fs : files) (config_file : string) : dict :=
  match fs !! config_file with
  | Some text => load_text text
  | None => []
  end.

(** The line [save_config] writes for one option, without its newline;
    [view_config] prints the same line. *)
Definition save_line (key : string) (value : pyval) : string :=
  if isinstance_bool value then
    if truthy value then key +:+ "=y"
    else "#" +:+ key +:+ " is not set"
  else if isinstance_int value then
    key +:+ "=" +:+ py_str value
  else
    key +:+ "=" +:+ String DQ (py_str value +:+ String DQ "").

Definition sorted_items (config : dict) : dict := merge_sort key_le config.

(** The chunks [save_config] writes, in order. *)
Definition save_chunks (config : dict) : list string :=
  ("# LittleKernel Configuration" +:+ nl) :: nl ::
  map (fun kv => save_line (fst kv) (snd kv) +:+ nl) (sorted_items config).

Definition save_text (config : dict) : string :=
  fold_right String.append "" (save_chunks config).

Definition save_config (config : dict) (config_file : string) (fs : files) : files :=
  <[config_file := save_text config]> fs.

End Menuconfig.

(** ** config_header_generator.py *)

Module HeaderGen.
Import Py.

(** An entry of [defines]: name, value text and type description. *)
Definition define : Type := string * string * string.

Definition def_name (d : define) : string := fst (fst d).
Definition def_value (d : define) : string := snd (fst d).
Definition def_type (d : define) : string := snd d.

(** [x in [a, b, c]]. *)
Definition py_in (x : string) (l : list string) : bool :=
  existsb (String.eqb x) l.

Definition true_tokens : list string := ["y"; "yes"; "true"].
Definition false_tokens : list string := ["n"; "no"; "false"].

(** The entry appended for [config_name] and the text [config_value]
    after the first [=]. *)
Definition define_of (config_name config_value : string) : define :=
  if startswith (String DQ "") config_value
     && endswith (String DQ "") config_value then
    let config_value := strip_quotes config_value in
    (config_name, String DQ (config_value +:+ String DQ ""), "string")
  else if py_in (lower config_value) true_tokens then
    (config_name, "1", "boolean")
  else if py_in (lower config_value) false_tokens then
    (config_name, "0", "boolean")
  else
    (config_name, config_value, "numeric").

(** The body of the reading loop, for one line of the file. *)
Definition parse_line (defines : list define) (raw : string) : list define :=
  let line := strip raw in
  if is_empty line || startswith "#" line then
    if startswith "# CONFIG_" line && contains "is not set" line then
      let config_name := slice line 2 (find " is not set" line) in
      defines ++ [(config_name, "0", "disabled")]
    else defines
  else if contains "=" line then
    match split_once "="%char line with
    | Some (part0, part1) =>
        defines ++ [define_of (strip part0) (strip part1)]
    | None => defines
    end
  else defines.

Definition parse_text (text : string) : list define :=
  fold_left parse_line (file_lines text) [].

(** The three lines written for one entry, and the blank line after
    them. *)
Definition define_line (d : define) : string :=
  "#define " +:+ def_name d +:+ " " +:+ def_value d
  +:+ "  /* " +:+ def_type d +:+ " */".

Definition define_block (d : define) : list string :=
  [ "#ifndef " +:+ def_name d;
    define_line d;
    "#endif";
    "" ].

(** The lines written to the header file, in order, each without the
    newline that ends it. *)
Definition header_lines (defines : list define) : list string :=
  [ "/* Auto-generated from .config - DO NOT EDIT */";
    "#ifndef _KERNEL_CONFIG_DEFINES_H";
    "#define _KERNEL_CONFIG_DEFINES_H";
    "" ]
  ++ flat_map define_block defines
  ++ [ "#endif /* _KERNEL_CONFIG_DEFINES_H */" ].

Definition header_text (defines : list define) : string :=
  fold_right (fun l acc => l +:+ nl +:+ acc) "" (header_lines defines).

(** [generate_config_header(config_file, header_file)]: the value
    returned, the file system afterwards and the lines printed. *)
Definition generate_config_header (config_file header_file : string)
    (fs : files) : bool * files * list string :=
  match fs !! config_file with
  | None =>
      (false, fs, ["Error: " +:+ config_file +:+ " does not exist"])
  | Some text =>
      let defines := parse_text text in
      (true,
       <[header_file := header_text defines]> fs,
       ["Generated " +:+ header_file +:+ " with "
        +:+ str_int (Z.of_nat (length defines))
        +:+ " configuration defines"])
  end.

Definition default_config_file : string := ".config".
Definition default_header_file : string := "kernel_config_defines.h".

End HeaderGen.

(** ** menuconfig.py: the interactive editor *)

Module Editor.
Import Py Menuconfig.

(** What the process does to the terminal. *)
Inductive event : Type :=
  | Clear
  | Print (s : string)
  | Prompt (s : string).

(** The state the editor runs in: the one [config] dictionary that every
    function receives and mutates in place, the file system, the lines
    still to be read from the terminal and what has been written to it. *)
Record state : Type := State {
  config : dict;
  disk : files;
  stdin : list string;
  tty : list event
}.

(** Exceptions no function of the editor catches. [OSError] is what
    [subprocess.run] raises when the system cannot execute the file it is
    given; [PermissionError] is one of its subclasses. *)
Inductive exn : Type := EOFError | KeyError | IndexError | OSError.

(** How a run of an external program ends: with an exit status, [true]
    for zero, or not at all, when the system cannot execute the file. *)
Inductive run_result : Type :=
  | Exited (ok : bool)
  | NotRun.

Inductive outcome (A : Type) : Type :=
  | Ret (a : A)
  | Raise (e : exn)
  | OutOfFuel.
Arguments Ret {A} a.
Arguments Raise {A} e.
Arguments OutOfFuel {A}.

Definition M (A : Type) : Type := state -> outcome A * state.

Definition ret {A} (a : A) : M A := fun s => (Ret a, s).

Definition bind {A B} (m : M A) (f : A -> M B) : M B :=
  fun s =>
    match m s with
    | (Ret a, s') => f a s'
    | (Raise e, s') => (Raise e, s')
    | (OutOfFuel, s') => (OutOfFuel, s')
    end.

Declare Scope editor_scope.
Delimit Scope editor_scope with editor.
Notation "x <- m ;; k" := (bind m (fun x => k))
  (at level 90, m at next level, right associativity) : editor_scope.
Notation "m ;;; k" := (bind m (fun _ => k))
  (at level 90, right associativity) : editor_scope.
Local Open Scope editor_scope.

Definition raise {A} (e : exn) : M A := fun s => (Raise e, s).

Definition emit (e : event) : M unit :=
  fun s => (Ret tt, State (config s) (disk s) (stdin s) (tty s ++ [e])).

Definition print (line : string) : M unit := emit (Print line).
Definition clear_screen : M unit := emit Clear.

(** [input(prompt)]: the next line of the terminal, or [EOFError]. *)
Definition input (prompt : string) : M string :=
  fun s =>
    let s' := State (config s) (disk s) (stdin s) (tty s ++ [Prompt prompt]) in
    match stdin s with
    | [] => (Raise EOFError, s')
    | l :: rest => (Ret l, State (config s') (disk s') rest (tty s'))
    end.

Definition get_config : M dict := fun s => (Ret (config s), s).

Definition put_config (c : dict) : M unit :=
  fun s => (Ret tt, State c (disk s) (stdin s) (tty s)).

Definition get_disk : M files := fun s => (Ret (disk s), s).

Definition put_disk (fs : files) : M unit :=
  fun s => (Ret tt, State (config s) fs (stdin s) (tty s)).

(** [config[key]]. *)
Definition config_item (key : string) : M pyval :=
  c <- get_config ;;
  match dict_get key c with
  | Some v => ret v
  | None => raise KeyError
  end.

(** [config[key] = v]. *)
Definition config_assign (key : string) (v : pyval) : M unit :=
  c <- get_config ;; put_config (dict_set key v c).

Fixpoint print_all (lines : list string) : M unit :=
  match lines with
  | [] => ret tt
  | l :: ls => print l ;;; print_all ls
  end.

(** The format [{i:2d}]. *)
Definition fmt2d (i : Z) : string :=
  let s := str_int i in
  if (String.length s <? 2)%nat then " " +:+ s else s.

Definition quoted (s : string) : string := String DQ (s +:+ String DQ "").

(** [enumerate(options.items(), 1)], each item rendered by [render]. *)
Definition listing (render : Z -> string -> pyval -> string)
    (options : dict) : list string :=
  imap (fun i kv => render (Z.of_nat i + 1) (fst kv) (snd kv)) options.

(** [list(options.keys())[choice - 1]]. *)
Definition key_at (options : dict) (choice : Z) : M string :=
  match nth_error (dict_keys options) (Z.to_nat (choice - 1)) with
  | Some k => ret k
  | None => raise IndexError
  end.

Definition press_enter : M unit :=
  _ <- input "Press Enter to continue..." ;; ret tt.

Definition bool_options (c : dict) : dict :=
  filter (fun kv => isinstance_bool (snd kv) = true) c.

Definition int_options (c : dict) : dict :=
  filter (fun kv => isinstance_int (snd kv) = true) c.

Definition str_options (c : dict) : dict :=
  filter (fun kv => (isinstance_str (snd kv)
                     && negb (isinstance_bool (snd kv))) = true) c.

Definition bool_entry (i : Z) (key : string) (value : pyval) : string :=
  fmt2d i +:+ ". [" +:+ (if truthy value then "Y" else "N") +:+ "] " +:+ key.

Definition int_entry (i : Z) (key : string) (value : pyval) : string :=
  fmt2d i +:+ ". " +:+ key +:+ " = " +:+ py_str value.

Definition str_entry (i : Z) (key : string) (value : pyval) : string :=
  fmt2d i +:+ ". " +:+ key +:+ " = " +:+ quoted (py_str value).

Definition toggle_bool_options : M unit :=
  c <- get_config ;;
  let options := bool_options c in
  clear_screen ;;;
  print "Boolean Options" ;;;
  print "===============" ;;;
  print "" ;;;
  match options with
  | [] =>
      print "No boolean options found." ;;;
      press_enter
  | _ =>
      print_all (listing bool_entry options) ;;;
      print "" ;;;
      print "0. Back to main menu" ;;;
      print "" ;;;
      answer <- input "Enter option number to toggle (0 to go back): " ;;
      match py_int (strip answer) with
      | Some choice =>
          if choice =? 0 then ret tt
          else if (1 <=? choice) && (choice <=? Z.of_nat (length options)) then
            key <- key_at options choice ;;
            v <- config_item key ;;
            config_assign key (PyBool (negb (truthy v))) ;;;
            v' <- config_item key ;;
            print ("Toggled " +:+ key +:+ " to "
                   +:+ (if truthy v' then "y" else "n")) ;;;
            press_enter
          else
            print "Invalid option number." ;;;
            press_enter
      | None =>
          print "Invalid input. Please enter a number." ;;;
          press_enter
      end
  end.

Definition set_int_options : M unit :=
  c <- get_config ;;
  let options := int_options c in
  clear_screen ;;;
  print "Integer Options" ;;;
  print "===============" ;;;
  print "" ;;;
  match options with
  | [] =>
      print "No integer options found." ;;;
      press_enter
  | _ =>
      print_all (listing int_entry options) ;;;
      print "" ;;;
      print "0. Back to main menu" ;;;
      print "" ;;;
      answer <- input "Enter option number to modify (0 to go back): " ;;
      match py_int (strip answer) with
      | Some choice =>
          if choice =? 0 then ret tt
          else if (1 <=? choice) && (choice <=? Z.of_nat (length options)) then
            key <- key_at options choice ;;
            current <- config_item key ;;
            typed <- input ("Enter new value for " +:+ key +:+ " (current: "
                            +:+ py_str current +:+ "): ") ;;
            let new_val := strip typed in
            match py_int new_val with
            | Some n =>
                config_assign key (PyInt n) ;;;
                v' <- config_item key ;;
                print ("Set " +:+ key +:+ " to " +:+ py_str v')
            | None =>
                print ("Invalid value. Keeping current value: "
                       +:+ py_str current)
            end ;;;
            press_enter
          else
            print "Invalid option number." ;;;
            press_enter
      | None =>
          print "Invalid input. Please enter a number." ;;;
          press_enter
      end
  end.

Definition set_string_options : M unit :=
  c <- get_config ;;
  let options := str_options c in
  clear_screen ;;;
  print "String Options" ;;;
  print "==============" ;;;
  print "" ;;;
  match options with
  | [] =>
      print "No string options found." ;;;
      press_enter
  | _ =>
      print_all (listing str_entry options) ;;;
      print "" ;;;
      print "0. Back to main menu" ;;;
      print "" ;;;
      answer <- input "Enter option number to modify (0 to go back): " ;;
      match py_int (strip answer) with
      | Some choice =>
          if choice =? 0 then ret tt
          else if (1 <=? choice) && (choice <=? Z.of_nat (length options)) then
            key <- key_at options choice ;;
            current <- config_item key ;;
            typed <- input ("Enter new value for " +:+ key +:+ " (current: "
                            +:+ quoted (py_str current) +:+ "): ") ;;
            let new_val := strip typed in
            config_assign key (PyStr new_val) ;;;
            v' <- config_item key ;;
            print ("Set " +:+ key +:+ " to " +:+ quoted (py_str v')) ;;;
            press_enter
          else
            print "Invalid option number." ;;;
            press_enter
      | None =>
          print "Invalid input. Please enter a number." ;;;
          press_enter
      end
  end.

Definition view_config : M unit :=
  clear_screen ;;;
  print "Current Configuration" ;;;
  print "=====================" ;;;
  print "" ;;;
  c <- get_config ;;
  print_all (map (fun kv => save_line (fst kv) (snd kv)) (sorted_items c)) ;;;
  print "" ;;;
  press_enter.

(** [save_config(config, '.config')]. *)
Definition save_current : M unit :=
  c <- get_config ;;
  fs <- get_disk ;;
  put_disk (save_config c ".config" fs).

Section WithConfigurator.

(** The external full-screen configurator [configure_kernel.sh], next
    to the script: whether it is there, and what running it does to
    the file system and how the run ends. Only the exception for a
    non-zero exit status is caught; when the file is there but cannot be
    executed, [OSError] leaves the function. *)
Variable script_path : string.
Variable run_script : files -> run_result * files.

Definition use_dialog_interface : M bool :=
  fs <- get_disk ;;
  match fs !! script_path with
  | Some _ =>
      match run_script fs with
      | (Exited ok, fs') =>
          put_disk fs' ;;;
          if ok then ret true
          else
            print "Error running dialog configuration interface." ;;;
            ret false
      | (NotRun, _) => raise OSError
      end
  | None =>
      print ("Dialog configuration script not found: " +:+ script_path) ;;;
      ret false
  end.

(** One round of the loop of [display_text_menu]; [true] when the loop
    goes on. *)
Definition text_menu_round : M bool :=
  clear_screen ;;;
  print "LittleKernel Configuration - Text Mode" ;;;
  print "=====================================" ;;;
  print "" ;;;
  print "1. Toggle boolean options" ;;;
  print "2. Set integer options" ;;;
  print "3. Set string options" ;;;
  print "4. View current configuration" ;;;
  print "5. Save and exit" ;;;
  print "6. Return to main menu" ;;;
  print "" ;;;
  answer <- input "Enter your choice (1-6): " ;;
  let choice := strip answer in
  if String.eqb choice "1" then toggle_bool_options ;;; ret true
  else if String.eqb choice "2" then set_int_options ;;; ret true
  else if String.eqb choice "3" then set_string_options ;;; ret true
  else if String.eqb choice "4" then view_config ;;; ret true
  else if String.eqb choice "5" then
    save_current ;;;
    print "Configuration saved to .config" ;;;
    ret false
  else if String.eqb choice "6" then ret false
  else
    print "Invalid choice. Press Enter to continue..." ;;;
    _ <- input "" ;;
    ret true.

Fixpoint display_text_menu (fuel : nat) : M unit :=
  match fuel with
  | O => fun s => (OutOfFuel, s)
  | S fuel' =>
      again <- text_menu_round ;;
      if again then display_text_menu fuel' else ret tt
  end.

(** One round of the loop of [display_menu]. *)
Definition main_menu_round (fuel : nat) : M bool :=
  clear_screen ;;;
  print "LittleKernel Configuration" ;;;
  print "=========================" ;;;
  print "" ;;;
  print "1. Use dialog-based configuration (recommended)" ;;;
  print "2. Use text-based configuration" ;;;
  print "3. View current configuration" ;;;
  print "4. Save and exit" ;;;
  print "5. Exit without saving" ;;;
  print "" ;;;
  answer <- input "Enter your choice (1-5): " ;;
  let choice := strip answer in
  if String.eqb choice "1" then
    ok <- use_dialog_interface ;;
    if ok then
      c <- get_config ;;
      fs <- get_disk ;;
      put_config (dict_update c (load_config fs ".config")) ;;;
      ret true
    else ret true
  else if String.eqb choice "2" then display_text_menu fuel ;;; ret true
  else if String.eqb choice "3" then view_config ;;; ret true
  else if String.eqb choice "4" then
    save_current ;;;
    print "Configuration saved to .config" ;;;
    ret false
  else if String.eqb choice "5" then ret false
  else
    print "Invalid choice. Press Enter to continue..." ;;;
    _ <- input "" ;;
    ret true.

Fixpoint display_menu (fuel : nat) : M unit :=
  match fuel with
  | O => fun s => (OutOfFuel, s)
  | S fuel' =>
      again <- main_menu_round fuel' ;;
      if again then display_menu fuel' else ret tt
  end.

(** The options [main] starts from when the loaded config is empty. *)
Definition default_config : dict :=
  [ ("CONFIG_X86", PyBool true);
    ("CONFIG_SERIAL_CONSOLE", PyBool true);
    ("CONFIG_VGA_CONSOLE", PyBool true);
    ("CONFIG_KERNEL_DEBUG", PyBool true);
    ("CONFIG_VERBOSE_LOG", PyBool false);
    ("CONFIG_RUNTIME_CONFIG", PyBool true);
    ("CONFIG_HAL", PyBool true);
    ("CONFIG_PROFILING", PyBool false);
    ("CONFIG_MODULES", PyBool true);
    ("CONFIG_PCI", PyBool true);
    ("CONFIG_TIMER_HZ", PyInt 100);
    ("CONFIG_MAX_PROCESSES", PyInt 128);
    ("CONFIG_KERNEL_HEAP_SIZE", PyInt 16);
    ("CONFIG_EARLY_MEM", PyBool true);
    ("CONFIG_HW_DIAGNOSTICS", PyBool true);
    ("CONFIG_ERROR_HANDLING", PyBool true) ].

(** The dictionary [main] hands to [display_menu]. *)
Definition starting_config (fs : files) : dict :=
  let c := load_config fs ".config" in
  match c with
  | [] => default_config
  | _ => c
  end.

(** [main], on a file system and the lines typed at the terminal. Every
    round of a menu reads at least one line, so the number of lines
    bounds the number of rounds. *)
Definition main (fs : files) (typed : list string) : outcome unit * state :=
  display_menu (S (length typed))
    (State (starting_config fs) fs typed []).

End WithConfigurator.

(** What a list of the text menu may do to the config: nothing, or set the
    option under one of the listed keys. *)
Inductive edits (listed : dict) (allowed : pyval -> pyval -> Prop)
    (before after : dict) : Prop :=
  | edits_nothing : after = before -> edits listed allowed before after
  | edits_one (k : string) (v v' : pyval) :
      In k (dict_keys listed) ->
      dict_get k before = Some v ->
      allowed v v' ->
      after = dict_set k v' before ->
      edits listed allowed before after.

(** [m] stays within its fuel and takes lines from the input without ever
    putting one back, from every state with at most [n] lines to read. *)
Definition steady (n : nat) {A} (m : M A) : Prop :=
  forall s, (length (stdin s) <= n)%nat ->
    fst (m s) <> OutOfFuel
    /\ (length (stdin (snd (m s))) <= length (stdin s))%nat.

(** [m] moreover reads at least one line when it returns. *)
Definition consuming (n : nat) {A} (m : M A) : Prop :=
  forall s, (length (stdin s) <= n)%nat ->
    fst (m s) <> OutOfFuel
    /\ (length (stdin (snd (m s))) <= length (stdin s))%nat
    /\ forall a, fst (m s) = Ret a ->
         (length (stdin (snd (m s))) < length (stdin s))%nat.

(** An answer to a list that selects nothing: no number, or a number that
    is not the number of a listed option. *)
Definition no_selection (options : dict) (answer : string) : bool :=
  match py_int (strip answer) with
  | Some choice => (choice <=? 0) || (Z.of_nat (length options) <? choice)
  | None => true
  end.

(** Every exception that leaves [m] is one of [allowed]. *)
Definition raises_only (allowed : exn -> Prop) {A} (m : M A) : Prop :=
  forall s e, fst (m s) = Raise e -> allowed e.

(** [m] writes no file. *)
Definition keeps_disk {A} (m : M A) : Prop :=
  forall s, disk (snd (m s)) = disk s.

End Editor.

(** ** The forms of a saved config *)

Module SaveForms.
Import Py Menuconfig.

(** The four forms of line that [save_config] writes: [NAME=y],
    [#NAME is not set], [NAME=<decimal integer>] and [NAME="s"]. *)
Inductive canonical_line : string -> Prop :=
  | canon_enabled (name : string) :
      canonical_line (name +:+ "=y")
  | canon_disabled (name : string) :
      canonical_line ("#" +:+ name +:+ " is not set")
  | canon_integer (name : string) (n : Z) :
      canonical_line (name +:+ "=" +:+ str_int n)
  | canon_string (name s : string) :
      canonical_line (name +:+ "=" +:+ String DQ (s +:+ String DQ "")).

(** A line as the file yields it: a canonical line, followed by its
    newline unless the file ends without one. *)
Definition canonical (l : string) : Prop :=
  exists body, canonical_line body /\ (l = body \/ l = body +:+ nl).

(** A config text that only uses the four forms. *)
Definition canonical_text (text : string) : Prop :=
  Forall canonical (file_lines text).

(** No line break inside [s]. *)
Fixpoint no_break (s : string) : bool :=
  match s with
  | EmptyString => true
  | String c s' => negb (Ascii.eqb c LF) && negb (Ascii.eqb c CR) && no_break s'
  end.

Fixpoint last_char (s : string) : option ascii :=
  match s with
  | EmptyString => None
  | String c EmptyString => Some c
  | String _ s' => last_char s'
  end.

Fixpoint all_chars (p : ascii -> bool) (s : string) : bool :=
  match s with
  | EmptyString => true
  | String c s' => p c && all_chars p s'
  end.

Definition head_char (s : string) : option ascii :=
  match s with
  | EmptyString => None
  | String c _ => Some c
  end.

Definition is_sign_or_digit (c : ascii) : bool :=
  is_digit c || Ascii.eqb c "-".

(** What [load_config] can hold: a key has no line break and no [=], and
    does not start with white space or [#]; a string value has no line
    break. *)
Definition key_ok (k : string) : bool :=
  no_break k
  && all_chars (fun c => negb (Ascii.eqb c "=")) k
  && match k with
     | EmptyString => true
     | String c _ => negb (isspace c) && negb (Ascii.eqb c "#")
     end.

Definition value_ok (v : pyval) : bool :=
  match v with
  | PyStr s => no_break s
  | _ => true
  end.

Definition entry_ok (kv : string * pyval) : bool :=
  key_ok (fst kv) && value_ok (snd kv).

Definition well_formed (d : dict) : Prop :=
  NoDup (dict_keys d) /\ Forall (fun kv => entry_ok kv = true) d.

Definition is_false (v : pyval) : bool :=
  match v with
  | PyBool false => true
  | _ => false
  end.

(** The text [save_line] puts after the [=] of an option that is not
    switched off. *)
Definition saved_value (v : pyval) : string :=
  match v with
  | PyBool _ => "y"
  | PyInt n => str_int n
  | PyStr s => String DQ (s +:+ String DQ "")
  end.

(** The options of [d] that are not switched off. *)
Definition enabled (d : dict) : dict :=
  filter (fun kv => is_false (snd kv) = false) d.

(** The texts a boolean would be written with if the integer test came
    first: what [str] makes of it, and the integers it stands for. *)
Definition bare_values : list string := ["1"; "0"; "True"; "False"].

End SaveForms.

(** ** The forms of a header entry *)

Module HeaderForms.
Import Py HeaderGen.

(** The entry the header generator makes of the line saved for the option
    [kv], when the option is not switched off. *)
Definition header_entry (kv : string * pyval) : define :=
  let name := strip (fst kv) in
  match snd kv with
  | PyBool _ => (name, "1", "boolean")
  | PyInt n => (name, str_int n, "numeric")
  | PyStr s => (name, String DQ (strip_quotes s +:+ String DQ ""), "string")
  end.

(** No part of the entry breaks a line of the header. *)
Definition define_ok (d : define) : bool :=
  SaveForms.no_break (def_name d)
  && SaveForms.no_break (def_value d)
  && SaveForms.no_break (def_type d).

End HeaderForms.

(** ** Configs the editor can save and load again *)

Module EditorForms.
Import Py Menuconfig Editor SaveForms.

(** The config in memory is one that [load_config] can hold, and the
    lines still to be typed are lines. *)
Definition sound (s : state) : Prop :=
  well_formed (config s)
  /\ Forall (fun l => no_break l = true) (stdin s).

(** [m] keeps the state sound, whether it returns or raises. *)
Definition keeps_sound {A} (m : M A) : Prop :=
  forall s, sound s -> sound (snd (m s)).

End EditorForms.

(** ** The scenario of the specification *)

Module Scenario.
Import Py.

Definition config_text : string :=
  "CONFIG_PCI=y" +:+ nl
  +:+ "# CONFIG_USB is not set" +:+ nl
  +:+ "CONFIG_TIMER_HZ=100" +:+ nl
  +:+ "CONFIG_NAME=" +:+ String DQ ("LittleKernel" +:+ String DQ nl).

Definition timer_block : list string :=
  [ "#ifndef CONFIG_TIMER_HZ";
    "#define CONFIG_TIMER_HZ 100  /* numeric */";
    "#endif" ].

Definition timer_block_text : string :=
  "#ifndef CONFIG_TIMER_HZ" +:+ nl
  +:+ "#define CONFIG_TIMER_HZ 100  /* numeric */" +:+ nl
  +:+ "#endif" +:+ nl.

(** [needle] occurs in [hay] as a run of consecutive elements. *)
Fixpoint occurs_in {A} `{EqDecision A} (needle hay : list A) : bool :=
  bool_decide (take (length needle) hay = needle)
  || match hay with
     | [] => false
     | _ :: hay' => occurs_in needle hay'
     end.

End Scenario.

(** ** A session with two options *)

Module Session.
Import Py Editor.

(** A config with one boolean and one integer option, and the file it
    was loaded from. *)
Definition options : dict :=
  [ ("CONFIG_PCI", PyBool true); ("CONFIG_TIMER_HZ", PyInt 100) ].

Definition script : string := "scripts/configure_kernel.sh".

Definition on_disk : files :=
  {[ ".config" := "CONFIG_PCI=y" +:+ nl +:+ "CONFIG_TIMER_HZ=100" +:+ nl;
     script := "#!/bin/sh" +:+ nl ]}.

(** An external configurator that succeeds and leaves a config file
    without the timer option. *)
Definition drops_timer (fs : files) : run_result * files :=
  (Exited true, <[ ".config" := "CONFIG_PCI=y" +:+ nl ]> fs).

(** An external configurator that fails after it wrote the same file. *)
Definition fails (fs : files) : run_result * files :=
  (Exited false, <[ ".config" := "CONFIG_PCI=y" +:+ nl ]> fs).

Definition start (typed : list string) : state :=
  State options on_disk typed [].

End Session.

(** * Properties *)

Import Py Menuconfig HeaderGen Editor SaveForms HeaderForms EditorForms.

(** ** Facts on the string functions *)

Section StringFacts.

Lemma app_cons (c : ascii) (s t : string) :
  String c s +:+ t = String c (s +:+ t).
Proof. reflexivity. Qed.

Lemma app_empty_l (t : string) : "" +:+ t = t.
Proof. reflexivity. Qed.

Lemma app_empty_r (s : string) : s +:+ "" = s.
Proof. induction s as [|c s IH]; [reflexivity|]. by rewrite app_cons, IH. Qed.

Lemma app_assoc' (s t u : string) : (s +:+ t) +:+ u = s +:+ (t +:+ u).
Proof.
  induction s as [|c s IH]; [reflexivity|].
  by rewrite !app_cons, IH.
Qed.

Variable p : ascii -> bool.

Lemma lstrip_head (c : ascii) (s : string) :
  p c = false -> lstrip_with p (String c s) = String c s.
Proof. intros H. simpl. by rewrite H. Qed.

Lemma rstrip_head (c : ascii) (s : string) :
  p c = false -> rstrip_with p (String c s) = String c (rstrip_with p s).
Proof.
  intros H. simpl. destruct (rstrip_with p s); [by rewrite H|done].
Qed.

Lemma rstrip_all (s : string) :
  all_chars p s = true -> rstrip_with p s = "".
Proof.
  induction s as [|c s IH]; [done|]. simpl.
  intros [Hc Hs]%andb_true_iff. by rewrite IH, Hc.
Qed.

Lemma lstrip_all (s : string) :
  all_chars p s = true -> lstrip_with p s = "".
Proof.
  induction s as [|c s IH]; [done|]. simpl.
  intros [Hc Hs]%andb_true_iff. by rewrite Hc, IH.
Qed.

Lemma rstrip_app_all (s t : string) :
  all_chars p t = true -> rstrip_with p (s +:+ t) = rstrip_with p s.
Proof.
  intros Ht. induction s as [|c s IH].
  - rewrite app_empty_l. by apply rstrip_all.
  - rewrite app_cons. simpl. by rewrite IH.
Qed.

Lemma rstrip_none (s : string) :
  all_chars (fun c => negb (p c)) s = true -> rstrip_with p s = s.
Proof.
  induction s as [|c s IH]; [done|]. simpl.
  intros [Hc Hs]%andb_true_iff. rewrite IH by done.
  apply negb_true_iff in Hc. rewrite Hc. by destruct s.
Qed.

Lemma rstrip_app_none (s t : string) :
  t <> "" -> all_chars (fun c => negb (p c)) t = true ->
  rstrip_with p (s +:+ t) = s +:+ t.
Proof.
  intros Hne Ht. induction s as [|c s IH].
  - rewrite app_empty_l. by apply rstrip_none.
  - rewrite app_cons. simpl. rewrite IH.
    destruct (s +:+ t) eqn:E; [|done].
    destruct s; [by rewrite app_empty_l in E|done].
Qed.

Lemma lstrip_app (s t : string) :
  lstrip_with p (s +:+ t)
  = if all_chars p s then lstrip_with p t else lstrip_with p s +:+ t.
Proof.
  induction s as [|c s IH]; [done|].
  rewrite app_cons. simpl. destruct (p c); [|done]. by rewrite IH.
Qed.

(** A newline at the end of a line does not survive [strip]. *)
Lemma strip_with_app_all (s t : string) :
  all_chars p t = true ->
  strip_with p (s +:+ t) = strip_with p s.
Proof.
  intros Ht. unfold strip_with. rewrite lstrip_app.
  destruct (all_chars p s) eqn:Hs.
  - by rewrite (lstrip_all t), (lstrip_all s).
  - by apply rstrip_app_all.
Qed.

Lemma strip_with_fixed (c : ascii) (s t : string) :
  p c = false -> t <> "" -> all_chars (fun c => negb (p c)) t = true ->
  strip_with p (String c (s +:+ t)) = String c (s +:+ t).
Proof.
  intros Hc Hne Ht. unfold strip_with.
  rewrite lstrip_head by done.
  by rewrite <- app_cons, rstrip_app_none.
Qed.

Lemma strip_with_head (c : ascii) (s : string) :
  p c = false -> strip_with p (String c s) = String c (rstrip_with p s).
Proof.
  intros Hc. unfold strip_with. rewrite lstrip_head by done.
  by apply rstrip_head.
Qed.

End StringFacts.

Lemma strip_newline (s : string) : strip (s +:+ nl) = strip s.
Proof. by apply strip_with_app_all. Qed.

(** ** The editor's loader and lines that start with [#] *)

Lemma load_line_comment (config : dict) (rest : string) :
  load_line config (String "#" rest) = config.
Proof.
  unfold load_line, strip. rewrite strip_with_head by done.
  replace (startswith "#" (String "#" (rstrip_with isspace rest))) with true
    by reflexivity.
  reflexivity.
Qed.

Lemma typed_value_false (value : string) :
  typed_value value = PyBool false <-> value = "n".
Proof.
  split; [|by intros ->].
  unfold typed_value.
  destruct (_ && _); [done|].
  destruct (String.eqb_spec value "y"); [done|].
  destruct (String.eqb_spec value "n"); [done|].
  by destruct (py_int value).
Qed.

Lemma typed_value_true (value : string) :
  typed_value value = PyBool true <-> value = "y".
Proof.
  split; [|by intros ->].
  unfold typed_value.
  destruct (_ && _); [done|].
  destruct (String.eqb_spec value "y"); [done|].
  destruct (String.eqb_spec value "n"); [done|].
  by destruct (py_int value).
Qed.

(** C2. The editor's loader drops a line [# NAME is not set] instead of
    loading [NAME] as false: the branch written for it is under the test
    that the line does not start with [#]. The saver writes a false option
    as [#NAME is not set], and the loader drops that line as well. The
    reader of the header generator does record the option. *)
Theorem disabled_form_not_loaded :
  load_text ("# CONFIG_USB is not set" +:+ nl) = []
  /\ save_line "CONFIG_USB" (PyBool false) = "#CONFIG_USB is not set"
  /\ load_text (save_text [("CONFIG_USB", PyBool false)]) = []
  /\ (forall (config : dict) (name : string),
        load_line config ("# " +:+ name +:+ " is not set" +:+ nl) = config
        /\ load_line config (save_line name (PyBool false) +:+ nl) = config)
  /\ parse_text ("# CONFIG_USB is not set" +:+ nl)
     = [("CONFIG_USB", "0", "disabled")].
Proof.
  split; [by vm_compute|].
  split; [by vm_compute|].
  split; [by vm_compute|].
  split; [|by vm_compute].
  intros config name. split; apply load_line_comment.
Qed.

(** C3. On the scenario file the editor's loader returns three options:
    [CONFIG_USB], given in the disabled form, is missing. The header
    generated from the same file holds the block of [CONFIG_TIMER_HZ], and
    the generator's own reader finds the four entries. *)
Theorem scenario_load_and_compile :
  load_text Scenario.config_text
  = [ ("CONFIG_PCI", PyBool true);
      ("CONFIG_TIMER_HZ", PyInt 100);
      ("CONFIG_NAME", PyStr "LittleKernel") ]
  /\ dict_get "CONFIG_USB" (load_text Scenario.config_text) = None
  /\ Scenario.occurs_in Scenario.timer_block
       (header_lines (parse_text Scenario.config_text)) = true
  /\ (let '(ok, out, _) :=
        generate_config_header ".config" "kernel_config_defines.h"
          {[ ".config" := Scenario.config_text ]} in
      ok = true
      /\ exists header, out !! "kernel_config_defines.h" = Some header
                        /\ contains Scenario.timer_block_text header = true)
  /\ parse_text Scenario.config_text
     = [ ("CONFIG_PCI", "1", "boolean");
         ("CONFIG_USB", "0", "disabled");
         ("CONFIG_TIMER_HZ", "100", "numeric");
         ("CONFIG_NAME", String DQ ("LittleKernel" +:+ String DQ ""), "string") ].
Proof.
  split; [by vm_compute|].
  split; [by vm_compute|].
  split; [by vm_compute|].
  split; [|by vm_compute].
  unfold generate_config_header. rewrite lookup_singleton_eq.
  split; [done|]. eexists. split; [apply lookup_insert_eq|]. by vm_compute.
Qed.

(** ** What the viewer prints *)

Lemma string_length_app (s t : string) :
  String.length (s +:+ t) = (String.length s + String.length t)%nat.
Proof.
  induction s as [|c s IH]; [done|]. rewrite app_cons. simpl. by rewrite IH.
Qed.

Lemma print_all_run (lines : list string) (s : state) :
  print_all lines s
  = (Ret tt, State (config s) (disk s) (stdin s) (tty s ++ map Print lines)).
Proof.
  revert s. induction lines as [|l ls IH]; intros s.
  - simpl. unfold ret. destruct s. simpl. by rewrite app_nil_r.
  - simpl. unfold bind, print, emit. rewrite IH. simpl.
    by rewrite <- app_assoc.
Qed.

Lemma view_config_tty (s : state) :
  tty (snd (view_config s))
  = tty s
    ++ [Clear; Print "Current Configuration"; Print "====================="; Print ""]
    ++ map Print (map (fun kv => save_line (fst kv) (snd kv)) (sorted_items (config s)))
    ++ [Print ""; Prompt "Press Enter to continue..."].
Proof.
  unfold view_config, press_enter, clear_screen, print, emit, get_config,
    input, bind, ret.
  simpl. rewrite print_all_run. simpl.
  destruct (stdin s); simpl; by rewrite <- !app_assoc.
Qed.

Lemma sorted_items_elem (c : dict) (kv : string * pyval) :
  In kv c -> In kv (sorted_items c).
Proof.
  intros H. apply list_elem_of_In. unfold sorted_items.
  rewrite merge_sort_Permutation. by apply list_elem_of_In.
Qed.

(** ** A config file that does not exist *)

(** C7. When the config file it is given does not exist, the header
    generator returns [False], reports the missing file and leaves the
    file system as it is, whatever other files there are. When [.config]
    does not exist, the editor loads an empty config and starts from the
    built-in options, each of them a boolean or an integer. *)
Theorem missing_source_handling
    (script_path : string) (run_script : files -> run_result * files)
    (fs : files) (config_file header_file : string) (typed : list string) :
  (fs !! config_file = None ->
   generate_config_header config_file header_file fs
   = (false, fs, ["Error: " +:+ config_file +:+ " does not exist"]))
  /\ (fs !! ".config" = None ->
      load_config fs ".config" = []
      /\ starting_config fs = default_config
      /\ main script_path run_script fs typed
         = display_menu script_path run_script (S (length typed))
             (State default_config fs typed []))
  /\ default_config <> []
  /\ Forall (fun kv => isinstance_int (snd kv) = true) default_config.
Proof.
  split; [|split; [|split]].
  - intros Hcfg. unfold generate_config_header. by rewrite Hcfg.
  - intros Hdot.
    assert (Hload : load_config fs ".config" = [])
      by (unfold load_config; by rewrite Hdot).
    assert (Hstart : starting_config fs = default_config)
      by (unfold starting_config; by rewrite Hload).
    split; [done|]. split; [done|]. unfold main. by rewrite Hstart.
  - done.
  - unfold default_config. repeat constructor.
Qed.

(** The generator fails on its own missing source although [.config] is
    there, and the editor starts from the defaults on an empty file
    system. *)
Lemma missing_source_handling_witness :
  generate_config_header "other.config" "kernel_config_defines.h"
    {[ ".config" := "CONFIG_PCI=y" +:+ nl ]}
  = (false, {[ ".config" := "CONFIG_PCI=y" +:+ nl ]},
     ["Error: other.config does not exist"])
  /\ starting_config ∅ = default_config.
Proof.
  split.
  - apply (missing_source_handling "configure_kernel.sh"
             (fun fs => (Exited true, fs))
             {[ ".config" := "CONFIG_PCI=y" +:+ nl ]}
             "other.config" "kernel_config_defines.h" []).
    by apply lookup_singleton_ne.
  - apply (missing_source_handling "configure_kernel.sh"
             (fun fs => (Exited true, fs)) ∅
             ".config" "kernel_config_defines.h" []).
    apply lookup_empty.
Defined.

(** ** Boolean tokens and unquoted values on the two paths *)

(** A value that starts with a double quote is none of the tokens. *)
Lemma quoted_not_token (value : string) (tokens : list string) :
  startswith (String DQ "") value = true ->
  Forall (fun t => head_char t <> Some DQ) tokens ->
  py_in (lower value) tokens = false.
Proof.
  intros Hq Htok. destruct value as [|c v]; [done|].
  change (Ascii.eqb DQ c && true = true) in Hq.
  apply andb_true_iff in Hq as [Hc _].
  apply Ascii.eqb_eq in Hc. subst c.
  unfold py_in. apply not_true_iff_false. intros Hex.
  apply existsb_exists in Hex as (t & Hin & Heq).
  apply String.eqb_eq in Heq. subst t.
  rewrite Forall_forall in Htok. apply list_elem_of_In in Hin.
  by apply (Htok _ Hin).
Qed.

Lemma token_not_quoted (value : string) (tokens : list string) :
  Forall (fun t => head_char t <> Some DQ) tokens ->
  py_in (lower value) tokens = true ->
  startswith (String DQ "") value && endswith (String DQ "") value = false.
Proof.
  intros Htok Hin.
  destruct (startswith (String DQ "") value) eqn:Hq; [|done].
  by rewrite (quoted_not_token _ _ Hq Htok) in Hin.
Qed.

Lemma tokens_unquoted :
  Forall (fun t => head_char t <> Some DQ) true_tokens
  /\ Forall (fun t => head_char t <> Some DQ) false_tokens.
Proof. split; repeat constructor; discriminate. Qed.

Lemma true_token_defined_1 (name value : string) :
  py_in (lower value) true_tokens = true ->
  define_of name value = (name, "1", "boolean").
Proof.
  intros H. unfold define_of.
  by rewrite (token_not_quoted _ _ (proj1 tokens_unquoted) H), H.
Qed.

Lemma false_token_defined_0 (name value : string) :
  py_in (lower value) false_tokens = true ->
  define_of name value = (name, "0", "boolean").
Proof.
  intros H. unfold define_of.
  rewrite (token_not_quoted _ _ (proj2 tokens_unquoted) H), H.
  destruct (py_in (lower value) true_tokens) eqn:Ht; [|done].
  exfalso. revert H Ht. unfold py_in, true_tokens, false_tokens. simpl.
  rewrite !orb_false_r, !orb_true_iff.
  intros [H|[H|H]] [Ht|[Ht|Ht]];
    apply String.eqb_eq in H; apply String.eqb_eq in Ht; congruence.
Qed.

Lemma unquoted_other_is_string (value : string) :
  value <> "y" -> value <> "n" ->
  startswith (String DQ "") value && endswith (String DQ "") value = false ->
  py_int value = None ->
  typed_value value = PyStr value.
Proof.
  intros Hy Hn Hq Hint. unfold typed_value. rewrite Hq, Hint.
  apply String.eqb_neq in Hy, Hn. by rewrite Hy, Hn.
Qed.

(** C5, as stated: on the editing path every unquoted, non-numeric value
    other than [y] would be a plain string. The token [n] is not. *)
Lemma editor_token_n_is_not_a_string :
  ~ (forall value : string,
       value <> "y" ->
       startswith (String DQ "") value && endswith (String DQ "") value = false ->
       py_int value = None ->
       typed_value value = PyStr value).
Proof.
  intros H.
  assert (E : typed_value "n" = PyStr "n") by (by apply H).
  by vm_compute in E.
Qed.

(** C5, amended: the header path maps the true tokens to [1] and the false
    tokens to [0], whatever their case; the editing path takes exactly [y]
    for true and exactly [n] for false, and every other unquoted,
    non-numeric value for a string. *)
Theorem boolean_tokens_per_path (name value : string) :
  (py_in (lower value) true_tokens = true ->
   define_of name value = (name, "1", "boolean"))
  /\ (py_in (lower value) false_tokens = true ->
      define_of name value = (name, "0", "boolean"))
  /\ (typed_value value = PyBool true <-> value = "y")
  /\ (typed_value value = PyBool false <-> value = "n")
  /\ (value <> "y" -> value <> "n" ->
      startswith (String DQ "") value && endswith (String DQ "") value = false ->
      py_int value = None ->
      typed_value value = PyStr value).
Proof.
  split; [apply true_token_defined_1|].
  split; [apply false_token_defined_0|].
  split; [apply typed_value_true|].
  split; [apply typed_value_false|].
  apply unquoted_other_is_string.
Qed.

Lemma boolean_tokens_per_path_witness :
  define_of "CONFIG_PCI" "Yes" = ("CONFIG_PCI", "1", "boolean")
  /\ define_of "CONFIG_USB" "FALSE" = ("CONFIG_USB", "0", "boolean")
  /\ typed_value "Yes" = PyStr "Yes".
Proof.
  split; [|split].
  - by apply (boolean_tokens_per_path "CONFIG_PCI" "Yes").
  - by apply (boolean_tokens_per_path "CONFIG_USB" "FALSE").
  - by apply (boolean_tokens_per_path "CONFIG_PCI" "Yes").
Defined.

(** C4, as stated: an unquoted value that is no token and no integer would
    be written in double quotes, as a string. *)
Lemma unquoted_text_is_not_quoted_in_header :
  ~ (forall name value : string,
       startswith (String DQ "") value && endswith (String DQ "") value = false ->
       py_in (lower value) true_tokens = false ->
       py_in (lower value) false_tokens = false ->
       py_int value = None ->
       define_of name value = (name, String DQ (value +:+ String DQ ""), "string")).
Proof.
  intros H.
  assert (E : define_of "CONFIG_ARCH" "x86"
              = ("CONFIG_ARCH", String DQ ("x86" +:+ String DQ ""), "string"))
    by (by apply H).
  by vm_compute in E.
Qed.

(** C4, amended: an unquoted value that is no boolean token is written to
    the [#define] line as it stands, without quotes and with the tag
    [numeric], whether it parses as an integer or not. *)
Theorem unquoted_value_emitted_verbatim (name value : string) :
  startswith (String DQ "") value && endswith (String DQ "") value = false ->
  py_in (lower value) true_tokens = false ->
  py_in (lower value) false_tokens = false ->
  define_of name value = (name, value, "numeric")
  /\ define_block (define_of name value)
     = [ "#ifndef " +:+ name;
         "#define " +:+ name +:+ " " +:+ value +:+ "  /* numeric */";
         "#endif";
         "" ].
Proof.
  intros Hq Ht Hf.
  assert (H : define_of name value = (name, value, "numeric"))
    by (unfold define_of; by rewrite Hq, Ht, Hf).
  split; [done|]. by rewrite H.
Qed.

Lemma unquoted_value_emitted_verbatim_witness :
  define_of "CONFIG_ARCH" "x86" = ("CONFIG_ARCH", "x86", "numeric").
Proof.
  by apply (unquoted_value_emitted_verbatim "CONFIG_ARCH" "x86").
Defined.

(** ** The guards of the generated header *)

(** In the blocks of the entries, a [#define] line is the second line of
    the block of some entry. *)
Lemma define_in_blocks (defines : list define) (i : nat) (l : string) :
  flat_map define_block defines !! i = Some l ->
  startswith "#define " l = true ->
  exists d j,
    d ∈ defines /\ l = define_line d /\ i = S j
    /\ flat_map define_block defines !! j = Some ("#ifndef " +:+ def_name d)
    /\ flat_map define_block defines !! S i = Some "#endif".
Proof.
  revert i. induction defines as [|d ds IH]; intros i Hi Hdef; [done|].
  change (flat_map define_block (d :: ds))
    with ([ "#ifndef " +:+ def_name d; define_line d; "#endif"; "" ]
          ++ flat_map define_block ds) in *.
  destruct i as [|[|[|[|i]]]]; simpl in Hi.
  - injection Hi as <-. by vm_compute in Hdef.
  - injection Hi as <-. exists d, 0%nat. split; [left|]. by repeat split.
  - injection Hi as <-. by vm_compute in Hdef.
  - injection Hi as <-. by vm_compute in Hdef.
  - destruct (IH i Hi Hdef) as (d' & j & Hin & Hl & -> & Hj & Hn).
    exists d', (4 + j)%nat. split; [by right|]. by repeat split.
Qed.

Lemma app_inv_tail (s t u : string) : s +:+ u = t +:+ u -> s = t.
Proof.
  revert t. induction s as [|c s IH]; intros [|c' t] H.
  - done.
  - apply (f_equal String.length) in H.
    rewrite app_cons, app_empty_l in H. simpl in H.
    rewrite string_length_app in H. lia.
  - apply (f_equal String.length) in H.
    rewrite app_cons, app_empty_l in H. simpl in H.
    rewrite string_length_app in H. lia.
  - rewrite !app_cons in H. injection H as -> H. by rewrite (IH t H).
Qed.

(** C6, as stated: the file-level guard of the header written to
    [header_file] would be a macro derived from that name, so that two
    names with different macros give headers with different guards. The
    guard is the same macro for every name: no function of the name that
    tells [kernel_config_defines.h] from [config.h] gives the guard
    line. *)
Lemma guard_not_derived_from_header_name :
  ~ (exists guard_of : string -> string,
       guard_of "kernel_config_defines.h" <> guard_of "config.h"
       /\ forall (header_file text : string) (fs : files),
            fs !! ".config" = Some text ->
            exists header,
              snd (fst (generate_config_header ".config" header_file fs))
                !! header_file = Some header
              /\ file_lines header !! 1%nat
                 = Some ("#ifndef " +:+ guard_of header_file +:+ nl)).
Proof.
  intros (guard_of & Hdiff & H).
  assert (Hfixed : forall header_file,
             guard_of header_file = "_KERNEL_CONFIG_DEFINES_H").
  { intros header_file.
    destruct (H header_file "" {[ ".config" := "" ]} (lookup_singleton_eq _ _))
      as (header & Hfile & Hguard).
    unfold generate_config_header in Hfile.
    rewrite lookup_singleton_eq in Hfile. simpl in Hfile.
    rewrite lookup_insert_eq in Hfile. injection Hfile as <-.
    assert (E : file_lines (header_text (parse_text "")) !! 1%nat
                = Some ("#ifndef " +:+ "_KERNEL_CONFIG_DEFINES_H" +:+ nl))
      by (by vm_compute).
    rewrite E in Hguard. injection Hguard as Hguard.
    change ("_KERNEL_CONFIG_DEFINES_H" +:+ nl = guard_of header_file +:+ nl)
      in Hguard.
    symmetry. by apply (app_inv_tail _ _ nl). }
  apply Hdiff. by rewrite !Hfixed.
Qed.

(** ** The external configurator *)

Ltac run_editor :=
  cbv beta iota zeta delta
    [press_enter config_assign config_item key_at save_current
     clear_screen print emit input get_config put_config get_disk
     put_disk raise bind ret config disk stdin tty fst snd].

Section Configurator.

Variable script_path : string.
Variable run_script : files -> run_result * files.
Variable fuel : nat.

Abbreviation round := (main_menu_round script_path run_script fuel).

(** X5. When the external configurator is chosen and its script is absent
    or fails, the main menu goes on and the config in memory is what it
    was: the config file is not read again. *)
Lemma dialog_failure_keeps_config (st : state) (answer : string)
    (rest : list string) :
  stdin st = answer :: rest ->
  strip answer = "1" ->
  disk st !! script_path = None
  \/ fst (run_script (disk st)) = Exited false ->
  fst (round st) = Ret true /\ config (snd (round st)) = config st.
Proof.
  intros Hin Hans Hfail.
  destruct st as [c fs input out]. simpl in Hin, Hfail. subst input.
  unfold main_menu_round, use_dialog_interface. run_editor.
  rewrite Hans. change (String.eqb "1" "1") with true. run_editor.
  destruct (fs !! script_path) eqn:Hs; [|done].
  destruct Hfail as [|Hfail]; [done|].
  destruct (run_script fs) as [r fs']. simpl in Hfail. by subst r.
Qed.

(** After a configurator that succeeds, the options of the file are
    written over the config; the config is not emptied first. *)
Lemma dialog_success_updates_config (st : state) (answer : string)
    (rest : list string) (fs' : files) :
  stdin st = answer :: rest ->
  strip answer = "1" ->
  is_Some (disk st !! script_path) ->
  run_script (disk st) = (Exited true, fs') ->
  fst (round st) = Ret true
  /\ disk (snd (round st)) = fs'
  /\ config (snd (round st))
     = dict_update (config st) (load_config fs' ".config").
Proof.
  intros Hin Hans [body Hs] Hrun.
  destruct st as [c fs input out]. simpl in Hin, Hs, Hrun. subst input.
  unfold main_menu_round, use_dialog_interface. run_editor.
  rewrite Hans. change (String.eqb "1" "1") with true. run_editor.
  by rewrite Hs, Hrun.
Qed.

End Configurator.

(** C8. After a run of the external configurator that succeeded and left
    a config file without the timer option, the config in memory still
    holds that option: the options loaded from the file are written over
    the old config, which is not discarded. *)
Theorem reload_keeps_options_absent_from_disk :
  let st := snd (main_menu_round Session.script Session.drops_timer 1
                   (Session.start ["1"])) in
  load_config (disk st) ".config" = [("CONFIG_PCI", PyBool true)]
  /\ config st = [("CONFIG_PCI", PyBool true); ("CONFIG_TIMER_HZ", PyInt 100)]
  /\ dict_get "CONFIG_TIMER_HZ" (config st) = Some (PyInt 100)
  /\ dict_get "CONFIG_TIMER_HZ" (load_config (disk st) ".config") = None.
Proof.
  split; [by vm_compute|]. split; [by vm_compute|]. split; by vm_compute.
Qed.

(** ** The lists of the text menu *)

Lemma dict_get_set_ne (k k' : string) (v : pyval) (d : dict) :
  k' <> k -> dict_get k' (dict_set k v d) = dict_get k' d.
Proof.
  intros Hne. induction d as [|[k0 v0] d IH]; simpl.
  - destruct (String.eqb_spec k k'); [congruence|done].
  - destruct (String.eqb_spec k0 k) as [->|Hk0]; simpl.
    + destruct (String.eqb_spec k k'); [congruence|done].
    + by rewrite IH.
Qed.

Lemma dict_keys_set (k : string) (v : pyval) (d : dict) :
  In k (dict_keys d) -> dict_keys (dict_set k v d) = dict_keys d.
Proof.
  induction d as [|[k0 v0] d IH]; simpl; [done|].
  intros Hin. destruct (String.eqb_spec k0 k) as [->|Hne]; simpl; [done|].
  destruct Hin as [|Hin]; [done|]. by rewrite IH.
Qed.

Lemma bool_options_spec (c : dict) (kv : string * pyval) :
  In kv (bool_options c) <-> In kv c /\ exists b, snd kv = PyBool b.
Proof.
  unfold bool_options. rewrite <- !list_elem_of_In, list_elem_of_filter.
  split.
  - intros [H1 H2]. split; [done|]. destruct (snd kv); try done. by eexists.
  - intros [H1 [b H2]]. split; [|done]. by rewrite H2.
Qed.

Lemma str_options_spec (c : dict) (kv : string * pyval) :
  In kv (str_options c) <-> In kv c /\ exists s, snd kv = PyStr s.
Proof.
  unfold str_options. rewrite <- !list_elem_of_In, list_elem_of_filter.
  split.
  - intros [H1 H2]. split; [done|]. destruct (snd kv); try done. by eexists.
  - intros [H1 [b H2]]. split; [|done]. by rewrite H2.
Qed.

(** The integer list takes every option whose value passes the integer
    test, the booleans among them. *)
Lemma int_options_spec (c : dict) (kv : string * pyval) :
  In kv (int_options c)
  <-> In kv c /\ ((exists n, snd kv = PyInt n) \/ (exists b, snd kv = PyBool b)).
Proof.
  unfold int_options. rewrite <- !list_elem_of_In, list_elem_of_filter.
  split.
  - intros [H1 H2]. split; [done|]. destruct (snd kv); try done; eauto.
  - intros [H1 [[n H2]|[b H2]]]; (split; [|done]); by rewrite H2.
Qed.

(** C9. The integer list shows the boolean options as well, and a new
    value typed for one of them turns the option into an integer; the
    boolean and string lists hold the options of their type only. *)
Theorem integer_list_shows_booleans :
  int_options Session.options
  = [("CONFIG_PCI", PyBool true); ("CONFIG_TIMER_HZ", PyInt 100)]
  /\ listing int_entry (int_options Session.options)
     = [" 1. CONFIG_PCI = True"; " 2. CONFIG_TIMER_HZ = 100"]
  /\ In (Print " 1. CONFIG_PCI = True")
       (tty (snd (set_int_options (Session.start ["0"]))))
  /\ config (snd (set_int_options (Session.start ["1"; "5"; ""])))
     = [("CONFIG_PCI", PyInt 5); ("CONFIG_TIMER_HZ", PyInt 100)]
  /\ bool_options Session.options = [("CONFIG_PCI", PyBool true)]
  /\ str_options Session.options = [].
Proof.
  split; [by vm_compute|]. split; [by vm_compute|].
  split; [vm_compute; tauto|]. split; [by vm_compute|].
  split; by vm_compute.
Qed.

(** ** Lines of a file *)

Lemma no_break_app (s t : string) :
  no_break (s +:+ t) = no_break s && no_break t.
Proof.
  induction s as [|c s IH]; [done|].
  rewrite app_cons. simpl. rewrite IH. by rewrite !andb_assoc.
Qed.

Lemma all_chars_app (p : ascii -> bool) (s t : string) :
  all_chars p (s +:+ t) = all_chars p s && all_chars p t.
Proof.
  induction s as [|c s IH]; [done|].
  rewrite app_cons. simpl. rewrite IH. by rewrite andb_assoc.
Qed.

Lemma all_chars_impl (p q : ascii -> bool) (s : string) :
  (forall c, p c = true -> q c = true) ->
  all_chars p s = true -> all_chars q s = true.
Proof.
  intros Hpq. induction s as [|c s IH]; [done|]. simpl.
  intros [Hc Hs]%andb_true_iff. by rewrite (Hpq _ Hc), IH.
Qed.

Lemma no_break_all_chars (s : string) :
  no_break s = all_chars (fun c => negb (Ascii.eqb c LF) && negb (Ascii.eqb c CR)) s.
Proof. induction s as [|c s IH]; [done|]. simpl. by rewrite IH. Qed.

(** A text that starts with a line and its newline yields that line
    first. *)
Lemma file_lines_line (body rest : string) :
  no_break body = true ->
  file_lines (body +:+ nl +:+ rest) = (body +:+ nl) :: file_lines rest.
Proof.
  induction body as [|c body IH]; [done|].
  simpl. intros [[Hlf Hcr]%andb_true_iff Hb]%andb_true_iff.
  rewrite !app_cons. simpl.
  apply negb_true_iff in Hlf, Hcr. rewrite Hlf, Hcr.
  by rewrite IH.
Qed.

Lemma file_lines_chunks (bodies : list string) :
  Forall (fun b => no_break b = true) bodies ->
  file_lines (fold_right String.append "" (map (fun b => b +:+ nl) bodies))
  = map (fun b => b +:+ nl) bodies.
Proof.
  induction 1 as [|b bs Hb _ IH]; [done|].
  simpl. rewrite app_assoc'. rewrite file_lines_line by done. by rewrite IH.
Qed.

(** Every line a file yields is free of line breaks, but for the newline
    that may end it. *)
Lemma file_lines_shape (text l : string) :
  In l (file_lines text) ->
  exists body, no_break body = true /\ (l = body \/ l = body +:+ nl).
Proof.
  revert l. induction text as [|c text IH]; intros l; [done|].
  simpl.
  destruct (Ascii.eqb c LF) eqn:Hlf.
  { intros [<-|Hin]; [|by apply IH]. exists "". by split; [|right]. }
  destruct (Ascii.eqb c CR) eqn:Hcr.
  { destruct text as [|c' text'].
    - intros [<-|[]]. exists "". by split; [|right].
    - destruct (Ascii.eqb c' LF) eqn:Hlf'.
      + intros [<-|Hin]; [exists ""; by split; [|right]|].
        apply IH. simpl. rewrite Hlf'. by right.
      + intros [<-|Hin]; [exists ""; by split; [|right]|]. by apply IH. }
  destruct (file_lines text) as [|l0 ls] eqn:Hls.
  - intros [<-|[]]. exists (String c ""). split; [|by left].
    simpl. by rewrite Hlf, Hcr.
  - intros [<-|Hin].
    + destruct (IH l0 (or_introl eq_refl)) as (body & Hb & Hl0).
      exists (String c body). split.
      * simpl. by rewrite Hlf, Hcr, Hb.
      * destruct Hl0 as [->| ->]; [by left|by right].
    + apply IH. by right.
Qed.

(** ** Splitting and slicing *)

Lemma split_once_spec (sep : ascii) (s a b : string) :
  split_once sep s = Some (a, b) ->
  s = a +:+ String sep b
  /\ all_chars (fun c => negb (Ascii.eqb c sep)) a = true.
Proof.
  revert a. induction s as [|c s IH]; intros a; [done|]. simpl.
  destruct (Ascii.eqb c sep) eqn:Hc.
  - intros [= <- <-]. apply Ascii.eqb_eq in Hc. by subst.
  - destruct (split_once sep s) as [[a' b']|]; [|done].
    intros [= <- <-]. destruct (IH a' eq_refl) as [-> Ha].
    split; [done|]. simpl. by rewrite Hc, Ha.
Qed.

Lemma split_once_app (sep : ascii) (a b : string) :
  all_chars (fun c => negb (Ascii.eqb c sep)) a = true ->
  split_once sep (a +:+ String sep b) = Some (a, b).
Proof.
  induction a as [|c a IH].
  - intros _. rewrite app_empty_l. simpl. by rewrite Ascii.eqb_refl.
  - rewrite app_cons. simpl. intros [Hc Ha]%andb_true_iff.
    apply negb_true_iff in Hc. by rewrite Hc, IH.
Qed.

Lemma contains_app (sub a b : string) :
  contains sub b = true -> contains sub (a +:+ b) = true.
Proof.
  intros Hb. induction a as [|c a IH]; [done|].
  rewrite app_cons. simpl. rewrite IH. apply orb_true_r.
Qed.

Lemma substring_0_app (s t : string) :
  String.substring 0 (String.length s) (s +:+ t) = s.
Proof.
  induction s as [|c s IH]; simpl.
  - by destruct t.
  - by rewrite IH.
Qed.

Lemma no_break_substring (n m : nat) (s : string) :
  no_break s = true -> no_break (String.substring n m s) = true.
Proof.
  revert n m. induction s as [|c s IH]; intros n m Hs.
  - by destruct n, m.
  - simpl in Hs. apply andb_true_iff in Hs as [Hc Hs].
    destruct n as [|n]; simpl.
    + destruct m as [|m]; [done|]. simpl. by rewrite Hc, IH.
    + by apply IH.
Qed.

Lemma no_break_slice (s : string) (a b : Z) :
  no_break s = true -> no_break (slice s a b) = true.
Proof. apply no_break_substring. Qed.

(** The text between the quotes. *)
Lemma slice_between (c d : ascii) (s : string) :
  slice (String c (s +:+ String d "")) 1 (-1) = s.
Proof.
  unfold slice, len.
  change (String.length (String c (s +:+ String d "")))
    with (S (String.length (s +:+ String d ""))).
  rewrite string_length_app. simpl String.length.
  set (n := String.length s).
  assert (Ha : clip (Z.of_nat (S (n + 1))) 1 = 1).
  { unfold clip. change (1 <? 0) with false. cbv iota. lia. }
  assert (Hb : clip (Z.of_nat (S (n + 1))) (-1) = Z.of_nat n + 1).
  { unfold clip. change (-1 <? 0) with true. cbv iota. lia. }
  rewrite Ha, Hb.
  replace (Z.to_nat (Z.of_nat n + 1 - 1)) with n by lia.
  change (Z.to_nat 1) with 1%nat. simpl. apply substring_0_app.
Qed.

Lemma endswith_refl (p : string) : endswith p p = true.
Proof.
  destruct p as [|a p]; [done|].
  change (String.eqb (String a p) (String a p) || endswith (String a p) p = true).
  by rewrite String.eqb_refl.
Qed.

Lemma endswith_app (p a : string) : endswith p (a +:+ p) = true.
Proof.
  induction a as [|c a IH].
  - rewrite app_empty_l. apply endswith_refl.
  - rewrite app_cons. simpl. rewrite IH. apply orb_true_r.
Qed.

(** ** Integers and their decimal text *)

(** What matters of a digit for the parsers. *)
Lemma digit_char (c : ascii) :
  is_digit c = true ->
  isspace c = false /\ int_isspace c = false
  /\ Ascii.eqb c LF = false /\ Ascii.eqb c CR = false
  /\ Ascii.eqb c "=" = false /\ Ascii.eqb c DQ = false
  /\ Ascii.eqb c "-" = false /\ Ascii.eqb c "+" = false
  /\ Ascii.eqb c "n" = false /\ Ascii.eqb c "y" = false.
Proof.
  destruct c as [[] [] [] [] [] [] [] []]; intros H;
    try discriminate H; by vm_compute.
Qed.

Lemma string_of_uint_digits (u : uint) :
  all_chars is_digit (NilEmpty.string_of_uint u) = true.
Proof. induction u; simpl; by rewrite ?IHu. Qed.

Lemma digits_string_of_uint (u : uint) :
  digits true (NilEmpty.string_of_uint u) = Some u.
Proof. induction u; simpl; by rewrite ?IHu. Qed.

Lemma digits_first (u : uint) :
  u <> Nil -> digits false (NilEmpty.string_of_uint u) = Some u.
Proof. destruct u; [done|..]; intros _; simpl; by rewrite digits_string_of_uint. Qed.

Lemma string_of_uint_nonnil (u : uint) :
  u <> Nil -> NilZero.string_of_uint u = NilEmpty.string_of_uint u.
Proof. by destruct u. Qed.

(** The text of a natural number, from its first character on. *)
Lemma py_int_unsigned (c : ascii) (s : string) :
  is_digit c = true ->
  all_chars is_digit s = true ->
  py_int (String c s) = option_map Z.of_uint (digits false (String c s)).
Proof.
  intros Hc Hs. unfold py_int.
  assert (Hstrip : strip_with int_isspace (String c s) = String c s).
  { unfold strip_with. rewrite lstrip_head by (by apply digit_char).
    apply rstrip_none. simpl.
    rewrite (proj1 (proj2 (digit_char c Hc))). simpl.
    revert Hs. apply all_chars_impl. intros d Hd.
    by rewrite (proj1 (proj2 (digit_char d Hd))). }
  rewrite Hstrip.
  destruct c as [[] [] [] [] [] [] [] []]; try discriminate Hc; reflexivity.
Qed.

Lemma py_int_negative (s : string) :
  all_chars is_digit s = true ->
  py_int (String "-" s)
  = option_map (fun u => Z.opp (Z.of_uint u)) (digits false s).
Proof.
  intros Hs. unfold py_int.
  assert (Hstrip : strip_with int_isspace (String "-" s) = String "-" s).
  { unfold strip_with. rewrite lstrip_head by done.
    apply rstrip_none. simpl.
    revert Hs. apply all_chars_impl. intros d Hd.
    by rewrite (proj1 (proj2 (digit_char d Hd))). }
  by rewrite Hstrip.
Qed.

Lemma string_of_uint_head (u : uint) :
  u <> Nil ->
  exists c s, NilEmpty.string_of_uint u = String c s
              /\ is_digit c = true /\ all_chars is_digit s = true.
Proof.
  intros Hu. pose proof (string_of_uint_digits u) as Hd.
  destruct u; [done|..]; simpl in *; eauto.
Qed.

(** [int(str(n))] is [n]. *)
Lemma py_int_str_int (n : Z) : py_int (str_int n) = Some n.
Proof.
  unfold str_int. destruct n as [|p|p]; [done|..]; simpl.
  - pose proof (Unsigned.to_uint_nonnil p) as Hnil.
    rewrite string_of_uint_nonnil by done.
    destruct (string_of_uint_head _ Hnil) as (c & s & Hcs & Hc & Hs).
    rewrite Hcs, py_int_unsigned by done. rewrite <- Hcs, digits_first by done.
    simpl. f_equal. exact (DecimalZ.of_to (Zpos p)).
  - pose proof (Unsigned.to_uint_nonnil p) as Hnil.
    rewrite string_of_uint_nonnil by done.
    rewrite py_int_negative by apply string_of_uint_digits.
    rewrite digits_first by done. simpl. f_equal.
    exact (DecimalZ.of_to (Zneg p)).
Qed.

Lemma str_int_chars (n : Z) : all_chars is_sign_or_digit (str_int n) = true.
Proof.
  assert (H : forall u, all_chars is_sign_or_digit (NilZero.string_of_uint u) = true).
  { intros u. destruct u; [done|..];
      (eapply all_chars_impl; [|apply string_of_uint_digits]);
      intros c Hc; unfold is_sign_or_digit; by rewrite Hc. }
  unfold str_int. destruct (Z.to_int n); simpl; by rewrite ?H.
Qed.

Lemma str_int_nonempty (n : Z) : str_int n <> "".
Proof.
  unfold str_int. destruct (Z.to_int n) as [u|u]; simpl; [|done].
  by destruct u.
Qed.

Lemma last_char_app (a b : string) :
  b <> "" -> last_char (a +:+ b) = last_char b.
Proof.
  intros Hb. induction a as [|c a IH]; [done|].
  rewrite app_cons. simpl. rewrite IH.
  destruct (a +:+ b) eqn:E; [|done].
  destruct a; [by rewrite app_empty_l in E|done].
Qed.

Lemma last_char_digits (s : string) :
  s <> "" -> all_chars is_digit s = true ->
  exists c, last_char s = Some c /\ is_digit c = true.
Proof.
  induction s as [|c s IH]; [done|]. intros _. simpl.
  intros [Hc Hs]%andb_true_iff. destruct s as [|c' s']; [eauto|].
  by apply IH.
Qed.

(** The last character of the text of an integer is a digit. *)
Lemma str_int_last (n : Z) :
  exists c, last_char (str_int n) = Some c /\ is_digit c = true.
Proof.
  assert (H : forall u, exists c,
             last_char (NilZero.string_of_uint u) = Some c /\ is_digit c = true).
  { intros u.
    assert (Hu : u = Nil \/ u <> Nil) by (destruct u; [by left|by right..]).
    destruct Hu as [->|Hu]; [by exists "0"%char|].
    rewrite string_of_uint_nonnil by done.
    apply last_char_digits; [|apply string_of_uint_digits].
    by destruct u. }
  unfold str_int. destruct (Z.to_int n) as [u|u]; simpl NilZero.string_of_int.
  - apply H.
  - destruct (H u) as (c & Hc & Hd). exists c. split; [|done].
    change (String "-" (NilZero.string_of_uint u))
      with ("-" +:+ NilZero.string_of_uint u).
    rewrite last_char_app; [done|]. intros E. by rewrite E in Hc.
Qed.

(** ** Dictionaries *)

Lemma dict_set_fresh (k : string) (v : pyval) (d : dict) :
  ~ In k (dict_keys d) -> dict_set k v d = d ++ [(k, v)].
Proof.
  induction d as [|[k0 v0] d IH]; [done|]. simpl. intros Hk.
  destruct (String.eqb_spec k0 k) as [->|Hne]; [tauto|].
  rewrite IH; [done|tauto].
Qed.

Lemma dict_keys_set_cases (k : string) (v : pyval) (d : dict) :
  (In k (dict_keys d) /\ dict_keys (dict_set k v d) = dict_keys d)
  \/ (~ In k (dict_keys d) /\ dict_keys (dict_set k v d) = dict_keys d ++ [k]).
Proof.
  destruct (in_dec string_dec k (dict_keys d)) as [Hin|Hn].
  - left. split; [done|]. by apply dict_keys_set.
  - right. split; [done|]. rewrite dict_set_fresh by done.
    unfold dict_keys. by rewrite map_app.
Qed.

Lemma dict_set_NoDup (k : string) (v : pyval) (d : dict) :
  NoDup (dict_keys d) -> NoDup (dict_keys (dict_set k v d)).
Proof.
  intros Hd. destruct (dict_keys_set_cases k v d) as [[_ ->]|[Hn ->]]; [done|].
  apply NoDup_app. split; [done|]. split; [|apply NoDup_singleton].
  intros x Hx ->%list_elem_of_singleton. by apply Hn, list_elem_of_In.
Qed.

Lemma dict_set_Forall (P : string * pyval -> Prop) (k : string) (v : pyval)
    (d : dict) :
  Forall P d -> P (k, v) -> Forall P (dict_set k v d).
Proof.
  intros Hd Hkv. induction Hd as [|[k0 v0] d H0 Hd IH]; simpl.
  - by constructor.
  - destruct (String.eqb k0 k); by constructor.
Qed.

Lemma dict_set_well_formed (k : string) (v : pyval) (d : dict) :
  well_formed d -> entry_ok (k, v) = true -> well_formed (dict_set k v d).
Proof.
  intros [Hn Hf] Hkv. split; [by apply dict_set_NoDup|by apply dict_set_Forall].
Qed.

Lemma dict_get_In (k : string) (v : pyval) (d : dict) :
  NoDup (dict_keys d) -> dict_get k d = Some v <-> In (k, v) d.
Proof.
  induction d as [|[k0 v0] d IH]; simpl; [done|].
  intros Hn. apply NoDup_cons in Hn as [Hk0 Hn].
  destruct (String.eqb_spec k0 k) as [->|Hne].
  - split; [intros [= ->]; by left|].
    intros [[= ->]|Hin]; [done|]. exfalso. apply Hk0.
    apply list_elem_of_In. unfold dict_keys. apply in_map_iff. by exists (k, v).
  - rewrite IH by done. split; [by right|]. by intros [[= ? ?]|Hin].
Qed.

Lemma dict_keys_Permutation (d1 d2 : dict) :
  d1 ≡ₚ d2 -> dict_keys d1 ≡ₚ dict_keys d2.
Proof. intros H. unfold dict_keys. by rewrite H. Qed.

(** Dictionaries with the same items are equal, whatever their order. *)
Lemma dict_eq_Permutation (d1 d2 : dict) :
  NoDup (dict_keys d1) -> d1 ≡ₚ d2 -> dict_eq d1 d2.
Proof.
  intros Hn1 Hp k.
  assert (Hn2 : NoDup (dict_keys d2))
    by (by rewrite <- (dict_keys_Permutation _ _ Hp)).
  assert (Hin : forall v, dict_get k d1 = Some v <-> dict_get k d2 = Some v).
  { intros v. rewrite !dict_get_In by done.
    rewrite <- !list_elem_of_In. by rewrite Hp. }
  destruct (dict_get k d1) as [v|] eqn:H1.
  - symmetry. by apply Hin.
  - destruct (dict_get k d2) as [v|] eqn:H2; [|done].
    by pose proof (proj2 (Hin v) eq_refl).
Qed.

(** ** What the loader keeps *)

Section Strip.

Variable p : ascii -> bool.

Lemma lstrip_head_false (s : string) (c : ascii) (r : string) :
  lstrip_with p s = String c r -> p c = false.
Proof.
  induction s as [|a s IH]; [done|]. simpl.
  destruct (p a) eqn:Ha; [done|]. by intros [= <- _].
Qed.

Lemma strip_head_false (s : string) (c : ascii) (r : string) :
  strip_with p s = String c r -> p c = false.
Proof.
  unfold strip_with. destruct (lstrip_with p s) as [|a t] eqn:Hl; [done|].
  pose proof (lstrip_head_false _ _ _ Hl) as Ha.
  rewrite rstrip_head by done. by intros [= <- _].
Qed.

Lemma rstrip_last (s : string) (c : ascii) :
  last_char s = Some c -> p c = false -> rstrip_with p s = s.
Proof.
  induction s as [|a s IH]; [done|]. simpl.
  destruct s as [|b s'].
  - intros [= ->] Hc. simpl. by rewrite Hc.
  - intros Hl Hc. by rewrite IH.
Qed.

Lemma lstrip_last (s : string) (c : ascii) :
  last_char s = Some c -> p c = false ->
  last_char (lstrip_with p s) = Some c.
Proof.
  induction s as [|a s IH]; [done|]. intros Hl Hc.
  change (lstrip_with p (String a s))
    with (if p a then lstrip_with p s else String a s).
  destruct (p a) eqn:Ha; [|done].
  destruct s as [|b s']; [simpl in Hl; congruence|].
  by apply IH.
Qed.

Lemma strip_last (s : string) (c : ascii) :
  last_char s = Some c -> p c = false ->
  last_char (strip_with p s) = Some c.
Proof.
  intros Hl Hc. unfold strip_with.
  pose proof (lstrip_last _ _ Hl Hc) as Hl'.
  by rewrite (rstrip_last _ _ Hl' Hc).
Qed.

Lemma strip_unchanged (s : string) (c d : ascii) :
  head_char s = Some c -> p c = false ->
  last_char s = Some d -> p d = false ->
  strip_with p s = s.
Proof.
  intros Hh Hc Hl Hd. destruct s as [|a s]; [done|].
  injection Hh as ->. unfold strip_with.
  rewrite lstrip_head by done. by apply (rstrip_last _ d).
Qed.

Lemma all_chars_lstrip (q : ascii -> bool) (s : string) :
  all_chars q s = true -> all_chars q (lstrip_with p s) = true.
Proof.
  induction s as [|a s IH]; [done|]. simpl.
  intros [Ha Hs]%andb_true_iff. destruct (p a); [by apply IH|].
  simpl. by rewrite Ha, Hs.
Qed.

Lemma all_chars_rstrip (q : ascii -> bool) (s : string) :
  all_chars q s = true -> all_chars q (rstrip_with p s) = true.
Proof.
  induction s as [|a s IH]; [done|]. simpl.
  intros [Ha Hs]%andb_true_iff. specialize (IH Hs).
  destruct (rstrip_with p s); [destruct (p a)|]; simpl in *; by rewrite ?Ha.
Qed.

End Strip.

Lemma no_break_strip (s : string) :
  no_break s = true -> no_break (strip s) = true.
Proof.
  rewrite !no_break_all_chars. intros H.
  by apply all_chars_rstrip, all_chars_lstrip.
Qed.

Lemma typed_value_ok (value : string) :
  no_break value = true -> value_ok (typed_value value) = true.
Proof.
  intros H. unfold typed_value.
  destruct (_ && _); [by apply no_break_slice|].
  destruct (String.eqb value "y"); [done|].
  destruct (String.eqb value "n"); [done|].
  by destruct (py_int value).
Qed.

(** What [load_line] adds for a line with a [=]. *)
Lemma load_line_cases (config : dict) (raw : string) :
  load_line config raw = config
  \/ exists key value,
       strip raw = key +:+ String "=" value
       /\ all_chars (fun c => negb (Ascii.eqb c "=")) key = true
       /\ startswith "#" (strip raw) = false
       /\ load_line config raw = dict_set key (typed_value value) config.
Proof.
  unfold load_line.
  destruct (is_empty (strip raw)); [by left|].
  destruct (startswith "#" (strip raw)) eqn:Hhash; [by left|].
  simpl. destruct (contains "=" (strip raw)); [|by left].
  destruct (split_once "=" (strip raw)) as [[key value]|] eqn:Hs; [|by left].
  right. exists key, value.
  by destruct (split_once_spec _ _ _ _ Hs).
Qed.

Lemma key_of_line_ok (line key value : string) :
  line = key +:+ String "=" value ->
  all_chars (fun c => negb (Ascii.eqb c "=")) key = true ->
  no_break line = true ->
  (forall c r, line = String c r -> isspace c = false) ->
  startswith "#" line = false ->
  key_ok key = true /\ no_break value = true.
Proof.
  intros -> Hkey Hnb Hhead Hhash.
  rewrite no_break_app in Hnb. apply andb_true_iff in Hnb as [Hk Hv].
  simpl in Hv. split; [|done].
  unfold key_ok. rewrite Hk, Hkey. simpl.
  destruct key as [|c key']; [done|].
  rewrite app_cons in Hhead, Hhash.
  rewrite (Hhead c _ eq_refl). simpl.
  change (Ascii.eqb "#" c && true = false) in Hhash.
  rewrite andb_true_r in Hhash. by rewrite Ascii.eqb_sym, Hhash.
Qed.

Lemma load_line_well_formed (config : dict) (raw body : string) :
  well_formed config ->
  no_break body = true ->
  raw = body \/ raw = body +:+ nl ->
  well_formed (load_line config raw).
Proof.
  intros Hwf Hb Hraw.
  assert (Hstrip : strip raw = strip body)
    by (destruct Hraw as [->| ->]; [done|apply strip_newline]).
  destruct (load_line_cases config raw)
    as [->|(key & value & Hline & Hkey & Hhash & ->)]; [done|].
  rewrite Hstrip in Hline, Hhash.
  destruct (key_of_line_ok _ _ _ Hline Hkey) as [Hk Hv]; [..|done| ].
  - by apply no_break_strip.
  - intros c r E. by apply (strip_head_false _ _ _ _ E).
  - apply dict_set_well_formed; [done|].
    unfold entry_ok. simpl. by rewrite Hk, typed_value_ok.
Qed.

Lemma load_text_well_formed (text : string) : well_formed (load_text text).
Proof.
  unfold load_text.
  assert (H : forall lines config,
             (forall l, In l lines -> In l (file_lines text)) ->
             well_formed config ->
             well_formed (fold_left load_line lines config)).
  { induction lines as [|l ls IH]; intros config Hsub Hwf; [done|].
    simpl. apply IH; [intros; apply Hsub; by right|].
    destruct (file_lines_shape text l) as (body & Hb & Hl);
      [apply Hsub; by left|].
    by apply (load_line_well_formed _ _ body). }
  apply H; [done|]. split; [apply NoDup_nil_2|constructor].
Qed.

(** ** Loading what was saved *)

Lemma sign_or_digit_char (c : ascii) :
  is_sign_or_digit c = true ->
  isspace c = false
  /\ Ascii.eqb c LF = false /\ Ascii.eqb c CR = false
  /\ Ascii.eqb DQ c = false
  /\ Ascii.eqb c "y" = false /\ Ascii.eqb c "n" = false.
Proof.
  destruct c as [[] [] [] [] [] [] [] []]; intros H;
    try discriminate H; by vm_compute.
Qed.

Lemma str_int_no_break (n : Z) : no_break (str_int n) = true.
Proof.
  rewrite no_break_all_chars.
  eapply all_chars_impl; [|apply str_int_chars].
  intros c Hc. destruct (sign_or_digit_char c Hc) as (_ & -> & -> & _). done.
Qed.

Lemma typed_value_str_int (n : Z) : typed_value (str_int n) = PyInt n.
Proof.
  unfold typed_value. rewrite py_int_str_int.
  pose proof (str_int_chars n) as Hchars.
  destruct (str_int n) as [|c r] eqn:E; [by apply str_int_nonempty in E|].
  simpl in Hchars. apply andb_true_iff in Hchars as [Hc _].
  destruct (sign_or_digit_char c Hc) as (_ & _ & _ & Hq & Hy & Hn).
  change (startswith (String DQ "") (String c r)) with (Ascii.eqb DQ c && true).
  change (String.eqb (String c r) "y") with (Ascii.eqb c "y" && String.eqb r "").
  change (String.eqb (String c r) "n") with (Ascii.eqb c "n" && String.eqb r "").
  by rewrite Hq, Hy, Hn.
Qed.

Lemma typed_value_quoted (s : string) :
  typed_value (String DQ (s +:+ String DQ "")) = PyStr s.
Proof.
  unfold typed_value.
  change (startswith (String DQ "") (String DQ (s +:+ String DQ "")))
    with (Ascii.eqb DQ DQ && true).
  change (String DQ (s +:+ String DQ "")) with (String DQ s +:+ String DQ "") at 1.
  rewrite endswith_app. simpl. by rewrite slice_between.
Qed.

Lemma save_line_enabled (k : string) (v : pyval) :
  is_false v = false -> save_line k v = k +:+ String "=" (saved_value v).
Proof. by destruct v as [[]| |]. Qed.

Lemma saved_value_last (v : pyval) :
  exists d, last_char (saved_value v) = Some d /\ isspace d = false.
Proof.
  destruct v as [b|n|s]; unfold saved_value.
  - by exists "y"%char.
  - destruct (str_int_last n) as (d & Hd & Hdig). exists d. split; [done|].
    by apply digit_char.
  - exists DQ. split; [|done].
    change (String DQ (s +:+ String DQ "")) with (String DQ s +:+ String DQ "").
    by rewrite last_char_app.
Qed.

Lemma saved_value_typed (v : pyval) :
  is_false v = false -> typed_value (saved_value v) = v.
Proof.
  destruct v as [[]|n|s]; [done|done|..]; intros _; simpl.
  - apply typed_value_str_int.
  - apply typed_value_quoted.
Qed.

Lemma saved_value_no_break (v : pyval) :
  value_ok v = true -> no_break (saved_value v) = true.
Proof.
  destruct v as [b|n|s]; simpl; [done|intros _; apply str_int_no_break|].
  intros Hs. change (String DQ (s +:+ String DQ "")) with (String DQ s +:+ String DQ "").
  rewrite no_break_app. simpl. by rewrite Hs.
Qed.

Lemma save_line_no_break (k : string) (v : pyval) :
  entry_ok (k, v) = true -> no_break (save_line k v) = true.
Proof.
  unfold entry_ok, key_ok. simpl.
  intros [[[Hk _]%andb_true_iff _]%andb_true_iff Hv]%andb_true_iff.
  destruct (is_false v) eqn:Hf.
  - destruct v as [[]| |]; try done.
    change (negb (Ascii.eqb "#" LF) && negb (Ascii.eqb "#" CR)
            && no_break (k +:+ " is not set") = true).
    by rewrite no_break_app, Hk.
  - rewrite save_line_enabled by done. rewrite no_break_app, Hk. simpl.
    by apply saved_value_no_break.
Qed.

(** Loading the line saved for an option sets the option again, unless it
    is switched off: its line is a comment for the loader. *)
Lemma load_line_saved (config : dict) (k : string) (v : pyval) :
  entry_ok (k, v) = true ->
  load_line config (save_line k v +:+ nl)
  = if is_false v then config else dict_set k v config.
Proof.
  intros Hok. destruct (is_false v) eqn:Hf.
  { destruct v as [[]| |]; try done.
    exact (load_line_comment config ((k +:+ " is not set") +:+ nl)). }
  rewrite save_line_enabled by done.
  unfold entry_ok, key_ok in Hok. simpl in Hok.
  apply andb_true_iff in Hok as [[[Hnb Heq]%andb_true_iff Hhead]%andb_true_iff Hv].
  destruct (saved_value_last v) as (d & Hd & Hdsp).
  set (line := k +:+ String "=" (saved_value v)).
  assert (Hlast : last_char line = Some d).
  { unfold line. rewrite last_char_app by done. simpl.
    destruct (saved_value v); [done|exact Hd]. }
  assert (Hline : strip (line +:+ nl) = line
                  /\ is_empty line = false /\ startswith "#" line = false).
  { rewrite strip_newline. unfold line. destruct k as [|c k'].
    - split; [|done]. by apply (strip_unchanged _ _ "="%char d).
    - apply andb_true_iff in Hhead as [Hsp Hhash].
      apply negb_true_iff in Hsp, Hhash.
      split; [by apply (strip_unchanged _ _ c d)|]. split; [done|].
      rewrite app_cons.
      change (Ascii.eqb "#" c && true = false).
      by rewrite Ascii.eqb_sym, Hhash. }
  destruct Hline as (Hstrip & Hne & Hhash).
  unfold load_line. rewrite Hstrip, Hne, Hhash. simpl.
  unfold line. rewrite contains_app by done.
  rewrite split_once_app by done.
  by rewrite saved_value_typed.
Qed.

Lemma load_lines_saved (l : dict) (config : dict) :
  Forall (fun kv => entry_ok kv = true) l ->
  fold_left load_line (map (fun kv => save_line (fst kv) (snd kv) +:+ nl) l) config
  = fold_left (fun acc kv =>
                 if is_false (snd kv) then acc
                 else dict_set (fst kv) (snd kv) acc) l config.
Proof.
  intros Hl. revert config. induction Hl as [|[k v] l Hkv _ IH]; intros config.
  - done.
  - simpl. rewrite load_line_saved by done. apply IH.
Qed.

Lemma enabled_cons (k : string) (v : pyval) (l : dict) :
  enabled ((k, v) :: l)
  = if is_false v then enabled l else (k, v) :: enabled l.
Proof.
  unfold enabled. rewrite filter_cons.
  destruct (is_false v) eqn:Hf; simpl; rewrite Hf.
  - by rewrite decide_False.
  - by rewrite decide_True.
Qed.

Lemma set_all_fresh (l config : dict) :
  NoDup (dict_keys l) ->
  (forall k, In k (dict_keys l) -> ~ In k (dict_keys config)) ->
  fold_left (fun acc kv =>
               if is_false (snd kv) then acc
               else dict_set (fst kv) (snd kv) acc) l config
  = config ++ enabled l.
Proof.
  revert config. induction l as [|[k v] l IH]; intros config Hn Hfresh.
  - simpl. by rewrite app_nil_r.
  - simpl in Hn. apply NoDup_cons in Hn as [Hk Hn].
    rewrite enabled_cons. simpl.
    destruct (is_false v) eqn:Hf.
    + apply IH; [done|].
      intros k' Hk'. apply Hfresh. by right.
    + rewrite dict_set_fresh by (apply Hfresh; by left).
      rewrite IH; [by rewrite <- app_assoc|done|].
      intros k' Hk'. unfold dict_keys. rewrite map_app, in_app_iff.
      intros [Hin|[<-|[]]].
      * apply (Hfresh k'); [by right|done].
      * by apply Hk, list_elem_of_In.
Qed.

Lemma sorted_items_well_formed (m : dict) :
  well_formed m -> well_formed (sorted_items m).
Proof.
  intros [Hn Hf]. unfold sorted_items, well_formed.
  pose proof (merge_sort_Permutation key_le m) as Hp.
  split.
  - by rewrite (dict_keys_Permutation _ _ Hp).
  - by rewrite Hp.
Qed.

Lemma save_chunks_lines (m : dict) :
  save_chunks m
  = map (fun b => b +:+ nl)
      ("# LittleKernel Configuration" :: ""
       :: map (fun kv => save_line (fst kv) (snd kv)) (sorted_items m)).
Proof. unfold save_chunks. simpl. by rewrite map_map. Qed.

(** Loading a saved config gives back its options in the order of their
    names, without those that are switched off. *)
Lemma load_text_save_text (m : dict) :
  well_formed m ->
  load_text (save_text m) = enabled (sorted_items m).
Proof.
  intros Hwf. destruct (sorted_items_well_formed m Hwf) as [Hn Hf].
  unfold load_text, save_text. rewrite save_chunks_lines.
  rewrite file_lines_chunks.
  - rewrite <- save_chunks_lines. unfold save_chunks.
    change (fold_left load_line
              (map (fun kv => save_line (fst kv) (snd kv) +:+ nl) (sorted_items m))
              (load_line (load_line [] ("# LittleKernel Configuration" +:+ nl)) nl)
            = enabled (sorted_items m)).
    replace (load_line (load_line [] ("# LittleKernel Configuration" +:+ nl)) nl)
      with (@nil (string * pyval)) by (by vm_compute).
    rewrite load_lines_saved by done.
    rewrite set_all_fresh; [done|done|]. by intros k _ [].
  - constructor; [done|]. constructor; [done|].
    apply Forall_map. eapply Forall_impl; [exact Hf|].
    intros [k v] Hkv. by apply save_line_no_break.
Qed.

(** ** The round trip of a config in the saved forms *)

(** The canonical lines are the lines [save_line] writes. *)
Lemma canonical_line_save_line (body : string) :
  canonical_line body <-> exists name v, body = save_line name v.
Proof.
  split.
  - intros [name|name|name n|name s].
    + by exists name, (PyBool true).
    + by exists name, (PyBool false).
    + by exists name, (PyInt n).
    + by exists name, (PyStr s).
  - intros (name & [[]|n|s] & ->); constructor.
Qed.

Lemma saved_value_last_char (v : pyval) :
  exists d, last_char (saved_value v) = Some d
            /\ isspace d = false
            /\ Ascii.eqb d "=" = false /\ Ascii.eqb d "n" = false.
Proof.
  destruct v as [b|n|s]; unfold saved_value.
  - by exists "y"%char.
  - destruct (str_int_last n) as (d & Hd & Hdig). exists d. split; [done|].
    destruct (digit_char d Hdig) as (? & _ & _ & _ & ? & _ & _ & _ & ? & _).
    done.
  - exists DQ. split; [|done].
    change (String DQ (s +:+ String DQ "")) with (String DQ s +:+ String DQ "").
    by rewrite last_char_app.
Qed.

(** No canonical line loads as an option that is switched off. *)
Lemma load_canonical_enabled (config : dict) (l : string) :
  canonical l ->
  Forall (fun kv => is_false (snd kv) = false) config ->
  Forall (fun kv => is_false (snd kv) = false) (load_line config l).
Proof.
  intros (body & Hbody & Hl) Hconfig.
  apply canonical_line_save_line in Hbody as (name & v & ->).
  destruct (is_false v) eqn:Hf.
  { destruct v as [[]| |]; try done.
    assert (E : load_line config l = config); [|by rewrite E].
    destruct Hl as [->| ->].
    - exact (load_line_comment config (name +:+ " is not set")).
    - exact (load_line_comment config ((name +:+ " is not set") +:+ nl)). }
  rewrite save_line_enabled in Hl by done.
  assert (Hstrip : strip l = strip (name +:+ String "=" (saved_value v)))
    by (destruct Hl as [->| ->]; [done|apply strip_newline]).
  destruct (load_line_cases config l)
    as [->|(key & value & Hline & Hkey & _ & ->)]; [done|].
  apply dict_set_Forall; [done|]. simpl.
  destruct (typed_value value) as [[]| |] eqn:Htyped; try done.
  apply typed_value_false in Htyped. subst value. exfalso.
  destruct (saved_value_last_char v) as (d & Hd & Hsp & Heq & Hn).
  assert (Hlast : last_char (strip l) = Some d).
  { rewrite Hstrip. apply strip_last; [|done].
    rewrite last_char_app by done. simpl.
    destruct (saved_value v); [done|exact Hd]. }
  rewrite Hline, last_char_app in Hlast by done.
  injection Hlast as <-. done.
Qed.

Lemma load_text_enabled (text : string) :
  canonical_text text ->
  Forall (fun kv => is_false (snd kv) = false) (load_text text).
Proof.
  unfold canonical_text, load_text. intros Hlines.
  assert (H : forall config,
             Forall (fun kv => is_false (snd kv) = false) config ->
             Forall (fun kv => is_false (snd kv) = false)
               (fold_left load_line (file_lines text) config)).
  { induction Hlines as [|l ls Hl _ IH]; intros config Hc; [done|].
    simpl. by apply IH, load_canonical_enabled. }
  by apply H.
Qed.

Lemma enabled_all (d : dict) :
  Forall (fun kv => is_false (snd kv) = false) d -> enabled d = d.
Proof.
  induction 1 as [|[k v] d Hv _ IH]; [done|].
  rewrite enabled_cons. simpl in Hv. by rewrite Hv, IH.
Qed.

(** C1. Round trip: for a config text whose lines all have one of the four
    saved forms, loading it, saving the loaded config (to any path) and
    loading that file again gives a config with the same names and the
    same typed values as the first load. *)
Theorem config_round_trip (fs fs' : files) (path path' text : string) :
  fs !! path = Some text ->
  canonical_text text ->
  let m := load_config fs path in
  dict_eq (load_config (save_config m path' fs') path') m.
Proof.
  intros Hfs Hcanon m.
  assert (Hm : m = load_text text) by (unfold m, load_config; by rewrite Hfs).
  unfold load_config, save_config. rewrite lookup_insert_eq, Hm.
  pose proof (load_text_well_formed text) as Hwf.
  rewrite load_text_save_text by done.
  destruct (sorted_items_well_formed _ Hwf) as [Hn _].
  pose proof (merge_sort_Permutation key_le (load_text text)) as Hp.
  rewrite enabled_all.
  - by apply dict_eq_Permutation.
  - unfold sorted_items. rewrite Hp. by apply load_text_enabled.
Qed.

Lemma config_round_trip_witness :
  let text := "CONFIG_PCI=y" +:+ nl
              +:+ "#CONFIG_USB is not set" +:+ nl
              +:+ "CONFIG_TIMER_HZ=100" +:+ nl
              +:+ "CONFIG_NAME=" +:+ String DQ ("LittleKernel" +:+ String DQ nl) in
  let fs : files := {[ ".config" := text ]} in
  dict_eq
    (load_config (save_config (load_config fs ".config") ".config" fs) ".config")
    (load_config fs ".config").
Proof.
  intros text fs.
  refine (config_round_trip fs fs ".config" ".config" text _ _).
  - apply lookup_singleton_eq.
  - unfold canonical_text.
    replace (file_lines text)
      with [ "CONFIG_PCI=y" +:+ nl;
             "#CONFIG_USB is not set" +:+ nl;
             "CONFIG_TIMER_HZ=100" +:+ nl;
             "CONFIG_NAME=" +:+ String DQ ("LittleKernel" +:+ String DQ nl) ]
      by (by vm_compute).
    constructor; [|constructor; [|constructor; [|constructor; [|constructor]]]].
    + exists "CONFIG_PCI=y". split; [exact (canon_enabled "CONFIG_PCI")|by right].
    + exists "#CONFIG_USB is not set".
      split; [exact (canon_disabled "CONFIG_USB")|by right].
    + exists "CONFIG_TIMER_HZ=100".
      split; [exact (canon_integer "CONFIG_TIMER_HZ" 100)|by right].
    + exists ("CONFIG_NAME=" +:+ String DQ ("LittleKernel" +:+ String DQ "")).
      split; [exact (canon_string "CONFIG_NAME" "LittleKernel")|by right].
Defined.

(** ** Any config text *)

Lemma enabled_keys_In (d : dict) (k : string) :
  In k (dict_keys (enabled d)) -> In k (dict_keys d).
Proof.
  induction d as [|[k0 v0] d IH]; [done|].
  rewrite enabled_cons. destruct (is_false v0); simpl; [by right; apply IH|].
  intros [->|Hin]; [by left|by right; apply IH].
Qed.

Lemma enabled_NoDup (d : dict) :
  NoDup (dict_keys d) -> NoDup (dict_keys (enabled d)).
Proof.
  induction d as [|[k0 v0] d IH]; [done|]. simpl.
  intros [Hk Hn]%NoDup_cons. rewrite enabled_cons.
  destruct (is_false v0); [by apply IH|]. simpl.
  apply NoDup_cons. split; [|by apply IH].
  intros Hin%list_elem_of_In%enabled_keys_In. by apply Hk, list_elem_of_In.
Qed.

(** For every config text, loading, saving and loading again gives the
    options of the first load but for those that are switched off: their
    saved lines are comments for the loader. *)
Lemma load_save_load (text : string) :
  dict_eq (load_text (save_text (load_text text))) (enabled (load_text text)).
Proof.
  pose proof (load_text_well_formed text) as Hwf.
  rewrite load_text_save_text by done.
  destruct (sorted_items_well_formed _ Hwf) as [Hn _].
  apply dict_eq_Permutation; [by apply enabled_NoDup|].
  unfold enabled, sorted_items. by rewrite merge_sort_Permutation.
Qed.

Example switched_off_option_lost :
  load_text ("CONFIG_USB=n" +:+ nl) = [("CONFIG_USB", PyBool false)]
  /\ load_text (save_text (load_text ("CONFIG_USB=n" +:+ nl))) = [].
Proof. split; by vm_compute. Qed.

(** ** One option at a time *)

Lemma key_at_listed (options : dict) (choice : Z) (k : string) :
  nth_error (dict_keys options) (Z.to_nat (choice - 1)) = Some k ->
  In k (dict_keys options).
Proof. apply nth_error_In. Qed.

Lemma toggle_bool_edits (st : state) :
  edits (bool_options (config st))
    (fun v v' => v' = PyBool (negb (truthy v)))
    (config st) (config (snd (toggle_bool_options st))).
Proof.
  destruct st as [c fs typed out].
  unfold toggle_bool_options. run_editor.
  destruct (bool_options c) as [|o os] eqn:Hopts.
  { run_editor. destruct typed; by left. }
  rewrite print_all_run. run_editor.
  destruct typed as [|answer typed]; [by left|].
  destruct (py_int (strip answer)) as [choice|]; run_editor;
    [|destruct typed; by left].
  destruct (choice =? 0); [by left|].
  destruct (_ && _); run_editor; [|destruct typed; by left].
  destruct (nth_error _ _) as [k|] eqn:Hk; [|by left].
  destruct (dict_get k c) as [v|] eqn:Hv; [|by left].
  run_editor.
  assert (Hedit : edits (o :: os) (fun v v' => v' = PyBool (negb (truthy v))) c
                    (dict_set k (PyBool (negb (truthy v))) c)).
  { eapply edits_one; [by apply key_at_listed in Hk|exact Hv|done|done]. }
  destruct (dict_get k (dict_set k (PyBool (negb (truthy v))) c)); [|done].
  run_editor. by destruct typed.
Qed.

Lemma set_int_edits (st : state) :
  edits (int_options (config st))
    (fun _ v' => exists n, v' = PyInt n)
    (config st) (config (snd (set_int_options st))).
Proof.
  destruct st as [c fs typed out].
  unfold set_int_options. run_editor.
  destruct (int_options c) as [|o os] eqn:Hopts.
  { run_editor. destruct typed; by left. }
  rewrite print_all_run. run_editor.
  destruct typed as [|answer typed]; [by left|].
  destruct (py_int (strip answer)) as [choice|]; run_editor;
    [|destruct typed; by left].
  destruct (choice =? 0); [by left|].
  destruct (_ && _); run_editor; [|destruct typed; by left].
  destruct (nth_error _ _) as [k|] eqn:Hk; [|by left].
  destruct (dict_get k c) as [v|] eqn:Hv; [|by left].
  run_editor.
  destruct typed as [|new_val typed]; [by left|].
  destruct (py_int (strip new_val)) as [n|]; run_editor;
    [|destruct typed; by left].
  assert (Hedit : edits (o :: os) (fun _ v' => exists n, v' = PyInt n) c
                    (dict_set k (PyInt n) c)).
  { eapply edits_one; [by apply key_at_listed in Hk|exact Hv|by exists n|done]. }
  destruct (dict_get k (dict_set k (PyInt n) c)); [|done].
  run_editor. by destruct typed.
Qed.

Lemma set_string_edits (st : state) :
  edits (str_options (config st))
    (fun _ v' => exists s, v' = PyStr s)
    (config st) (config (snd (set_string_options st))).
Proof.
  destruct st as [c fs typed out].
  unfold set_string_options. run_editor.
  destruct (str_options c) as [|o os] eqn:Hopts.
  { run_editor. destruct typed; by left. }
  rewrite print_all_run. run_editor.
  destruct typed as [|answer typed]; [by left|].
  destruct (py_int (strip answer)) as [choice|]; run_editor;
    [|destruct typed; by left].
  destruct (choice =? 0); [by left|].
  destruct (_ && _); run_editor; [|destruct typed; by left].
  destruct (nth_error _ _) as [k|] eqn:Hk; [|by left].
  destruct (dict_get k c) as [v|] eqn:Hv; [|by left].
  run_editor.
  destruct typed as [|new_val typed]; [by left|].
  run_editor.
  assert (Hedit : edits (o :: os) (fun _ v' => exists s, v' = PyStr s) c
                    (dict_set k (PyStr (strip new_val)) c)).
  { eapply edits_one; [by apply key_at_listed in Hk|exact Hv|by eexists|done]. }
  destruct (dict_get k (dict_set k (PyStr (strip new_val)) c)); [|done].
  run_editor. by destruct typed.
Qed.

(** An edit leaves every other option as it was, and adds or removes no
    option. *)
Lemma edits_frame (listed : dict) (allowed : pyval -> pyval -> Prop)
    (before after : dict) :
  edits listed allowed before after ->
  dict_keys after = dict_keys before
  /\ exists k, forall k', k' <> k -> dict_get k' after = dict_get k' before.
Proof.
  intros [->|k v v' _ Hv _ ->].
  - split; [done|]. by exists "".
  - split.
    + apply dict_keys_set. clear -Hv.
      induction before as [|[k0 v0] d IH]; [done|]. simpl in *.
      destruct (String.eqb_spec k0 k); [by left|right; by apply IH].
    + exists k. intros k' Hne. by apply dict_get_set_ne.
Qed.

(** The selection [0], a selection that is no number and a selection out
    of range change nothing. *)
Lemma toggle_bool_no_selection (st : state) (answer : string)
    (rest : list string) :
  stdin st = answer :: rest ->
  match py_int (strip answer) with
  | Some choice =>
      choice = 0 \/ choice < 0
      \/ Z.of_nat (length (bool_options (config st))) < choice
  | None => True
  end ->
  config (snd (toggle_bool_options st)) = config st.
Proof.
  destruct st as [c fs typed out]. simpl. intros -> Hsel.
  unfold toggle_bool_options. run_editor.
  destruct (bool_options c) as [|o os] eqn:Hopts.
  { run_editor. by destruct rest. }
  rewrite print_all_run. run_editor.
  destruct (py_int (strip answer)) as [choice|]; run_editor;
    [|by destruct rest].
  destruct (choice =? 0) eqn:H0; [done|].
  replace ((1 <=? choice) && (choice <=? Z.of_nat (length (o :: os)))) with false
    by (symmetry; apply andb_false_iff; lia).
  run_editor. by destruct rest.
Qed.

Lemma set_int_no_selection (st : state) (answer : string)
    (rest : list string) :
  stdin st = answer :: rest ->
  match py_int (strip answer) with
  | Some choice =>
      choice = 0 \/ choice < 0
      \/ Z.of_nat (length (int_options (config st))) < choice
  | None => True
  end ->
  config (snd (set_int_options st)) = config st.
Proof.
  destruct st as [c fs typed out]. simpl. intros -> Hsel.
  unfold set_int_options. run_editor.
  destruct (int_options c) as [|o os] eqn:Hopts.
  { run_editor. by destruct rest. }
  rewrite print_all_run. run_editor.
  destruct (py_int (strip answer)) as [choice|]; run_editor;
    [|by destruct rest].
  destruct (choice =? 0) eqn:H0; [done|].
  replace ((1 <=? choice) && (choice <=? Z.of_nat (length (o :: os)))) with false
    by (symmetry; apply andb_false_iff; lia).
  run_editor. by destruct rest.
Qed.

Lemma set_string_no_selection (st : state) (answer : string)
    (rest : list string) :
  stdin st = answer :: rest ->
  match py_int (strip answer) with
  | Some choice =>
      choice = 0 \/ choice < 0
      \/ Z.of_nat (length (str_options (config st))) < choice
  | None => True
  end ->
  config (snd (set_string_options st)) = config st.
Proof.
  destruct st as [c fs typed out]. simpl. intros -> Hsel.
  unfold set_string_options. run_editor.
  destruct (str_options c) as [|o os] eqn:Hopts.
  { run_editor. by destruct rest. }
  rewrite print_all_run. run_editor.
  destruct (py_int (strip answer)) as [choice|]; run_editor;
    [|by destruct rest].
  destruct (choice =? 0) eqn:H0; [done|].
  replace ((1 <=? choice) && (choice <=? Z.of_nat (length (o :: os)))) with false
    by (symmetry; apply andb_false_iff; lia).
  run_editor. by destruct rest.
Qed.

(** Viewing changes neither the config nor the files. *)
Lemma view_config_pure (st : state) :
  config (snd (view_config st)) = config st
  /\ disk (snd (view_config st)) = disk st.
Proof.
  destruct st as [c fs typed out]. unfold view_config. run_editor.
  rewrite print_all_run. run_editor. by destruct typed.
Qed.

(** ** The menus stop *)

Section Steady.

Context {A B : Type}.
Variable n : nat.

Lemma steady_ret (a : A) : steady n (ret a).
Proof. by intros s _. Qed.

Lemma steady_raise (e : exn) : steady n (@raise A e).
Proof. by intros s _. Qed.

Lemma steady_bind (m : M A) (f : A -> M B) :
  steady n m -> (forall a, steady n (f a)) -> steady n (bind m f).
Proof.
  intros Hm Hf s Hs. unfold bind.
  destruct (Hm s Hs) as [Hfuel Hlen].
  destruct (m s) as [[a|e|] s']; simpl in *; [|done..].
  destruct (Hf a s') as [Hfuel' Hlen']; [lia|]. split; [done|lia].
Qed.

Lemma consuming_steady (m : M A) : consuming n m -> steady n m.
Proof. intros Hm s Hs. destruct (Hm s Hs) as (? & ? & _). done. Qed.

Lemma consuming_input (prompt : string) (k : string -> M A) :
  (n <> 0%nat -> forall l, steady (pred n) (k l)) ->
  consuming n (bind (input prompt) k).
Proof.
  intros Hk [c fs typed out] Hs. unfold bind, input. simpl in *.
  destruct typed as [|l rest]; simpl in *; [done|].
  destruct (Hk ltac:(lia) l (State c fs rest (out ++ [Prompt prompt])))
    as [Hfuel Hlen]; [simpl; lia|].
  simpl in Hlen. split; [done|]. split; [lia|]. intros _ _. lia.
Qed.

Lemma consuming_after (m0 : M B) (m : M A) :
  (forall s, exists b s', m0 s = (Ret b, s') /\ stdin s' = stdin s) ->
  consuming n m -> consuming n (bind m0 (fun _ => m)).
Proof.
  intros H0 Hm s Hs. unfold bind.
  destruct (H0 s) as (b & s' & -> & Hin).
  rewrite <- Hin. apply Hm. by rewrite Hin.
Qed.

End Steady.

Lemma steady_le {A} (n n' : nat) (m : M A) :
  (n' <= n)%nat -> steady n m -> steady n' m.
Proof. intros Hle Hm s Hs. apply Hm. lia. Qed.

Lemma emit_silent (e : event) (s : state) :
  exists b s', emit e s = (Ret b, s') /\ stdin s' = stdin s.
Proof. by eexists _, _. Qed.

Lemma steady_emit (n : nat) (e : event) : steady n (emit e).
Proof. by intros s _. Qed.

Lemma steady_input (n : nat) (prompt : string) : steady n (input prompt).
Proof.
  intros [c fs typed out] _. unfold input. simpl.
  destruct typed; simpl; split; (done || lia).
Qed.

Lemma steady_get_config (n : nat) : steady n get_config.
Proof. by intros s _. Qed.

Lemma steady_put_config (n : nat) (c : dict) : steady n (put_config c).
Proof. by intros s _. Qed.

Lemma steady_get_disk (n : nat) : steady n get_disk.
Proof. by intros s _. Qed.

Lemma steady_put_disk (n : nat) (fs : files) : steady n (put_disk fs).
Proof. by intros s _. Qed.

Lemma steady_print_all (n : nat) (lines : list string) :
  steady n (print_all lines).
Proof. intros s _. rewrite print_all_run. done. Qed.

Create HintDb steady.

#[local] Hint Resolve steady_ret steady_raise steady_emit steady_input
  steady_get_config steady_put_config steady_get_disk steady_put_disk
  steady_print_all : steady.

(** One step of the proof that a function built from the operations of
    the monad is steady. *)
Ltac steady_step :=
  match goal with
  | |- steady _ (bind _ _) => apply steady_bind; [|intros]
  | |- steady _ (match ?x with _ => _ end) => destruct x
  | |- steady _ (let '(_, _) := ?x in _) => destruct x
  | |- steady _ _ => solve [auto with steady]
  end.

Ltac steady :=
  unfold press_enter, config_assign, config_item, key_at, save_current,
    clear_screen, print;
  repeat steady_step.

Lemma steady_toggle_bool_options (n : nat) : steady n toggle_bool_options.
Proof. unfold toggle_bool_options. steady. Qed.

Lemma steady_set_int_options (n : nat) : steady n set_int_options.
Proof. unfold set_int_options. steady. Qed.

Lemma steady_set_string_options (n : nat) : steady n set_string_options.
Proof. unfold set_string_options. steady. Qed.

Lemma steady_view_config (n : nat) : steady n view_config.
Proof. unfold view_config. steady. Qed.

Lemma steady_use_dialog_interface (n : nat) (script_path : string)
    (run_script : files -> run_result * files) :
  steady n (use_dialog_interface script_path run_script).
Proof. unfold use_dialog_interface. steady. Qed.

#[local] Hint Resolve steady_toggle_bool_options steady_set_int_options
  steady_set_string_options steady_view_config steady_use_dialog_interface
  : steady.

Ltac consuming_prints :=
  unfold clear_screen, print;
  repeat (apply consuming_after; [apply emit_silent|]);
  apply consuming_input; intros ? ?.

Lemma consuming_text_menu_round (n : nat) : consuming n text_menu_round.
Proof. unfold text_menu_round. consuming_prints. steady. Qed.

Section Loops.

Variable script_path : string.
Variable run_script : files -> run_result * files.

Lemma steady_display_text_menu (fuel n : nat) :
  (n < fuel)%nat -> steady n (display_text_menu fuel).
Proof.
  revert n. induction fuel as [|fuel IH]; intros n Hn; [lia|].
  intros s Hs.
  change (display_text_menu (S fuel))
    with (bind text_menu_round
            (fun again => if again then display_text_menu fuel else ret tt)).
  unfold bind.
  destruct (consuming_text_menu_round n s Hs) as (Hfuel & Hlen & Hread).
  destruct (text_menu_round s) as [[again|e|] s'];
    cbn [fst snd] in *; [|done..].
  specialize (Hread again eq_refl).
  destruct again; [|split; [done|exact Hlen]].
  destruct (IH (length (stdin s')) ltac:(lia) s' ltac:(lia)) as [? ?].
  split; [done|lia].
Qed.

Lemma consuming_main_menu_round (fuel n : nat) :
  (n <= fuel)%nat ->
  consuming n (main_menu_round script_path run_script fuel).
Proof.
  intros Hn. unfold main_menu_round. consuming_prints.
  assert (steady (pred n) (display_text_menu fuel))
    by (apply steady_display_text_menu; lia).
  steady.
Qed.

Lemma steady_display_menu (fuel n : nat) :
  (n < fuel)%nat -> steady n (display_menu script_path run_script fuel).
Proof.
  revert n. induction fuel as [|fuel IH]; intros n Hn; [lia|].
  intros s Hs.
  change (display_menu script_path run_script (S fuel))
    with (bind (main_menu_round script_path run_script fuel)
            (fun again =>
               if again then display_menu script_path run_script fuel
               else ret tt)).
  unfold bind.
  destruct (consuming_main_menu_round fuel n ltac:(lia) s Hs)
    as (Hfuel & Hlen & Hread).
  destruct (main_menu_round _ _ _ s) as [[again|e|] s'];
    cbn [fst snd] in *; [|done..].
  specialize (Hread again eq_refl).
  destruct again; [|split; [done|exact Hlen]].
  destruct (IH (length (stdin s')) ltac:(lia) s' ltac:(lia)) as [? ?].
  split; [done|lia].
Qed.

(** [main] never runs out of fuel: it returns, or stops at the end of the
    input. *)
Lemma main_within_fuel (fs : files) (typed : list string) :
  fst (main script_path run_script fs typed) <> OutOfFuel.
Proof.
  unfold main.
  by destruct (steady_display_menu (S (length typed)) (length typed)
                 ltac:(lia) (State (starting_config fs) fs typed [])
                 ltac:(done)).
Qed.

End Loops.

(** * Further properties of the config store *)

(** ** What a loaded config looks like *)

(** X1. Whatever the file holds, the config [load_config] returns has each
    name once; no name holds a [=] or a line break or starts with white
    space or [#]; and no string value holds a line break. *)
Theorem load_config_well_formed (fs : files) (config_file : string) :
  let m := load_config fs config_file in
  NoDup (dict_keys m)
  /\ forall k v, In (k, v) m ->
       no_break k = true
       /\ contains "=" k = false
       /\ startswith "#" k = false
       /\ (forall c r, k = String c r -> isspace c = false)
       /\ (forall s, v = PyStr s -> no_break s = true).
Proof.
  intros m.
  assert (Hwf : well_formed m).
  { unfold m, load_config. destruct (fs !! config_file).
    - apply load_text_well_formed.
    - split; [apply NoDup_nil_2|constructor]. }
  destruct Hwf as [Hn Hf]. split; [done|].
  intros k v Hin. rewrite Forall_forall in Hf.
  specialize (Hf (k, v) (proj2 (list_elem_of_In _ _) Hin)).
  unfold entry_ok, key_ok in Hf. simpl in Hf.
  apply andb_true_iff in Hf as [[[Hnb Heq]%andb_true_iff Hhead]%andb_true_iff Hv].
  split; [done|]. split.
  { clear -Heq. induction k as [|c k IH]; [done|]. simpl in Heq.
    apply andb_true_iff in Heq as [Hc Hk]. apply negb_true_iff in Hc.
    change (Ascii.eqb "=" c && true || contains "=" k = false).
    rewrite (IH Hk), orb_false_r, andb_true_r. by rewrite Ascii.eqb_sym. }
  split.
  { destruct k as [|c k]; [done|].
    apply andb_true_iff in Hhead as [_ Hh]. apply negb_true_iff in Hh.
    change (Ascii.eqb "#" c && true = false).
    by rewrite Ascii.eqb_sym, Hh. }
  split.
  { intros c r ->. apply andb_true_iff in Hhead as [Hs _].
    by apply negb_true_iff in Hs. }
  intros s ->. exact Hv.
Qed.

(** ** Saving and loading again *)

(** X2. For every file system and path, saving the config that was loaded
    and loading the saved file gives the loaded options in the order of
    their names, without the options that are off; a config with no option
    off comes back whole. *)
Theorem reload_gives_enabled_options (fs fs' : files) (path path' : string) :
  let m := load_config fs path in
  let m' := load_config (save_config m path' fs') path' in
  m' = enabled (sorted_items m)
  /\ dict_eq m' (enabled m)
  /\ (Forall (fun kv => snd kv <> PyBool false) m -> dict_eq m' m).
Proof.
  intros m m'.
  assert (Hwf : well_formed m).
  { unfold m, load_config. destruct (fs !! path).
    - apply load_text_well_formed.
    - split; [apply NoDup_nil_2|constructor]. }
  assert (Hm' : m' = enabled (sorted_items m)).
  { unfold m', load_config, save_config. rewrite lookup_insert_eq.
    by apply load_text_save_text. }
  assert (Heq : dict_eq m' (enabled m)).
  { rewrite Hm'. destruct (sorted_items_well_formed _ Hwf) as [Hn _].
    apply dict_eq_Permutation; [by apply enabled_NoDup|].
    unfold enabled, sorted_items. by rewrite merge_sort_Permutation. }
  split; [done|]. split; [done|].
  intros Hon. rewrite (enabled_all m) in Heq; [done|].
  eapply Forall_impl; [exact Hon|]. intros [k [[]| |]]; simpl; congruence.
Qed.

(** ** The saved text does not depend on the order of insertion *)

#[global] Instance key_le_transitive {A} : Transitive (@key_le A).
Proof. intros x y z. unfold key_le. apply transitivity. Qed.

#[global] Instance key_le_total {A} : Total (@key_le A).
Proof. intros x y. unfold key_le. apply total, _. Qed.

Lemma items_of_key_equal (m : dict) (x y : string * pyval) :
  NoDup (dict_keys m) -> In x m -> In y m -> fst x = fst y -> x = y.
Proof.
  intros Hn Hx Hy Hk. destruct x as [k v], y as [k' v']. simpl in Hk. subst k'.
  apply (dict_get_In k v m Hn) in Hx. apply (dict_get_In k v' m Hn) in Hy.
  congruence.
Qed.

Lemma sorted_items_Permutation (m1 m2 : dict) :
  NoDup (dict_keys m1) -> m1 ≡ₚ m2 -> sorted_items m1 = sorted_items m2.
Proof.
  intros Hn Hp. unfold sorted_items.
  apply (StronglySorted_unique_strong key_le).
  - intros x1 x2 H1 H2 H12 H21.
    apply (items_of_key_equal m1 x1 x2 Hn).
    + apply list_elem_of_In. by rewrite <- (merge_sort_Permutation key_le m1).
    + apply list_elem_of_In. rewrite Hp.
      by rewrite <- (merge_sort_Permutation key_le m2).
    + unfold key_le in *. by apply (anti_symm String.le).
  - apply StronglySorted_merge_sort; apply _.
  - apply StronglySorted_merge_sort; apply _.
  - by rewrite !merge_sort_Permutation.
Qed.

(** X3. Two configs with the same options, inserted in different orders,
    are saved as the same text: [save_config] sorts the options by name. *)
Theorem save_text_order_independent (m1 m2 : dict) :
  NoDup (dict_keys m1) ->
  m1 ≡ₚ m2 ->
  save_text m1 = save_text m2.
Proof.
  intros Hn Hp. unfold save_text, save_chunks.
  by rewrite (sorted_items_Permutation m1 m2 Hn Hp).
Qed.

Lemma save_text_order_independent_witness :
  save_text [("CONFIG_TIMER_HZ", PyInt 100); ("CONFIG_PCI", PyBool true)]
  = save_text [("CONFIG_PCI", PyBool true); ("CONFIG_TIMER_HZ", PyInt 100)].
Proof.
  apply save_text_order_independent.
  - cbv [dict_keys map fst]. apply (bool_decide_unpack _). by vm_compute.
  - apply perm_swap.
Defined.

(** ** A further line of the file *)

Lemma file_lines_nonempty (c : ascii) (s : string) :
  file_lines (String c s) <> [].
Proof.
  simpl. destruct (Ascii.eqb c LF); [done|].
  destruct (Ascii.eqb c CR).
  - destruct s as [|c' s']; [done|]. by destruct (Ascii.eqb c' LF).
  - by destruct (file_lines s).
Qed.

(** The lines of a text that ends with a newline come before the lines of
    what follows it. *)
Lemma file_lines_app (t1 t2 : string) :
  file_lines ((t1 +:+ nl) +:+ t2) = file_lines (t1 +:+ nl) ++ file_lines t2.
Proof.
  assert (H : forall n t1, (String.length t1 <= n)%nat ->
             file_lines ((t1 +:+ nl) +:+ t2)
             = file_lines (t1 +:+ nl) ++ file_lines t2).
  { clear t1. induction n as [|n IH]; intros t1 Hlen.
    - destruct t1; [done|simpl in Hlen; lia].
    - destruct t1 as [|c t1]; [done|]. simpl in Hlen.
      rewrite !app_cons.
      change (file_lines (String c ((t1 +:+ nl) +:+ t2)))
        with (if Ascii.eqb c LF then nl :: file_lines ((t1 +:+ nl) +:+ t2)
              else if Ascii.eqb c CR then
                match (t1 +:+ nl) +:+ t2 with
                | String c' s'' =>
                    if Ascii.eqb c' LF then nl :: file_lines s''
                    else nl :: file_lines ((t1 +:+ nl) +:+ t2)
                | EmptyString => [nl]
                end
              else match file_lines ((t1 +:+ nl) +:+ t2) with
                   | [] => [String c EmptyString]
                   | l :: ls => String c l :: ls
                   end).
      change (file_lines (String c (t1 +:+ nl)))
        with (if Ascii.eqb c LF then nl :: file_lines (t1 +:+ nl)
              else if Ascii.eqb c CR then
                match t1 +:+ nl with
                | String c' s'' =>
                    if Ascii.eqb c' LF then nl :: file_lines s''
                    else nl :: file_lines (t1 +:+ nl)
                | EmptyString => [nl]
                end
              else match file_lines (t1 +:+ nl) with
                   | [] => [String c EmptyString]
                   | l :: ls => String c l :: ls
                   end).
      rewrite (IH t1) by lia.
      destruct (Ascii.eqb c LF); [done|].
      destruct (Ascii.eqb c CR).
      + destruct t1 as [|c' t1']; [done|]. rewrite !app_cons.
        destruct (Ascii.eqb c' LF); [|done].
        simpl in Hlen. by rewrite (IH t1') by lia.
      + destruct (file_lines (t1 +:+ nl)) as [|l ls] eqn:E; [|done].
        destruct t1; by apply file_lines_nonempty in E. }
  by apply (H (String.length t1)).
Qed.

Lemma dict_get_set_eq (k : string) (v : pyval) (d : dict) :
  dict_get k (dict_set k v d) = Some v.
Proof.
  induction d as [|[k0 v0] d IH]; simpl.
  - by rewrite String.eqb_refl.
  - destruct (String.eqb_spec k0 k) as [->|Hne]; simpl.
    + by rewrite String.eqb_refl.
    + destruct (String.eqb_spec k0 k); [done|exact IH].
Qed.

Lemma rstrip_app_keep (p : ascii -> bool) (a b : string) :
  rstrip_with p b <> "" ->
  rstrip_with p (a +:+ b) = a +:+ rstrip_with p b.
Proof.
  intros Hb. induction a as [|c a IH]; [done|].
  rewrite !app_cons. simpl. rewrite IH.
  destruct (a +:+ rstrip_with p b) eqn:E; [|done].
  destruct a; [by rewrite app_empty_l in E|done].
Qed.

(** What [load_line] does with a line [key=value] that [strip] leaves as
    it is. *)
Lemma load_line_assignment (config : dict) (key value : string) :
  key_ok key = true ->
  rstrip_with isspace value = value ->
  load_line config ((key +:+ String "=" value) +:+ nl)
  = dict_set key (typed_value value) config.
Proof.
  intros Hkey Hvalue. unfold key_ok in Hkey.
  apply andb_true_iff in Hkey as [[Hnb Heq]%andb_true_iff Hhead].
  set (line := key +:+ String "=" value).
  assert (Hr : rstrip_with isspace line = line).
  { unfold line. rewrite rstrip_app_keep; rewrite rstrip_head by done;
      [by rewrite Hvalue|done]. }
  assert (Hline : strip (line +:+ nl) = line
                  /\ is_empty line = false /\ startswith "#" line = false).
  { rewrite strip_newline. unfold strip, strip_with.
    unfold line in *. destruct key as [|c key'].
    - rewrite app_empty_l in *. rewrite lstrip_head by done. by rewrite Hr.
    - apply andb_true_iff in Hhead as [Hsp Hhash].
      apply negb_true_iff in Hsp, Hhash. rewrite app_cons in *.
      rewrite lstrip_head by done. rewrite Hr. split; [done|]. split; [done|].
      change (Ascii.eqb "#" c && true = false).
      by rewrite Ascii.eqb_sym, Hhash. }
  destruct Hline as (Hstrip & Hne & Hhash).
  unfold load_line. rewrite Hstrip, Hne, Hhash. simpl.
  unfold line. rewrite contains_app by done.
  by rewrite split_once_app.
Qed.

(** X4. A line [NAME=VALUE] added at the end of a config file sets that
    one option when the file is loaded: it overrides an earlier value of
    [NAME], which keeps its place, or comes last when [NAME] is new, and
    every other option loads as before. *)
Theorem appended_assignment_wins (prefix key value : string) :
  prefix = "" \/ (exists t, prefix = t +:+ nl) ->
  key_ok key = true ->
  no_break value = true ->
  rstrip_with isspace value = value ->
  let text := prefix +:+ (key +:+ String "=" value) +:+ nl in
  load_text text = dict_set key (typed_value value) (load_text prefix)
  /\ dict_get key (load_text text) = Some (typed_value value)
  /\ forall k, k <> key -> dict_get k (load_text text) = dict_get k (load_text prefix).
Proof.
  intros Hprefix Hkey Hnb Hvalue text.
  assert (Hline : file_lines (((key +:+ String "=" value) +:+ nl))
                  = [(key +:+ String "=" value) +:+ nl]).
  { rewrite <- (app_empty_r (_ +:+ nl)), app_assoc'.
    rewrite file_lines_line; [done|].
    unfold key_ok in Hkey.
    apply andb_true_iff in Hkey as [[Hk _]%andb_true_iff _].
    rewrite no_break_app, Hk. simpl. exact Hnb. }
  assert (Hlines : file_lines text
                   = file_lines prefix ++ [(key +:+ String "=" value) +:+ nl]).
  { unfold text. destruct Hprefix as [->|[t ->]].
    - rewrite app_empty_l. exact Hline.
    - rewrite <- Hline. rewrite <- file_lines_app.
      by rewrite <- !app_assoc'. }
  assert (Hload : load_text text
                  = dict_set key (typed_value value) (load_text prefix)).
  { unfold load_text. rewrite Hlines, fold_left_app. simpl.
    by apply load_line_assignment. }
  split; [done|]. rewrite Hload. split; [apply dict_get_set_eq|].
  intros k Hk. by apply dict_get_set_ne.
Qed.

Lemma appended_assignment_wins_witness :
  load_text (("CONFIG_TIMER_HZ=100" +:+ nl) +:+ ("CONFIG_TIMER_HZ" +:+ String "=" "250") +:+ nl)
  = dict_set "CONFIG_TIMER_HZ" (typed_value "250")
      (load_text ("CONFIG_TIMER_HZ=100" +:+ nl)).
Proof.
  refine (proj1 (appended_assignment_wins ("CONFIG_TIMER_HZ=100" +:+ nl)
                   "CONFIG_TIMER_HZ" "250" _ _ _ _)).
  - right. by exists "CONFIG_TIMER_HZ=100".
  - reflexivity.
  - reflexivity.
  - reflexivity.
Defined.

(** * Further properties of the editor *)

(** ** The external configurator and the config in memory *)

Lemma dict_get_update (d other : dict) (k : string) :
  NoDup (dict_keys other) ->
  dict_get k (dict_update d other)
  = match dict_get k other with
    | Some v => Some v
    | None => dict_get k d
    end.
Proof.
  unfold dict_update. revert d.
  induction other as [|[k0 v0] other IH]; intros d Hn; [done|].
  simpl in Hn. apply NoDup_cons in Hn as [Hk0 Hn]. simpl.
  rewrite IH by done.
  destruct (String.eqb_spec k0 k) as [->|Hne].
  - destruct (dict_get k other) as [v|] eqn:Hv; [|apply dict_get_set_eq].
    exfalso. apply Hk0. apply list_elem_of_In.
    apply (dict_get_In k v other Hn) in Hv.
    unfold dict_keys. apply in_map_iff. by exists (k, v).
  - destruct (dict_get k other); [done|]. by apply dict_get_set_ne.
Qed.

(** X6. After the external configurator has succeeded, an option of the
    config in memory has the value the config file gives it, and an option
    the file does not give keeps the value it had: the file is laid over
    the config in memory. *)
Theorem reload_lays_file_over_memory
    (script_path : string) (run_script : files -> run_result * files) (fuel : nat)
    (st : state) (answer : string) (rest : list string) (fs' : files) :
  stdin st = answer :: rest ->
  strip answer = "1" ->
  is_Some (disk st !! script_path) ->
  run_script (disk st) = (Exited true, fs') ->
  let after := snd (main_menu_round script_path run_script fuel st) in
  disk after = fs'
  /\ forall k,
       dict_get k (config after)
       = match dict_get k (load_config fs' ".config") with
         | Some v => Some v
         | None => dict_get k (config st)
         end.
Proof.
  intros Hin Hans Hscript Hrun after.
  destruct (dialog_success_updates_config script_path run_script fuel
              st answer rest fs' Hin Hans Hscript Hrun) as (_ & Hdisk & Hconfig).
  split; [done|]. intros k. unfold after. rewrite Hconfig.
  apply dict_get_update.
  unfold load_config. destruct (fs' !! ".config").
  - apply load_text_well_formed.
  - apply NoDup_nil_2.
Qed.

Lemma reload_lays_file_over_memory_witness :
  let after := snd (main_menu_round Session.script Session.drops_timer 1
                      (Session.start ["1"])) in
  disk after = snd (Session.drops_timer Session.on_disk)
  /\ forall k,
       dict_get k (config after)
       = match dict_get k (load_config (snd (Session.drops_timer Session.on_disk))
                             ".config") with
         | Some v => Some v
         | None => dict_get k (config (Session.start ["1"]))
         end.
Proof.
  apply (reload_lays_file_over_memory Session.script Session.drops_timer 1
           (Session.start ["1"]) "1" []).
  - reflexivity.
  - reflexivity.
  - exists ("#!/bin/sh" +:+ nl). by vm_compute.
  - reflexivity.
Defined.

Lemma dialog_failure_keeps_config_witness :
  config (snd (main_menu_round Session.script Session.fails 1
                 (Session.start ["1"])))
  = config (Session.start ["1"]).
Proof.
  refine (proj2 (dialog_failure_keeps_config Session.script Session.fails 1
                   (Session.start ["1"]) "1" [] _ _ _)).
  - reflexivity.
  - reflexivity.
  - right. reflexivity.
Defined.

(** ** The lists change one option *)

(** X7. The boolean list changes nothing, or it turns one option of its
    list into the negation of its truth value; it adds and removes no
    option and leaves every other option as it was. *)
Theorem toggle_changes_one_boolean (st : state) :
  let before := config st in
  let after := config (snd (toggle_bool_options st)) in
  dict_keys after = dict_keys before
  /\ (after = before
      \/ exists k v,
           In k (dict_keys (bool_options before))
           /\ dict_get k before = Some v
           /\ dict_get k after = Some (PyBool (negb (truthy v)))
           /\ forall k', k' <> k -> dict_get k' after = dict_get k' before).
Proof.
  intros before after.
  pose proof (toggle_bool_edits st) as Hedit. fold before after in Hedit.
  split; [by destruct (edits_frame _ _ _ _ Hedit)|].
  destruct Hedit as [->|k v v' Hk Hv -> Hafter]; [by left|].
  right. exists k, v. rewrite Hafter.
  split; [done|]. split; [done|]. split; [apply dict_get_set_eq|].
  intros k' Hne. by apply dict_get_set_ne.
Qed.

(** X8. The integer list changes nothing, or it sets one option of its
    list to an integer; it adds and removes no option and leaves every
    other option as it was. *)
Theorem set_int_changes_one_option (st : state) :
  let before := config st in
  let after := config (snd (set_int_options st)) in
  dict_keys after = dict_keys before
  /\ (after = before
      \/ exists k n,
           In k (dict_keys (int_options before))
           /\ dict_get k after = Some (PyInt n)
           /\ forall k', k' <> k -> dict_get k' after = dict_get k' before).
Proof.
  intros before after.
  pose proof (set_int_edits st) as Hedit. fold before after in Hedit.
  split; [by destruct (edits_frame _ _ _ _ Hedit)|].
  destruct Hedit as [->|k v v' Hk Hv [n ->] Hafter]; [by left|].
  right. exists k, n. rewrite Hafter.
  split; [done|]. split; [apply dict_get_set_eq|].
  intros k' Hne. by apply dict_get_set_ne.
Qed.

(** X9. The string list changes nothing, or it sets one option of its
    list, which holds strings only, to a string; it adds and removes no
    option and leaves every other option as it was. *)
Theorem set_string_changes_one_string (st : state) :
  let before := config st in
  let after := config (snd (set_string_options st)) in
  dict_keys after = dict_keys before
  /\ (after = before
      \/ exists k s,
           In k (dict_keys (str_options before))
           /\ dict_get k after = Some (PyStr s)
           /\ forall k', k' <> k -> dict_get k' after = dict_get k' before).
Proof.
  intros before after.
  pose proof (set_string_edits st) as Hedit. fold before after in Hedit.
  split; [by destruct (edits_frame _ _ _ _ Hedit)|].
  destruct Hedit as [->|k v v' Hk Hv [s ->] Hafter]; [by left|].
  right. exists k, s. rewrite Hafter.
  split; [done|]. split; [apply dict_get_set_eq|].
  intros k' Hne. by apply dict_get_set_ne.
Qed.

Lemma no_selection_cases (options : dict) (answer : string) :
  no_selection options answer = true ->
  match py_int (strip answer) with
  | Some choice =>
      choice = 0 \/ choice < 0 \/ Z.of_nat (length options) < choice
  | None => True
  end.
Proof.
  unfold no_selection. destruct (py_int (strip answer)); [|done]. lia.
Qed.

(** X10. In each of the three lists, an answer that is no number, the
    answer [0] and a number outside the list leave the config as it
    is. *)
Theorem lists_keep_config_without_selection (st : state) (answer : string)
    (rest : list string) :
  stdin st = answer :: rest ->
  (no_selection (bool_options (config st)) answer = true ->
   config (snd (toggle_bool_options st)) = config st)
  /\ (no_selection (int_options (config st)) answer = true ->
      config (snd (set_int_options st)) = config st)
  /\ (no_selection (str_options (config st)) answer = true ->
      config (snd (set_string_options st)) = config st).
Proof.
  intros Hin. split; [|split]; intros Hsel%no_selection_cases.
  - by apply (toggle_bool_no_selection st answer rest).
  - by apply (set_int_no_selection st answer rest).
  - by apply (set_string_no_selection st answer rest).
Qed.

Lemma lists_keep_config_without_selection_witness :
  config (snd (toggle_bool_options (Session.start ["7"; ""])))
  = config (Session.start ["7"; ""])
  /\ config (snd (set_int_options (Session.start ["x"; ""])))
     = config (Session.start ["x"; ""])
  /\ config (snd (set_string_options (Session.start ["0"])))
     = config (Session.start ["0"]).
Proof.
  split; [|split].
  - by apply (lists_keep_config_without_selection
                (Session.start ["7"; ""]) "7" [""]).
  - by apply (lists_keep_config_without_selection
                (Session.start ["x"; ""]) "x" [""]).
  - by apply (lists_keep_config_without_selection
                (Session.start ["0"]) "0" []).
Defined.

(** ** What the lists and the view never do *)

Section KeepsDisk.

Context {A B : Type}.

Lemma keeps_disk_ret (a : A) : keeps_disk (ret a).
Proof. by intros s. Qed.

Lemma keeps_disk_raise (e : exn) : keeps_disk (@raise A e).
Proof. by intros s. Qed.

Lemma keeps_disk_bind (m : M A) (f : A -> M B) :
  keeps_disk m -> (forall a, keeps_disk (f a)) -> keeps_disk (bind m f).
Proof.
  intros Hm Hf s. unfold bind. specialize (Hm s).
  destruct (m s) as [[a|e|] s']; simpl in *; [|done..].
  by rewrite Hf.
Qed.

End KeepsDisk.

Lemma keeps_disk_emit (e : event) : keeps_disk (emit e).
Proof. by intros s. Qed.

Lemma keeps_disk_input (prompt : string) : keeps_disk (input prompt).
Proof. intros [c fs typed out]. unfold input. simpl. by destruct typed. Qed.

Lemma keeps_disk_get_config : keeps_disk get_config.
Proof. by intros s. Qed.

Lemma keeps_disk_put_config (c : dict) : keeps_disk (put_config c).
Proof. by intros s. Qed.

Lemma keeps_disk_print_all (lines : list string) : keeps_disk (print_all lines).
Proof. intros s. by rewrite print_all_run. Qed.

Create HintDb keeps_disk.

#[local] Hint Resolve keeps_disk_ret keeps_disk_raise keeps_disk_emit
  keeps_disk_input keeps_disk_get_config keeps_disk_put_config
  keeps_disk_print_all : keeps_disk.

Ltac keeps_disk_step :=
  match goal with
  | |- keeps_disk (bind _ _) => apply keeps_disk_bind; [|intros]
  | |- keeps_disk (match ?x with _ => _ end) => destruct x
  | |- keeps_disk _ => solve [auto with keeps_disk]
  end.

Ltac keeps_disk :=
  unfold press_enter, config_assign, config_item, key_at, clear_screen, print;
  repeat keeps_disk_step.

(** X11. The three lists and the view never write a file: the file system
    is after them what it was before. The view leaves the config in
    memory as it was, too. *)
Theorem lists_and_view_write_no_file (st : state) :
  disk (snd (toggle_bool_options st)) = disk st
  /\ disk (snd (set_int_options st)) = disk st
  /\ disk (snd (set_string_options st)) = disk st
  /\ disk (snd (view_config st)) = disk st
  /\ config (snd (view_config st)) = config st.
Proof.
  assert (H1 : keeps_disk toggle_bool_options)
    by (unfold toggle_bool_options; keeps_disk).
  assert (H2 : keeps_disk set_int_options)
    by (unfold set_int_options; keeps_disk).
  assert (H3 : keeps_disk set_string_options)
    by (unfold set_string_options; keeps_disk).
  destruct (view_config_pure st) as [Hc Hd].
  by rewrite H1, H2, H3.
Qed.

(** ** The exceptions that leave the editor *)

(** A selection within a list names a key of the list, and the config has
    a value under it. *)
Lemma listed_key (P : string * pyval -> Prop) `{!forall kv, Decision (P kv)}
    (c : dict) (choice : Z) :
  (1 <=? choice) && (choice <=? Z.of_nat (length (filter P c))) = true ->
  exists k v,
    nth_error (dict_keys (filter P c)) (Z.to_nat (choice - 1)) = Some k
    /\ dict_get k c = Some v.
Proof.
  intros [H1 H2]%andb_true_iff.
  destruct (nth_error (dict_keys (filter P c)) (Z.to_nat (choice - 1)))
    as [k|] eqn:Hk.
  - assert (Hin : In k (dict_keys c)).
    { apply nth_error_In in Hk. unfold dict_keys in *.
      apply in_map_iff in Hk as ([k' v'] & <- & Hkv).
      apply in_map_iff. exists (k', v'). split; [done|].
      apply list_elem_of_In. apply list_elem_of_In in Hkv.
      by apply list_elem_of_filter in Hkv as [_ ?]. }
    destruct (dict_get k c) as [v|] eqn:Hv; [by exists k, v|].
    exfalso. clear -Hin Hv. induction c as [|[k0 v0] c IH]; [done|].
    simpl in *. destruct (String.eqb_spec k0 k); [done|].
    destruct Hin as [?|Hin]; [done|]. by apply IH.
  - apply nth_error_None in Hk. unfold dict_keys in Hk.
    rewrite length_map in Hk. lia.
Qed.

Create HintDb raises_only.

Section RaisesOnly.

(** The exceptions that may leave: the end of the input is always one of
    them; [OSError] is one, or else the script is always run to an exit
    status. *)
Variable allowed : exn -> Prop.
Hypothesis allowed_eof : allowed EOFError.

Variable script_path : string.
Variable run_script : files -> run_result * files.
Hypothesis script_runs :
  allowed OSError \/ forall fs, fst (run_script fs) <> NotRun.

Lemma raises_only_ret {A} (a : A) : raises_only allowed (ret a).
Proof. by intros s e. Qed.

Lemma raises_only_bind {A B} (m : M A) (f : A -> M B) :
  raises_only allowed m -> (forall a, raises_only allowed (f a)) ->
  raises_only allowed (bind m f).
Proof.
  intros Hm Hf s e. unfold bind. specialize (Hm s).
  destruct (m s) as [[a|e'|] s']; simpl in *; [apply Hf| |done].
  intros [= <-]. by apply Hm.
Qed.

Lemma raises_only_emit (e : event) : raises_only allowed (emit e).
Proof. by intros s e'. Qed.

Lemma raises_only_input (prompt : string) :
  raises_only allowed (input prompt).
Proof.
  intros [c fs typed out] e. unfold input. simpl.
  destruct typed; simpl; [by intros [= <-]|done].
Qed.

Lemma raises_only_get_config : raises_only allowed get_config.
Proof. by intros s e. Qed.

Lemma raises_only_put_config (c : dict) : raises_only allowed (put_config c).
Proof. by intros s e. Qed.

Lemma raises_only_get_disk : raises_only allowed get_disk.
Proof. by intros s e. Qed.

Lemma raises_only_put_disk (fs : files) : raises_only allowed (put_disk fs).
Proof. by intros s e. Qed.

Lemma raises_only_print_all (lines : list string) :
  raises_only allowed (print_all lines).
Proof. intros s e. by rewrite print_all_run. Qed.

#[local] Hint Resolve raises_only_ret raises_only_emit raises_only_input
  raises_only_get_config raises_only_put_config raises_only_get_disk
  raises_only_put_disk raises_only_print_all : raises_only.

Ltac raises_only_step :=
  match goal with
  | |- raises_only _ (bind _ _) => apply raises_only_bind; [|intros]
  | |- raises_only _ (match ?x with _ => _ end) => destruct x
  | |- raises_only _ _ => solve [auto with raises_only]
  end.

Ltac raises_only :=
  unfold press_enter, config_assign, save_current, clear_screen, print;
  repeat raises_only_step.

(** The end of a list: a last line is read. *)
Ltac last_input typed :=
  destruct typed; simpl; [by intros [= <-]|done].

Lemma raises_only_toggle_bool_options :
  raises_only allowed toggle_bool_options.
Proof.
  intros [c fs typed out] e.
  unfold toggle_bool_options. run_editor.
  destruct (bool_options c) as [|o os] eqn:Hopts.
  { run_editor. last_input typed. }
  rewrite print_all_run. run_editor.
  destruct typed as [|answer typed]; [by intros [= <-]|].
  destruct (py_int (strip answer)) as [choice|]; run_editor;
    [|last_input typed].
  destruct (choice =? 0); [done|].
  destruct (_ && _) eqn:Hrange; run_editor; [|last_input typed].
  unfold bool_options in Hopts. rewrite <- Hopts in Hrange.
  destruct (listed_key _ c choice Hrange) as (k0 & v0 & Hk0 & Hv0).
  rewrite Hopts in Hk0. rewrite Hk0, Hv0. run_editor.
  rewrite dict_get_set_eq. run_editor. last_input typed.
Qed.

Lemma raises_only_set_int_options : raises_only allowed set_int_options.
Proof.
  intros [c fs typed out] e.
  unfold set_int_options. run_editor.
  destruct (int_options c) as [|o os] eqn:Hopts.
  { run_editor. last_input typed. }
  rewrite print_all_run. run_editor.
  destruct typed as [|answer typed]; [by intros [= <-]|].
  destruct (py_int (strip answer)) as [choice|]; run_editor;
    [|last_input typed].
  destruct (choice =? 0); [done|].
  destruct (_ && _) eqn:Hrange; run_editor; [|last_input typed].
  unfold int_options in Hopts. rewrite <- Hopts in Hrange.
  destruct (listed_key _ c choice Hrange) as (k0 & v0 & Hk0 & Hv0).
  rewrite Hopts in Hk0. rewrite Hk0, Hv0. run_editor.
  destruct typed as [|new_val typed]; [by intros [= <-]|].
  destruct (py_int (strip new_val)) as [n|]; run_editor; [|last_input typed].
  rewrite dict_get_set_eq. run_editor. last_input typed.
Qed.

Lemma raises_only_set_string_options :
  raises_only allowed set_string_options.
Proof.
  intros [c fs typed out] e.
  unfold set_string_options. run_editor.
  destruct (str_options c) as [|o os] eqn:Hopts.
  { run_editor. last_input typed. }
  rewrite print_all_run. run_editor.
  destruct typed as [|answer typed]; [by intros [= <-]|].
  destruct (py_int (strip answer)) as [choice|]; run_editor;
    [|last_input typed].
  destruct (choice =? 0); [done|].
  destruct (_ && _) eqn:Hrange; run_editor; [|last_input typed].
  unfold str_options in Hopts. rewrite <- Hopts in Hrange.
  destruct (listed_key _ c choice Hrange) as (k0 & v0 & Hk0 & Hv0).
  rewrite Hopts in Hk0. rewrite Hk0, Hv0. run_editor.
  destruct typed as [|new_val typed]; [by intros [= <-]|].
  run_editor. rewrite dict_get_set_eq. run_editor. last_input typed.
Qed.

Lemma raises_only_view_config : raises_only allowed view_config.
Proof. unfold view_config. raises_only. Qed.

(** The configurator: [OSError] leaves it when the script is there and
    cannot be executed. *)
Lemma raises_only_use_dialog_interface :
  raises_only allowed (use_dialog_interface script_path run_script).
Proof.
  intros [c fs typed out] e. unfold use_dialog_interface. run_editor.
  destruct (fs !! script_path); [|done].
  destruct (run_script fs) as [[[]|] fs'] eqn:Hrun; [done|done|].
  run_editor. intros [= <-].
  destruct script_runs as [H|H]; [done|].
  exfalso. apply (H fs). by rewrite Hrun.
Qed.

#[local] Hint Resolve raises_only_toggle_bool_options
  raises_only_set_int_options raises_only_set_string_options
  raises_only_view_config raises_only_use_dialog_interface : raises_only.

Lemma raises_only_text_menu_round : raises_only allowed text_menu_round.
Proof. unfold text_menu_round. raises_only. Qed.

Lemma raises_only_display_text_menu (fuel : nat) :
  raises_only allowed (display_text_menu fuel).
Proof.
  induction fuel as [|fuel IH]; [by intros s e|].
  change (display_text_menu (S fuel))
    with (bind text_menu_round
            (fun again => if again then display_text_menu fuel else ret tt)).
  apply raises_only_bind; [apply raises_only_text_menu_round|].
  intros []; [done|apply raises_only_ret].
Qed.

Lemma raises_only_main_menu_round (fuel : nat) :
  raises_only allowed (main_menu_round script_path run_script fuel).
Proof.
  pose proof (raises_only_display_text_menu fuel).
  unfold main_menu_round. raises_only.
Qed.

Lemma raises_only_display_menu (fuel : nat) :
  raises_only allowed (display_menu script_path run_script fuel).
Proof.
  induction fuel as [|fuel IH]; [by intros s e|].
  change (display_menu script_path run_script (S fuel))
    with (bind (main_menu_round script_path run_script fuel)
            (fun again =>
               if again then display_menu script_path run_script fuel
               else ret tt)).
  apply raises_only_bind; [apply raises_only_main_menu_round|].
  intros []; [done|apply raises_only_ret].
Qed.

End RaisesOnly.


(** The [OSError] does leave the editor: a script that is there and
    cannot be executed ends it at the first choice of the configurator. *)
Example script_not_executable :
  fst (main Session.script (fun fs => (NotRun, fs)) Session.on_disk ["1"])
  = Raise OSError.
Proof. by vm_compute. Qed.

(** ** Leaving the menus *)

Section Leaving.

Variable script_path : string.
Variable run_script : files -> run_result * files.

(** X13. In the main menu, the choice [4] writes the config in memory to
    [.config] and ends the menu; the choice [5] ends the menu and writes
    nothing. Neither changes the config in memory or reads further
    input. *)
Theorem main_menu_exit_choices (fuel : nat) (st : state) (answer : string)
    (rest : list string) :
  stdin st = answer :: rest ->
  let r := display_menu script_path run_script (S fuel) st in
  (strip answer = "4" ->
   fst r = Ret tt
   /\ disk (snd r) = <[".config" := save_text (config st)]> (disk st)
   /\ config (snd r) = config st /\ stdin (snd r) = rest)
  /\ (strip answer = "5" ->
      fst r = Ret tt
      /\ disk (snd r) = disk st
      /\ config (snd r) = config st /\ stdin (snd r) = rest).
Proof.
  destruct st as [c fs typed out]. intros Hin. cbn [stdin] in Hin. subst typed.
  cbv zeta.
  change (display_menu script_path run_script (S fuel))
    with (bind (main_menu_round script_path run_script fuel)
            (fun again =>
               if again then display_menu script_path run_script fuel
               else ret tt)).
  unfold main_menu_round. run_editor.
  split; intros ->.
  - change (String.eqb "4" "1") with false. change (String.eqb "4" "2") with false.
    change (String.eqb "4" "3") with false. change (String.eqb "4" "4") with true.
    run_editor. done.
  - change (String.eqb "5" "1") with false. change (String.eqb "5" "2") with false.
    change (String.eqb "5" "3") with false. change (String.eqb "5" "4") with false.
    change (String.eqb "5" "5") with true.
    run_editor. done.
Qed.

(** X14. [Save and exit] of the text menu writes the config in memory to
    [.config] and leaves the text menu only: the main menu runs on from
    the state after the save, with the rest of the input. *)
Theorem text_menu_save_returns_to_main_menu (fuel : nat) (st : state)
    (first second : string) (rest : list string) :
  stdin st = first :: second :: rest ->
  strip first = "2" ->
  strip second = "5" ->
  exists st',
    display_menu script_path run_script (S (S fuel)) st
    = display_menu script_path run_script (S fuel) st'
    /\ config st' = config st
    /\ disk st' = <[".config" := save_text (config st)]> (disk st)
    /\ stdin st' = rest.
Proof.
  destruct st as [c fs typed out]. intros Hin Hfirst Hsecond.
  cbn [stdin config disk] in *. subst typed.
  assert (Hround : exists out',
             main_menu_round script_path run_script (S fuel)
               (State c fs (first :: second :: rest) out)
             = (Ret true,
                State c (<[".config" := save_text c]> fs) rest out')).
  { unfold main_menu_round. run_editor. rewrite Hfirst.
    change (String.eqb "2" "1") with false.
    change (String.eqb "2" "2") with true.
    change (display_text_menu (S fuel))
      with (bind text_menu_round
              (fun again => if again then display_text_menu fuel else ret tt)).
    unfold text_menu_round. run_editor. rewrite Hsecond.
    change (String.eqb "5" "1") with false.
    change (String.eqb "5" "2") with false.
    change (String.eqb "5" "3") with false.
    change (String.eqb "5" "4") with false.
    change (String.eqb "5" "5") with true.
    run_editor. by eexists. }
  destruct Hround as [out' Hround].
  exists (State c (<[".config" := save_text c]> fs) rest out').
  split; [|split; [reflexivity|split; reflexivity]].
  change (display_menu script_path run_script (S (S fuel)))
    with (bind (main_menu_round script_path run_script (S fuel))
            (fun again =>
               if again then display_menu script_path run_script (S fuel)
               else ret tt)).
  unfold bind. rewrite Hround. reflexivity.
Qed.

End Leaving.

Lemma main_menu_exit_choices_witness :
  let r := display_menu Session.script Session.fails 1 (Session.start ["4"]) in
  fst r = Ret tt
  /\ disk (snd r)
     = <[".config" := save_text (config (Session.start ["4"]))]>
         (disk (Session.start ["4"]))
  /\ config (snd r) = config (Session.start ["4"]) /\ stdin (snd r) = [].
Proof.
  refine (proj1 (main_menu_exit_choices Session.script Session.fails 0
                   (Session.start ["4"]) "4" [] _) _);
    reflexivity.
Defined.

Lemma text_menu_save_returns_to_main_menu_witness :
  exists st',
    display_menu Session.script Session.fails 2 (Session.start ["2"; "5"])
    = display_menu Session.script Session.fails 1 st'
    /\ config st' = config (Session.start ["2"; "5"])
    /\ disk st'
       = <[".config" := save_text (config (Session.start ["2"; "5"]))]>
           (disk (Session.start ["2"; "5"]))
    /\ stdin st' = [].
Proof.
  refine (text_menu_save_returns_to_main_menu
            Session.script Session.fails 0
            (Session.start ["2"; "5"]) "2" "5" [] _ _ _); reflexivity.
Defined.

(** * Further properties of the header generator *)

(** ** Quoted values *)

Lemma rstrip_last_false (p : ascii -> bool) (s : string) (c : ascii) :
  last_char (rstrip_with p s) = Some c -> p c = false.
Proof.
  induction s as [|a s IH]; [done|]. simpl.
  destruct (rstrip_with p s) as [|b r] eqn:Hr.
  - destruct (p a) eqn:Ha; [done|]. by intros [= <-].
  - intros Hl. by apply IH.
Qed.

Lemma strip_quotes_quoted (s : string) :
  strip_quotes (String DQ (s +:+ String DQ "")) = strip_quotes s.
Proof.
  unfold strip_quotes.
  change (strip_with (Ascii.eqb DQ) (String DQ (s +:+ String DQ "")))
    with (strip_with (Ascii.eqb DQ) (s +:+ String DQ "")).
  by apply strip_with_app_all.
Qed.

Lemma quoted_is_quoted (s : string) :
  startswith (String DQ "") (String DQ (s +:+ String DQ ""))
  && endswith (String DQ "") (String DQ (s +:+ String DQ "")) = true.
Proof.
  change (String DQ (s +:+ String DQ "")) with (String DQ s +:+ String DQ "") at 2.
  by rewrite endswith_app.
Qed.

(** X15. A value between double quotes goes to the header as a string
    between exactly one pair of quotes: every quote at either end of the
    value is dropped, so that the text between the quotes of the header
    neither starts nor ends with a quote. The editor's loader drops one
    quote at each end only. *)
Theorem quoted_value_loses_outer_quotes (name value : string) :
  startswith (String DQ "") value && endswith (String DQ "") value = true ->
  let inner := strip_quotes value in
  define_of name value = (name, String DQ (inner +:+ String DQ ""), "string")
  /\ head_char inner <> Some DQ
  /\ last_char inner <> Some DQ
  /\ typed_value value = PyStr (slice value 1 (-1)).
Proof.
  intros Hq inner. split; [unfold define_of; by rewrite Hq|].
  split; [|split].
  - destruct inner as [|c r] eqn:E; [done|]. intros [= ->].
    by apply strip_head_false in E.
  - intros Hl. unfold inner, strip_quotes, strip_with in Hl.
    by apply rstrip_last_false in Hl.
  - unfold typed_value. by rewrite Hq.
Qed.

Lemma quoted_value_loses_outer_quotes_witness :
  define_of "CONFIG_NAME"
    (String DQ (String DQ ("a" +:+ String DQ (String DQ ""))))
  = ("CONFIG_NAME", String DQ ("a" +:+ String DQ ""), "string")
  /\ typed_value (String DQ (String DQ ("a" +:+ String DQ (String DQ ""))))
     = PyStr (String DQ ("a" +:+ String DQ "")).
Proof.
  pose proof (quoted_value_loses_outer_quotes "CONFIG_NAME"
                (String DQ (String DQ ("a" +:+ String DQ (String DQ ""))))
                eq_refl) as (H1 & _ & _ & H2).
  split; [exact H1|exact H2].
Defined.

(** ** Options that are not set *)

Lemma find_from_skip (sub a b : string) (i : Z) :
  all_chars (fun c => negb (Ascii.eqb c " ")) a = true ->
  find_from i (String " " sub) (a +:+ b)
  = find_from (i + len a) (String " " sub) b.
Proof.
  revert i. induction a as [|c a IH]; intros i Ha.
  - rewrite app_empty_l. unfold len. simpl. by rewrite Z.add_0_r.
  - simpl in Ha. apply andb_true_iff in Ha as [Hc Ha].
    apply negb_true_iff in Hc. rewrite app_cons.
    change (find_from i (String " " sub) (String c (a +:+ b)))
      with (if Ascii.eqb " " c && startswith sub (a +:+ b) then i
            else find_from (i + 1) (String " " sub) (a +:+ b)).
    rewrite Ascii.eqb_sym, Hc. cbv iota beta. simpl andb. cbv iota.
    rewrite IH by done. f_equal. unfold len. simpl String.length. lia.
Qed.

Lemma slice_from_2 (a b : ascii) (s t : string) :
  slice (String a (String b (s +:+ t))) 2 (2 + len s) = s.
Proof.
  unfold slice, len.
  change (String.length (String a (String b (s +:+ t))))
    with (S (S (String.length (s +:+ t)))).
  rewrite string_length_app.
  set (n := String.length s). set (m := String.length t).
  assert (Ha : clip (Z.of_nat (S (S (n + m)))) 2 = 2).
  { unfold clip. change (2 <? 0) with false. cbv iota. lia. }
  assert (Hb : clip (Z.of_nat (S (S (n + m)))) (2 + Z.of_nat n)
               = 2 + Z.of_nat n).
  { unfold clip. replace (2 + Z.of_nat n <? 0) with false
      by (symmetry; apply Z.ltb_ge; lia). cbv iota. lia. }
  rewrite Ha, Hb.
  replace (Z.to_nat (2 + Z.of_nat n - 2)) with n by lia.
  change (Z.to_nat 2) with 2%nat. simpl. apply substring_0_app.
Qed.

Lemma slice_2_last (a b d : ascii) (s : string) :
  slice (String a (String b (s +:+ String d ""))) 2 (-1) = s.
Proof.
  unfold slice, len.
  change (String.length (String a (String b (s +:+ String d ""))))
    with (S (S (String.length (s +:+ String d "")))).
  rewrite string_length_app. simpl String.length.
  set (n := String.length s).
  assert (Ha : clip (Z.of_nat (S (S (n + 1)))) 2 = 2).
  { unfold clip. change (2 <? 0) with false. cbv iota. lia. }
  assert (Hb : clip (Z.of_nat (S (S (n + 1)))) (-1) = Z.of_nat n + 2).
  { unfold clip. change (-1 <? 0) with true. cbv iota. lia. }
  rewrite Ha, Hb.
  replace (Z.to_nat (Z.of_nat n + 2 - 2)) with n by lia.
  change (Z.to_nat 2) with 2%nat. simpl. apply substring_0_app.
Qed.

Lemma no_space_no_blank (s : string) :
  all_chars (fun c => negb (isspace c)) s = true ->
  all_chars (fun c => negb (Ascii.eqb c " ")) s = true.
Proof.
  apply all_chars_impl. intros c Hc.
  destruct (Ascii.eqb_spec c " ") as [->|]; [done|done].
Qed.

(** The comment line of an option that is not set, as the generator
    looks at it. *)
Lemma comment_line_stripped (body tail : string) (d : ascii) :
  last_char tail = Some d -> isspace d = false ->
  strip (String "#" (body +:+ tail) +:+ nl) = String "#" (body +:+ tail).
Proof.
  intros Hl Hd. rewrite strip_newline.
  apply (strip_unchanged _ _ "#"%char d); [done|done| |done].
  change (String "#" (body +:+ tail)) with (String "#" body +:+ tail).
  rewrite last_char_app; [done|]. by destruct tail.
Qed.

(** X16. The generator reads the line [# CONFIG_<rest> is not set], with
    no white space in [<rest>], as the option [CONFIG_<rest>] with the
    value [0] and the tag [disabled]. *)
Theorem generator_reads_option_not_set (defines : list define)
    (rest : string) :
  all_chars (fun c => negb (isspace c)) rest = true ->
  parse_line defines ("# CONFIG_" +:+ rest +:+ " is not set" +:+ nl)
  = defines ++ [("CONFIG_" +:+ rest, "0", "disabled")].
Proof.
  intros Hrest.
  pose proof (no_space_no_blank _ Hrest) as Hblank.
  set (name := "CONFIG_" +:+ rest).
  change ("# CONFIG_" +:+ rest +:+ " is not set" +:+ nl)
    with (String "#" (String " " (name +:+ " is not set" +:+ nl))).
  assert (Hline : strip (String "#" (String " " (name +:+ " is not set" +:+ nl)))
                  = String "#" (String " " (name +:+ " is not set"))).
  { pose proof (comment_line_stripped (String " " name) " is not set" "t"
                  eq_refl eq_refl) as H.
    rewrite !app_cons in H. rewrite app_assoc' in H. exact H. }
  unfold parse_line. rewrite Hline.
  change (is_empty (String "#" (String " " (name +:+ " is not set")))
          || startswith "#" (String "#" (String " " (name +:+ " is not set"))))
    with true.
  change (startswith "# CONFIG_"
            (String "#" (String " " (name +:+ " is not set"))))
    with true.
  assert (Hin : contains "is not set"
                  (String "#" (String " " (name +:+ " is not set"))) = true).
  { change (String "#" (String " " (name +:+ " is not set")))
      with (String "#" (String " " name) +:+ " is not set").
    by apply contains_app. }
  rewrite Hin.
  assert (Hfind : find " is not set"
                    (String "#" (String " " (name +:+ " is not set")))
                  = 2 + len name).
  { unfold find.
    change (find_from 0 " is not set"
              (String "#" (String " " (name +:+ " is not set"))))
      with (find_from 2 " is not set" (name +:+ " is not set")).
    rewrite find_from_skip; [done|].
    unfold name. by rewrite all_chars_app, Hblank. }
  rewrite Hfind. cbv iota. simpl andb. cbv iota.
  by rewrite slice_from_2.
Qed.

Lemma generator_reads_option_not_set_witness :
  parse_line [] ("# CONFIG_USB is not set" +:+ nl)
  = [("CONFIG_USB", "0", "disabled")].
Proof.
  by apply (generator_reads_option_not_set [] "USB").
Defined.

(** X17. When the words [is not set] follow the name without a space, the
    generator does not find where the name ends: the search gives [-1],
    and the name recorded is the line without its first two characters
    and without its last one. *)
Theorem generator_name_without_space (defines : list define)
    (rest : string) :
  all_chars (fun c => negb (isspace c)) rest = true ->
  parse_line defines ("# CONFIG_" +:+ rest +:+ "is not set" +:+ nl)
  = defines ++ [("CONFIG_" +:+ rest +:+ "is not se", "0", "disabled")].
Proof.
  intros Hrest.
  pose proof (no_space_no_blank _ Hrest) as Hblank.
  set (name := "CONFIG_" +:+ rest).
  change ("# CONFIG_" +:+ rest +:+ "is not set" +:+ nl)
    with (String "#" (String " " (name +:+ "is not set" +:+ nl))).
  assert (Hline : strip (String "#" (String " " (name +:+ "is not set" +:+ nl)))
                  = String "#" (String " " (name +:+ "is not set"))).
  { pose proof (comment_line_stripped (String " " name) "is not set" "t"
                  eq_refl eq_refl) as H.
    rewrite !app_cons in H. rewrite app_assoc' in H. exact H. }
  unfold parse_line. rewrite Hline.
  change (is_empty (String "#" (String " " (name +:+ "is not set")))
          || startswith "#" (String "#" (String " " (name +:+ "is not set"))))
    with true.
  change (startswith "# CONFIG_"
            (String "#" (String " " (name +:+ "is not set"))))
    with true.
  assert (Hin : contains "is not set"
                  (String "#" (String " " (name +:+ "is not set"))) = true).
  { change (String "#" (String " " (name +:+ "is not set")))
      with (String "#" (String " " name) +:+ "is not set").
    by apply contains_app. }
  rewrite Hin.
  assert (Hfind : find " is not set"
                    (String "#" (String " " (name +:+ "is not set")))
                  = -1).
  { unfold find.
    change (find_from 0 " is not set"
              (String "#" (String " " (name +:+ "is not set"))))
      with (find_from 2 " is not set" (name +:+ "is not set")).
    rewrite find_from_skip; [done|].
    unfold name. by rewrite all_chars_app, Hblank. }
  rewrite Hfind. cbv iota. simpl andb. cbv iota.
  replace (name +:+ "is not set")
    with ((name +:+ "is not se") +:+ String "t" "")
    by (by rewrite app_assoc').
  rewrite slice_2_last. unfold name. by rewrite app_assoc'.
Qed.

Lemma generator_name_without_space_witness :
  parse_line [] ("# CONFIG_USBis not set" +:+ nl)
  = [("CONFIG_USBis not se", "0", "disabled")].
Proof.
  by apply (generator_name_without_space [] "USB").
Defined.

(** ** From the saved config to the header *)

Lemma sign_or_digit_lower (c : ascii) :
  is_sign_or_digit c = true ->
  lower_char c <> "y"%char /\ lower_char c <> "n"%char
  /\ lower_char c <> "t"%char /\ lower_char c <> "f"%char.
Proof.
  destruct c as [[] [] [] [] [] [] [] []]; intros H;
    try discriminate H; by vm_compute.
Qed.

Lemma py_in_head (s : string) (tokens : list string) (c : ascii) :
  head_char s = Some c ->
  Forall (fun t => head_char t <> Some c) tokens ->
  py_in s tokens = false.
Proof.
  intros Hs Htok. apply not_true_iff_false. intros Hex.
  apply existsb_exists in Hex as (t & Hin & Heq).
  apply String.eqb_eq in Heq. subst t.
  rewrite Forall_forall in Htok. apply list_elem_of_In in Hin.
  by apply (Htok _ Hin).
Qed.

Lemma str_int_no_token (n : Z) :
  startswith (String DQ "") (str_int n) = false
  /\ py_in (lower (str_int n)) true_tokens = false
  /\ py_in (lower (str_int n)) false_tokens = false.
Proof.
  pose proof (str_int_chars n) as Hchars.
  destruct (str_int n) as [|c r] eqn:E; [by apply str_int_nonempty in E|].
  simpl in Hchars. apply andb_true_iff in Hchars as [Hc _].
  destruct (sign_or_digit_char c Hc) as (_ & _ & _ & Hq & _).
  destruct (sign_or_digit_lower c Hc) as (Hy & Hn & Ht & Hf).
  split; [|split].
  - change (Ascii.eqb DQ c && true = false). by rewrite Hq.
  - apply (py_in_head _ _ (lower_char c)); [done|].
    repeat constructor; simpl; congruence.
  - apply (py_in_head _ _ (lower_char c)); [done|].
    repeat constructor; simpl; congruence.
Qed.

Lemma define_of_saved (k : string) (v : pyval) :
  is_false v = false ->
  define_of (strip k) (saved_value v) = header_entry (k, v).
Proof.
  destruct v as [[]|n|s]; [done|done|..]; intros _.
  - unfold saved_value, header_entry, define_of.
    destruct (str_int_no_token n) as (-> & -> & ->). done.
  - unfold saved_value, header_entry, define_of.
    by rewrite quoted_is_quoted, strip_quotes_quoted.
Qed.

Lemma saved_value_head (v : pyval) :
  exists c, head_char (saved_value v) = Some c /\ isspace c = false.
Proof.
  destruct v as [b|n|s]; unfold saved_value.
  - by exists "y"%char.
  - pose proof (str_int_chars n) as Hchars.
    destruct (str_int n) as [|c r] eqn:E; [by apply str_int_nonempty in E|].
    simpl in Hchars. apply andb_true_iff in Hchars as [Hc _].
    exists c. split; [done|]. by destruct (sign_or_digit_char c Hc).
  - by exists DQ.
Qed.

(** The generator on the line saved for an option: an entry, unless the
    option is switched off. *)
Lemma parse_line_saved (defines : list define) (k : string) (v : pyval) :
  entry_ok (k, v) = true ->
  parse_line defines (save_line k v +:+ nl)
  = if is_false v then defines else defines ++ [header_entry (k, v)].
Proof.
  intros Hok. unfold entry_ok, key_ok in Hok. simpl in Hok.
  apply andb_true_iff in Hok as [[[Hnb Heq]%andb_true_iff Hhead]%andb_true_iff Hv].
  destruct (is_false v) eqn:Hf.
  { destruct v as [[]| |]; try done.
    change (save_line k (PyBool false)) with (String "#" (k +:+ " is not set")).
    unfold parse_line.
    rewrite (comment_line_stripped k " is not set" "t") by done.
    change (is_empty (String "#" (k +:+ " is not set"))
            || startswith "#" (String "#" (k +:+ " is not set")))
      with true.
    cbv iota.
    replace (startswith "# CONFIG_" (String "#" (k +:+ " is not set")))
      with false; [done|].
    destruct k as [|c k']; [done|].
    apply andb_true_iff in Hhead as [Hsp _]. apply negb_true_iff in Hsp.
    rewrite app_cons.
    change (false = Ascii.eqb "#" "#"
                    && (Ascii.eqb " " c
                        && startswith "CONFIG_" (k' +:+ " is not set"))).
    destruct (Ascii.eqb_spec " " c) as [<-|]; [done|done]. }
  rewrite save_line_enabled by done.
  destruct (saved_value_last v) as (d & Hd & Hdsp).
  destruct (saved_value_head v) as (h & Hh & Hhsp).
  set (line := k +:+ String "=" (saved_value v)).
  assert (Hlast : last_char line = Some d).
  { unfold line. rewrite last_char_app by done. simpl.
    destruct (saved_value v); [done|exact Hd]. }
  assert (Hline : strip (line +:+ nl) = line
                  /\ is_empty line = false /\ startswith "#" line = false).
  { rewrite strip_newline. unfold line. destruct k as [|c k'].
    - split; [|done]. by apply (strip_unchanged _ _ "="%char d).
    - apply andb_true_iff in Hhead as [Hsp Hhash].
      apply negb_true_iff in Hsp, Hhash.
      split; [by apply (strip_unchanged _ _ c d)|]. split; [done|].
      rewrite app_cons.
      change (Ascii.eqb "#" c && true = false).
      by rewrite Ascii.eqb_sym, Hhash. }
  destruct Hline as (Hstrip & Hne & Hhash).
  unfold parse_line. rewrite Hstrip, Hne, Hhash. simpl.
  unfold line. rewrite contains_app by done.
  rewrite split_once_app by done.
  assert (Hsv : strip (saved_value v) = saved_value v)
    by (by apply (strip_unchanged _ _ h d)).
  rewrite Hsv. by rewrite define_of_saved.
Qed.

Lemma parse_lines_saved (l : dict) (defines : list define) :
  Forall (fun kv => entry_ok kv = true) l ->
  fold_left parse_line
    (map (fun kv => save_line (fst kv) (snd kv) +:+ nl) l) defines
  = defines ++ map header_entry (enabled l).
Proof.
  intros Hl. revert defines.
  induction Hl as [|[k v] l Hkv _ IH]; intros defines.
  - simpl. by rewrite app_nil_r.
  - simpl. rewrite parse_line_saved by done. rewrite IH, enabled_cons.
    destruct (is_false v); [done|]. by rewrite <- app_assoc.
Qed.

Lemma parse_text_save_text (m : dict) :
  well_formed m ->
  parse_text (save_text m) = map header_entry (enabled (sorted_items m)).
Proof.
  intros Hwf. destruct (sorted_items_well_formed m Hwf) as [Hn Hf].
  unfold parse_text, save_text. rewrite save_chunks_lines.
  rewrite file_lines_chunks.
  - rewrite <- save_chunks_lines. unfold save_chunks.
    change (fold_left parse_line
              (map (fun kv => save_line (fst kv) (snd kv) +:+ nl) (sorted_items m))
              (parse_line (parse_line [] ("# LittleKernel Configuration" +:+ nl)) nl)
            = map header_entry (enabled (sorted_items m))).
    replace (parse_line (parse_line [] ("# LittleKernel Configuration" +:+ nl)) nl)
      with (@nil define) by (by vm_compute).
    by rewrite parse_lines_saved.
  - constructor; [done|]. constructor; [done|].
    apply Forall_map. eapply Forall_impl; [exact Hf|].
    intros [k v] Hkv. by apply save_line_no_break.
Qed.

(** X18. The header generated from a config that the editor saved has one
    entry for each option that is not switched off, in the order of the
    option names: [1] for a boolean, the decimal text for an integer, and
    a string between quotes, without the quotes at its ends, for a string.
    An option that is switched off gets no entry: the editor writes its
    comment without the space that the generator looks for. *)
Theorem header_of_saved_config (m : dict) (fs : files)
    (config_file header_file : string) :
  well_formed m ->
  let entries := map header_entry (enabled (sorted_items m)) in
  generate_config_header config_file header_file
    (save_config m config_file fs)
  = (true,
     <[header_file := header_text entries]> (save_config m config_file fs),
     ["Generated " +:+ header_file +:+ " with "
      +:+ str_int (Z.of_nat (length entries))
      +:+ " configuration defines"]).
Proof.
  intros Hwf entries. unfold generate_config_header, save_config.
  rewrite lookup_insert_eq. cbv zeta.
  by rewrite parse_text_save_text.
Qed.

Lemma header_of_saved_config_witness :
  generate_config_header ".config" "kernel_config_defines.h"
    (save_config
       [("CONFIG_TIMER_HZ", PyInt 100); ("CONFIG_PCI", PyBool true);
        ("CONFIG_USB", PyBool false)] ".config" ∅)
  = (true,
     <["kernel_config_defines.h" :=
         header_text [("CONFIG_PCI", "1", "boolean");
                      ("CONFIG_TIMER_HZ", "100", "numeric")]]>
       (save_config
          [("CONFIG_TIMER_HZ", PyInt 100); ("CONFIG_PCI", PyBool true);
           ("CONFIG_USB", PyBool false)] ".config" ∅),
     ["Generated kernel_config_defines.h with 2 configuration defines"]).
Proof.
  refine (header_of_saved_config
            [("CONFIG_TIMER_HZ", PyInt 100); ("CONFIG_PCI", PyBool true);
             ("CONFIG_USB", PyBool false)] ∅ ".config"
            "kernel_config_defines.h" _).
  split.
  - cbv [dict_keys map fst]. apply (bool_decide_unpack _). by vm_compute.
  - repeat constructor.
Defined.

Lemma enabled_all_off (l : dict) :
  Forall (fun kv => is_false (snd kv) = true) l -> enabled l = [].
Proof.
  induction 1 as [|[k v] l Hkv _ IH]; [done|].
  rewrite enabled_cons. simpl in Hkv. by rewrite Hkv.
Qed.

(** X19. A config whose options are all switched off is, once saved, a
    file without options for the loader: the editor then starts from the
    built-in options again. *)
Theorem all_off_config_restarts_from_defaults (m : dict) (fs : files) :
  well_formed m ->
  Forall (fun kv => is_false (snd kv) = true) m ->
  load_config (save_config m ".config" fs) ".config" = []
  /\ starting_config (save_config m ".config" fs) = default_config.
Proof.
  intros Hwf Hoff.
  assert (Hload : load_config (save_config m ".config" fs) ".config" = []).
  { unfold load_config, save_config. rewrite lookup_insert_eq.
    rewrite load_text_save_text by done.
    apply enabled_all_off.
    unfold sorted_items. by rewrite merge_sort_Permutation. }
  split; [done|]. unfold starting_config. by rewrite Hload.
Qed.

Lemma all_off_config_restarts_from_defaults_witness :
  starting_config (save_config [("CONFIG_PCI", PyBool false)] ".config" ∅)
  = default_config.
Proof.
  refine (proj2 (all_off_config_restarts_from_defaults
                   [("CONFIG_PCI", PyBool false)] ∅ _ _)).
  - split.
    + cbv [dict_keys map fst]. apply (bool_decide_unpack _). by vm_compute.
    + repeat constructor.
  - repeat constructor.
Defined.

(** ** The lines of the header file *)

Lemma header_text_chunks (lines : list string) :
  fold_right (fun l acc => l +:+ nl +:+ acc) "" lines
  = fold_right String.append "" (map (fun b => b +:+ nl) lines).
Proof.
  induction lines as [|l lines IH]; [done|].
  simpl. by rewrite IH, app_assoc'.
Qed.

Lemma no_break_strip_with (p : ascii -> bool) (s : string) :
  no_break s = true -> no_break (strip_with p s) = true.
Proof.
  rewrite !no_break_all_chars. intros H.
  by apply all_chars_rstrip, all_chars_lstrip.
Qed.

Lemma define_of_ok (name value : string) :
  no_break name = true -> no_break value = true ->
  define_ok (define_of name value) = true.
Proof.
  intros Hn Hv. unfold define_of.
  destruct (_ && _).
  - unfold define_ok, def_name, def_value, def_type. simpl fst. simpl snd.
    rewrite Hn.
    change (String DQ (strip_quotes value +:+ String DQ ""))
      with (String DQ (strip_quotes value) +:+ String DQ "").
    rewrite no_break_app.
    change (no_break (String DQ (strip_quotes value)))
      with (no_break (strip_quotes value)).
    unfold strip_quotes. by rewrite no_break_strip_with.
  - destruct (py_in _ true_tokens);
      [unfold define_ok, def_name, def_value, def_type; simpl; by rewrite Hn|].
    destruct (py_in _ false_tokens);
      unfold define_ok, def_name, def_value, def_type; simpl;
      by rewrite Hn, ?Hv.
Qed.

Lemma parse_line_ok (defines : list define) (raw body : string) :
  no_break body = true -> raw = body \/ raw = body +:+ nl ->
  Forall (fun d => define_ok d = true) defines ->
  Forall (fun d => define_ok d = true) (parse_line defines raw).
Proof.
  intros Hb Hraw Hd.
  assert (Hline : no_break (strip raw) = true).
  { destruct Hraw as [->| ->]; [|rewrite strip_newline]; by apply no_break_strip. }
  unfold parse_line. destruct (strip raw) as [|c line] eqn:E; [done|].
  rewrite <- E in *. clear E c line.
  destruct (is_empty (strip raw) || startswith "#" (strip raw)).
  - destruct (_ && _); [|done].
    apply Forall_app. split; [done|]. constructor; [|done].
    unfold define_ok, def_name, def_value, def_type. simpl.
    by rewrite no_break_slice.
  - destruct (contains "=" (strip raw)); [|done].
    destruct (split_once "=" (strip raw)) as [[part0 part1]|] eqn:Hs; [|done].
    apply split_once_spec in Hs as [Hs _]. rewrite Hs in Hline.
    rewrite no_break_app in Hline.
    apply andb_true_iff in Hline as [H0 H1]. simpl in H1.
    apply Forall_app. split; [done|]. constructor; [|done].
    apply define_of_ok; by apply no_break_strip.
Qed.

Lemma parse_lines_ok (lines : list string) (defines : list define) :
  Forall (fun raw => exists body,
            no_break body = true /\ (raw = body \/ raw = body +:+ nl)) lines ->
  Forall (fun d => define_ok d = true) defines ->
  Forall (fun d => define_ok d = true) (fold_left parse_line lines defines).
Proof.
  intros Hl. revert defines.
  induction Hl as [|raw lines (body & Hb & Hraw) _ IH]; intros defines Hd.
  - done.
  - simpl. apply IH. by apply (parse_line_ok _ _ body).
Qed.

Lemma parse_text_ok (text : string) :
  Forall (fun d => define_ok d = true) (parse_text text).
Proof.
  apply parse_lines_ok; [|done].
  apply Forall_forall. intros raw Hin.
  apply (file_lines_shape text). by apply list_elem_of_In.
Qed.

Lemma define_block_no_break (d : define) :
  define_ok d = true ->
  Forall (fun b => no_break b = true) (define_block d).
Proof.
  unfold define_ok.
  intros [[Hn Hv]%andb_true_iff Ht]%andb_true_iff.
  unfold define_block, define_line.
  constructor; [by rewrite no_break_app, Hn|].
  constructor; [|by repeat constructor].
  by rewrite !no_break_app, Hn, Hv, Ht.
Qed.

Lemma header_lines_no_break (defines : list define) :
  Forall (fun d => define_ok d = true) defines ->
  Forall (fun b => no_break b = true) (header_lines defines).
Proof.
  intros Hd. unfold header_lines.
  apply Forall_app. split; [by repeat constructor|].
  apply Forall_app. split; [|by repeat constructor].
  induction Hd as [|d ds Hd _ IH]; [done|].
  change (flat_map define_block (d :: ds))
    with (define_block d ++ flat_map define_block ds).
  apply Forall_app. split; [by apply define_block_no_break|done].
Qed.

Lemma header_lines_length (defines : list define) :
  length (header_lines defines) = (4 * length defines + 5)%nat.
Proof.
  unfold header_lines. rewrite !length_app. simpl.
  assert (H : length (flat_map define_block defines)
              = (4 * length defines)%nat).
  { induction defines as [|d ds IH]; [done|].
    change (flat_map define_block (d :: ds))
      with (define_block d ++ flat_map define_block ds).
    rewrite length_app, IH. simpl. lia. }
  rewrite H. lia.
Qed.

(** X20. Whatever the config file holds, no name and no value breaks a
    line of the header: the header file reads back as the lines that were
    written, four lines for each entry between the four lines that open
    the header and the line that closes it. *)
Theorem header_reads_back_as_written (text : string) :
  let defines := parse_text text in
  file_lines (header_text defines)
  = map (fun l => l +:+ nl) (header_lines defines)
  /\ length (file_lines (header_text defines))
     = (4 * length defines + 5)%nat.
Proof.
  intros defines.
  assert (H : file_lines (header_text defines)
              = map (fun l => l +:+ nl) (header_lines defines)).
  { unfold header_text. rewrite header_text_chunks.
    apply file_lines_chunks, header_lines_no_break, parse_text_ok. }
  split; [done|]. by rewrite H, length_map, header_lines_length.
Qed.

(** * The editor keeps its config loadable *)

Section KeepsSound.

Context {A B : Type}.

Lemma keeps_sound_ret (a : A) : keeps_sound (ret a).
Proof. by intros s. Qed.

Lemma keeps_sound_raise (e : exn) : keeps_sound (@raise A e).
Proof. by intros s. Qed.

Lemma keeps_sound_bind (m : M A) (f : A -> M B) :
  keeps_sound m -> (forall a, keeps_sound (f a)) -> keeps_sound (bind m f).
Proof.
  intros Hm Hf s Hs. unfold bind. specialize (Hm s Hs).
  destruct (m s) as [[a|e|] s']; simpl in *; [|done..].
  by apply Hf.
Qed.

(** What is read from the config in memory is well formed. *)
Lemma keeps_sound_get_config_then (f : dict -> M B) :
  (forall c, well_formed c -> keeps_sound (f c)) ->
  keeps_sound (bind get_config f).
Proof. intros Hf s Hs. apply (Hf (config s)); [by destruct Hs|done]. Qed.

(** A line that is typed has no line break. *)
Lemma keeps_sound_input_then (prompt : string) (f : string -> M B) :
  (forall l, no_break l = true -> keeps_sound (f l)) ->
  keeps_sound (bind (input prompt) f).
Proof.
  intros Hf [c fs typed out] [Hc Ht]. unfold bind, input. simpl in *.
  destruct typed as [|l rest]; [done|].
  apply Forall_cons in Ht as [Hl Hrest]. by apply Hf.
Qed.

(** A key that is selected is one of the keys listed. *)
Lemma keeps_sound_key_at_then (options : dict) (choice : Z)
    (f : string -> M B) :
  (forall k, In k (dict_keys options) -> keeps_sound (f k)) ->
  keeps_sound (bind (key_at options choice) f).
Proof.
  intros Hf s Hs. unfold bind, key_at.
  destruct (nth_error _ _) as [k|] eqn:Hk; [|done].
  apply Hf; [|done]. by apply nth_error_In in Hk.
Qed.

End KeepsSound.

Lemma keeps_sound_emit (e : event) : keeps_sound (emit e).
Proof. by intros s. Qed.

Lemma keeps_sound_input (prompt : string) : keeps_sound (input prompt).
Proof.
  intros [c fs typed out] [Hc Ht]. unfold input. simpl in *.
  destruct typed as [|l rest]; [done|].
  apply Forall_cons in Ht as [_ Hrest]. by split.
Qed.

Lemma keeps_sound_get_config : keeps_sound get_config.
Proof. by intros s. Qed.

Lemma keeps_sound_get_disk : keeps_sound get_disk.
Proof. by intros s. Qed.

Lemma keeps_sound_put_disk (fs : files) : keeps_sound (put_disk fs).
Proof. by intros s. Qed.

Lemma keeps_sound_put_config (c : dict) :
  well_formed c -> keeps_sound (put_config c).
Proof. intros Hc s [_ Ht]. by split. Qed.

Lemma keeps_sound_print_all (lines : list string) :
  keeps_sound (print_all lines).
Proof. intros s Hs. by rewrite print_all_run. Qed.

Lemma keeps_sound_config_item (key : string) : keeps_sound (config_item key).
Proof.
  intros s Hs. unfold config_item, bind, get_config.
  by destruct (dict_get key (config s)).
Qed.

Lemma keeps_sound_config_assign (key : string) (v : pyval) :
  key_ok key = true -> value_ok v = true ->
  keeps_sound (config_assign key v).
Proof.
  intros Hk Hv s [Hc Ht]. split; [|done]. simpl.
  apply dict_set_well_formed; [done|].
  unfold entry_ok. simpl. by rewrite Hk, Hv.
Qed.

(** A key of a list of the text menu is a key of the config. *)
Lemma listed_key_ok (P : string * pyval -> Prop)
    `{!forall kv, Decision (P kv)} (c : dict) (k : string) :
  well_formed c -> In k (dict_keys (filter P c)) -> key_ok k = true.
Proof.
  intros [_ Hc] Hk. unfold dict_keys in Hk.
  apply in_map_iff in Hk as ([k' v'] & <- & Hkv).
  apply list_elem_of_In, list_elem_of_filter in Hkv as [_ Hkv].
  rewrite Forall_forall in Hc. specialize (Hc _ Hkv).
  unfold entry_ok in Hc. by apply andb_true_iff in Hc as [Hc _].
Qed.

Lemma dict_update_well_formed (d other : dict) :
  well_formed d -> well_formed other -> well_formed (dict_update d other).
Proof.
  unfold dict_update. intros Hd [_ Ho]. revert d Hd.
  induction Ho as [|[k v] other Hkv _ IH]; intros d Hd; [done|].
  simpl. apply IH. by apply dict_set_well_formed.
Qed.

Lemma load_config_loadable (fs : files) (path : string) :
  well_formed (load_config fs path).
Proof.
  unfold load_config. destruct (fs !! path).
  - apply load_text_well_formed.
  - split; [apply NoDup_nil_2|done].
Qed.

Create HintDb keeps_sound.

#[local] Hint Resolve keeps_sound_ret keeps_sound_raise keeps_sound_emit
  keeps_sound_input keeps_sound_get_config keeps_sound_get_disk
  keeps_sound_put_disk keeps_sound_print_all keeps_sound_config_item
  : keeps_sound.

Ltac keeps_sound_step :=
  match goal with
  | |- keeps_sound (bind get_config _) =>
      apply keeps_sound_get_config_then; intros ? ?
  | |- keeps_sound (bind (input _) _) =>
      apply keeps_sound_input_then; intros ? ?
  | |- keeps_sound (bind (key_at _ _) _) =>
      apply keeps_sound_key_at_then; intros ? ?
  | |- keeps_sound (bind _ _) => apply keeps_sound_bind; [|intros]
  | |- keeps_sound (match ?x with _ => _ end) => destruct x eqn:?
  | |- keeps_sound (let '(_, _) := ?x in _) => destruct x
  | |- keeps_sound _ => solve [auto with keeps_sound]
  end.

Ltac keeps_sound :=
  unfold press_enter, save_current, clear_screen, print;
  repeat keeps_sound_step.

Lemma keeps_sound_toggle_bool_options : keeps_sound toggle_bool_options.
Proof.
  unfold toggle_bool_options. keeps_sound.
  apply keeps_sound_config_assign; [|done].
  match goal with H : bool_options _ = _ |- _ => rewrite <- H in * end.
  by eapply listed_key_ok.
Qed.

Lemma keeps_sound_set_int_options : keeps_sound set_int_options.
Proof.
  unfold set_int_options. keeps_sound.
  apply keeps_sound_config_assign; [|done].
  match goal with H : int_options _ = _ |- _ => rewrite <- H in * end.
  by eapply listed_key_ok.
Qed.

Lemma keeps_sound_set_string_options : keeps_sound set_string_options.
Proof.
  unfold set_string_options. keeps_sound.
  apply keeps_sound_config_assign.
  - match goal with H : str_options _ = _ |- _ => rewrite <- H in * end.
    by eapply listed_key_ok.
  - simpl. by apply no_break_strip.
Qed.

Lemma keeps_sound_view_config : keeps_sound view_config.
Proof. unfold view_config. keeps_sound. Qed.

Lemma keeps_sound_use_dialog_interface (script_path : string)
    (run_script : files -> run_result * files) :
  keeps_sound (use_dialog_interface script_path run_script).
Proof. unfold use_dialog_interface. keeps_sound. Qed.

#[local] Hint Resolve keeps_sound_toggle_bool_options
  keeps_sound_set_int_options keeps_sound_set_string_options
  keeps_sound_view_config keeps_sound_use_dialog_interface : keeps_sound.

Lemma keeps_sound_text_menu_round : keeps_sound text_menu_round.
Proof. unfold text_menu_round. keeps_sound. Qed.

Lemma keeps_sound_display_text_menu (fuel : nat) :
  keeps_sound (display_text_menu fuel).
Proof.
  induction fuel as [|fuel IH]; [by intros s|].
  change (display_text_menu (S fuel))
    with (bind text_menu_round
            (fun again => if again then display_text_menu fuel else ret tt)).
  apply keeps_sound_bind; [apply keeps_sound_text_menu_round|].
  intros []; [done|apply keeps_sound_ret].
Qed.

Section Loadable.

Variable script_path : string.
Variable run_script : files -> run_result * files.

Lemma keeps_sound_main_menu_round (fuel : nat) :
  keeps_sound (main_menu_round script_path run_script fuel).
Proof.
  pose proof (keeps_sound_display_text_menu fuel).
  unfold main_menu_round. keeps_sound.
  apply keeps_sound_put_config, dict_update_well_formed; [done|].
  apply load_config_loadable.
Qed.

Lemma keeps_sound_display_menu (fuel : nat) :
  keeps_sound (display_menu script_path run_script fuel).
Proof.
  induction fuel as [|fuel IH]; [by intros s|].
  change (display_menu script_path run_script (S fuel))
    with (bind (main_menu_round script_path run_script fuel)
            (fun again =>
               if again then display_menu script_path run_script fuel
               else ret tt)).
  apply keeps_sound_bind; [apply keeps_sound_main_menu_round|].
  intros []; [done|apply keeps_sound_ret].
Qed.

Lemma starting_config_well_formed (fs : files) :
  well_formed (starting_config fs).
Proof.
  unfold starting_config.
  pose proof (load_config_loadable fs ".config") as Hl.
  destruct (load_config fs ".config"); [|done].
  split.
  - cbv [default_config dict_keys map fst].
    apply (bool_decide_unpack _). by vm_compute.
  - unfold default_config. repeat constructor.
Qed.

(** X21. Whatever file the editor starts from and whatever lines are
    typed, the config it ends with can be saved and loaded again: no key
    and no string in it breaks a line, no key holds an equals sign, and
    loading what [save_config] writes for it gives its options back, in
    the order of their names, but for those that are switched off. *)
Theorem editor_config_stays_loadable (fs : files) (typed : list string) :
  Forall (fun l => no_break l = true) typed ->
  let final := config (snd (main script_path run_script fs typed)) in
  well_formed final
  /\ forall fs' path,
       load_config (save_config final path fs') path
       = enabled (sorted_items final).
Proof.
  intros Htyped final.
  assert (Hfinal : well_formed final).
  { unfold final, main.
    apply (keeps_sound_display_menu (S (length typed))
             (State (starting_config fs) fs typed [])).
    split; [apply starting_config_well_formed|done]. }
  split; [done|]. intros fs' path.
  unfold load_config, save_config. rewrite lookup_insert_eq.
  by apply load_text_save_text.
Qed.

End Loadable.

Lemma editor_config_stays_loadable_witness :
  let final := config (snd (main Session.script Session.fails Session.on_disk
                              ["2"; "1"; "1"; ""; "6"; "5"])) in
  well_formed final
  /\ forall fs' path,
       load_config (save_config final path fs') path
       = enabled (sorted_items final).
Proof.
  apply (editor_config_stays_loadable Session.script Session.fails
           Session.on_disk ["2"; "1"; "1"; ""; "6"; "5"]).
  repeat constructor.
Defined.

(** ** The option that a number selects *)

Lemma dict_set_back (k : string) (v v' : pyval) (d : dict) :
  dict_get k d = Some v -> dict_set k v (dict_set k v' d) = d.
Proof.
  induction d as [|[k0 v0] d IH]; [done|]. simpl.
  destruct (String.eqb_spec k0 k) as [->|Hne].
  - intros [= ->]. simpl. by rewrite String.eqb_refl.
  - intros H. simpl. apply String.eqb_neq in Hne. rewrite Hne.
    by rewrite IH.
Qed.

(** Setting a listed option to a value that stays in the list changes
    the list at that option only. *)
Lemma filter_dict_set (P : string * pyval -> Prop)
    `{!forall kv, Decision (P kv)} (k : string) (v v' : pyval) (d : dict) :
  dict_get k d = Some v -> P (k, v) -> P (k, v') ->
  filter P (dict_set k v' d) = dict_set k v' (filter P d).
Proof.
  intros Hv Hp Hp'. induction d as [|[k0 v0] d IH]; [done|].
  simpl in Hv. simpl dict_set.
  destruct (String.eqb_spec k0 k) as [->|Hne].
  - injection Hv as ->. rewrite !filter_cons.
    rewrite !decide_True by done. simpl. by rewrite String.eqb_refl.
  - rewrite !filter_cons. destruct (decide (P (k0, v0))).
    + simpl. apply String.eqb_neq in Hne. rewrite Hne. by rewrite IH.
    + by apply IH.
Qed.

(** In a dictionary, the value shown in a list is the value of the
    option. *)
Lemma listed_value (P : string * pyval -> Prop)
    `{!forall kv, Decision (P kv)} (c : dict) (i : nat) (k : string)
    (v : pyval) :
  NoDup (dict_keys c) ->
  nth_error (filter P c) i = Some (k, v) ->
  dict_get k c = Some v /\ P (k, v)
  /\ nth_error (dict_keys (filter P c)) i = Some k.
Proof.
  intros Hn Hi.
  assert (Hin : (k, v) ∈ filter P c)
    by (apply list_elem_of_In; by apply nth_error_In in Hi).
  apply list_elem_of_filter in Hin as [Hp Hin].
  split; [|split; [done|]].
  - apply dict_get_In; [done|]. by apply list_elem_of_In.
  - unfold dict_keys. by rewrite nth_error_map, Hi.
Qed.

(** One run of the boolean list on a number of the list. *)
Lemma toggle_bool_selected (c : dict) (fs : files) (answer enter : string)
    (rest : list string) (out : list event) (choice : Z) (k : string)
    (v : pyval) :
  py_int (strip answer) = Some choice ->
  1 <= choice ->
  nth_error (dict_keys (bool_options c)) (Z.to_nat (choice - 1)) = Some k ->
  dict_get k c = Some v ->
  exists out',
    toggle_bool_options (State c fs (answer :: enter :: rest) out)
    = (Ret tt, State (dict_set k (PyBool (negb (truthy v))) c) fs rest out').
Proof.
  intros Hchoice Hpos Hk Hv.
  assert (Hlen : choice <= Z.of_nat (length (bool_options c))).
  { assert (Hlt : (Z.to_nat (choice - 1) < length (dict_keys (bool_options c)))%nat)
      by (apply nth_error_Some; by rewrite Hk).
    unfold dict_keys in Hlt. rewrite length_map in Hlt. lia. }
  unfold toggle_bool_options. run_editor.
  destruct (bool_options c) as [|o os] eqn:Hopts; [by destruct (Z.to_nat _)|].
  rewrite print_all_run. run_editor. rewrite Hchoice. run_editor.
  replace (choice =? 0) with false by (symmetry; apply Z.eqb_neq; lia).
  replace ((1 <=? choice) && (choice <=? Z.of_nat (length (o :: os))))
    with true by (symmetry; apply andb_true_iff; lia).
  run_editor. rewrite Hk. run_editor. rewrite Hv. run_editor.
  rewrite dict_get_set_eq. run_editor. by eexists.
Qed.

(** X22. Toggling the same number of the boolean list twice gives the
    config back as it was. *)
Theorem toggle_twice_restores (st : state) (answer enter : string)
    (rest : list string) :
  NoDup (dict_keys (config st)) ->
  stdin st = answer :: enter :: answer :: rest ->
  no_selection (bool_options (config st)) answer = false ->
  config (snd (toggle_bool_options (snd (toggle_bool_options st))))
  = config st.
Proof.
  destruct st as [c fs typed out]. cbn [config stdin].
  intros Hn -> Hsel. unfold no_selection in Hsel.
  destruct (py_int (strip answer)) as [choice|] eqn:Hchoice; [|done].
  apply orb_false_iff in Hsel as [Hpos Hlen].
  apply Z.leb_gt in Hpos. apply Z.ltb_ge in Hlen.
  destruct (nth_error (bool_options c) (Z.to_nat (choice - 1)))
    as [[k v]|] eqn:Hi; [|apply nth_error_None in Hi; lia].
  destruct (listed_value _ c _ k v Hn Hi) as (Hv & Hbool & Hk).
  destruct v as [b| |]; try done. clear Hbool.
  destruct (toggle_bool_selected c fs answer enter (answer :: rest) out
              choice k (PyBool b) Hchoice ltac:(lia) Hk Hv) as [out1 ->].
  cbn [snd truthy].
  set (c1 := dict_set k (PyBool (negb b)) c).
  assert (Hopts : bool_options c1 = dict_set k (PyBool (negb b)) (bool_options c)).
  { unfold c1, bool_options. by apply (filter_dict_set _ k (PyBool b)). }
  assert (Hk1 : nth_error (dict_keys (bool_options c1)) (Z.to_nat (choice - 1))
                = Some k).
  { rewrite Hopts, dict_keys_set; [done|]. by apply nth_error_In in Hk. }
  assert (Hv1 : dict_get k c1 = Some (PyBool (negb b)))
    by apply dict_get_set_eq.
  destruct rest as [|enter' rest].
  - (* the second run reads the number and then meets the end of the
       input: the option is toggled before [Press Enter] is asked *)
    clear Hi. unfold toggle_bool_options. run_editor.
    assert (Hlen1 : length (bool_options c1) = length (bool_options c)).
    { transitivity (length (dict_keys (bool_options c1)));
        [unfold dict_keys; by rewrite length_map|].
      rewrite Hopts, dict_keys_set by (by apply nth_error_In in Hk).
      unfold dict_keys. by rewrite length_map. }
    destruct (bool_options c1) as [|o os] eqn:Ho1;
      [simpl in Hlen1; lia|].
    rewrite print_all_run. run_editor. rewrite Hchoice. run_editor.
    replace (choice =? 0) with false by (symmetry; apply Z.eqb_neq; lia).
    replace ((1 <=? choice) && (choice <=? Z.of_nat (length (o :: os))))
      with true by (symmetry; apply andb_true_iff; lia).
    run_editor. rewrite Hk1. run_editor. rewrite Hv1. run_editor.
    rewrite dict_get_set_eq. run_editor. cbn [truthy].
    rewrite negb_involutive. by apply dict_set_back.
  - destruct (toggle_bool_selected c1 fs answer enter' rest out1
                choice k (PyBool (negb b)) Hchoice ltac:(lia) Hk1 Hv1)
      as [out2 ->].
    cbn [snd config truthy]. rewrite negb_involutive.
    by apply dict_set_back.
Qed.

Lemma toggle_twice_restores_witness :
  config (snd (toggle_bool_options
                 (snd (toggle_bool_options (Session.start ["1"; ""; "1"; ""])))))
  = config (Session.start ["1"; ""; "1"; ""]).
Proof.
  apply (toggle_twice_restores (Session.start ["1"; ""; "1"; ""]) "1" "" [""]).
  - cbv [Session.start config Session.options dict_keys map fst].
    apply (bool_decide_unpack _). by vm_compute.
  - reflexivity.
  - reflexivity.
Defined.

(** X23. In the integer list, the number typed selects the option at that
    place of the list, and the value typed for it is stored when it is an
    integer; a value that is no integer leaves the config as it was. *)
Theorem set_int_stores_integer_typed (st : state) (answer typed : string)
    (rest : list string) (choice : Z) (k : string) :
  stdin st = answer :: typed :: rest ->
  py_int (strip answer) = Some choice ->
  1 <= choice ->
  nth_error (dict_keys (int_options (config st))) (Z.to_nat (choice - 1))
  = Some k ->
  config (snd (set_int_options st))
  = match py_int (strip typed) with
    | Some n => dict_set k (PyInt n) (config st)
    | None => config st
    end.
Proof.
  destruct st as [c fs input out]. cbn [config stdin].
  intros -> Hchoice Hpos Hk.
  assert (Hlen : choice <= Z.of_nat (length (int_options c))).
  { assert (Hlt : (Z.to_nat (choice - 1) < length (dict_keys (int_options c)))%nat)
      by (apply nth_error_Some; by rewrite Hk).
    unfold dict_keys in Hlt. rewrite length_map in Hlt. lia. }
  assert (Hv : exists v, dict_get k c = Some v).
  { apply nth_error_In in Hk. unfold dict_keys in Hk.
    apply in_map_iff in Hk as ([k' v'] & <- & Hkv).
    apply list_elem_of_In, list_elem_of_filter in Hkv as [_ Hkv].
    destruct (dict_get k' c) as [v|] eqn:Hg; [by exists v|].
    exfalso. clear -Hkv Hg. induction c as [|[k0 v0] c IH];
      [by apply elem_of_nil in Hkv|].
    simpl in *. destruct (String.eqb_spec k0 k'); [done|].
    apply elem_of_cons in Hkv as [[= ? ?]|Hkv]; [done|]. by apply IH. }
  destruct Hv as [v Hv].
  unfold set_int_options. run_editor.
  destruct (int_options c) as [|o os] eqn:Hopts; [by destruct (Z.to_nat _)|].
  rewrite print_all_run. run_editor. rewrite Hchoice. run_editor.
  replace (choice =? 0) with false by (symmetry; apply Z.eqb_neq; lia).
  replace ((1 <=? choice) && (choice <=? Z.of_nat (length (o :: os))))
    with true by (symmetry; apply andb_true_iff; lia).
  run_editor. rewrite Hk. run_editor. rewrite Hv. run_editor.
  destruct (py_int (strip typed)) as [n|]; run_editor;
    [|by destruct rest].
  rewrite dict_get_set_eq. run_editor. by destruct rest.
Qed.

Lemma set_int_stores_integer_typed_witness :
  config (snd (set_int_options (Session.start ["2"; "250"; ""])))
  = [("CONFIG_PCI", PyBool true); ("CONFIG_TIMER_HZ", PyInt 250)]
  /\ config (snd (set_int_options (Session.start ["2"; "fast"; ""])))
     = config (Session.start ["2"; "fast"; ""]).
Proof.
  split.
  - refine (set_int_stores_integer_typed (Session.start ["2"; "250"; ""])
              "2" "250" [""] 2 "CONFIG_TIMER_HZ" _ _ _ _);
      [reflexivity|reflexivity|lia|reflexivity].
  - refine (set_int_stores_integer_typed (Session.start ["2"; "fast"; ""])
              "2" "fast" [""] 2 "CONFIG_TIMER_HZ" _ _ _ _);
      [reflexivity|reflexivity|lia|reflexivity].
Defined.

(** * The files that are written *)

(** ** Booleans in the saved file and on the screen *)

Lemma split_once_none (sep : ascii) (s : string) :
  all_chars (fun c => negb (Ascii.eqb c sep)) s = true ->
  split_once sep s = None.
Proof.
  induction s as [|c s IH]; [done|]. simpl.
  intros [Hc Hs]%andb_true_iff. apply negb_true_iff in Hc.
  by rewrite Hc, IH.
Qed.

Lemma key_ok_no_equals (k : string) :
  key_ok k = true -> all_chars (fun c => negb (Ascii.eqb c "=")) k = true.
Proof.
  unfold key_ok. by intros [[_ H]%andb_true_iff _]%andb_true_iff.
Qed.

(** The lines of the saved file: the two lines of the heading, then one
    line for each option, in the order of the names. *)
Lemma file_lines_save_text (c : dict) :
  well_formed c ->
  file_lines (save_text c)
  = map (fun b => b +:+ nl)
      ("# LittleKernel Configuration" :: ""
       :: map (fun kv => save_line (fst kv) (snd kv)) (sorted_items c)).
Proof.
  intros Hwf. destruct (sorted_items_well_formed c Hwf) as [Hn Hf].
  unfold save_text. rewrite save_chunks_lines. apply file_lines_chunks.
  constructor; [done|]. constructor; [done|].
  apply Forall_map. eapply Forall_impl; [exact Hf|].
  intros [k v] Hkv. by apply save_line_no_break.
Qed.

(** A saved line [k=value] with such a value is the line of an integer
    option [k]. *)
Lemma saved_line_of_integer (k' : string) (v' : pyval) (k value : string) :
  key_ok k' = true -> key_ok k = true ->
  In value bare_values ->
  save_line k' v' = k +:+ String "=" value ->
  k' = k /\ exists n, v' = PyInt n.
Proof.
  intros Hk' Hk Hvalue Heq.
  apply (f_equal (split_once "=")) in Heq.
  rewrite (split_once_app "=" k value) in Heq by (by apply key_ok_no_equals).
  destruct (is_false v') eqn:Hf.
  - destruct v' as [[]| |]; try done.
    change (save_line k' (PyBool false))
      with (String "#" (k' +:+ " is not set")) in Heq.
    rewrite split_once_none in Heq; [done|].
    change (all_chars (fun c => negb (Ascii.eqb c "="))
              (k' +:+ " is not set") = true).
    rewrite all_chars_app. by rewrite key_ok_no_equals.
  - rewrite save_line_enabled in Heq by done.
    rewrite split_once_app in Heq by (by apply key_ok_no_equals).
    injection Heq as -> Hv. split; [done|].
    destruct v' as [[]|n|s]; [| |by exists n|]; exfalso; simpl in Hv;
      subst value; unfold bare_values in Hvalue; simpl in Hvalue;
      by intuition discriminate.
Qed.

Lemma heading_is_no_assignment (heading k value : string) :
  In heading ["# LittleKernel Configuration"; ""; "Current Configuration";
              "====================="] ->
  key_ok k = true ->
  In value bare_values ->
  heading <> k +:+ String "=" value.
Proof.
  intros Hh Hk Hvalue Heq.
  apply (f_equal (split_once "=")) in Heq.
  rewrite (split_once_app "=" k value) in Heq by (by apply key_ok_no_equals).
  unfold bare_values in Hvalue. simpl in Hh, Hvalue.
  destruct Hh as [<-|[<-|[<-|[<-|[]]]]]; vm_compute in Heq;
    try discriminate Heq.
  injection Heq as <- <-. by intuition discriminate.
Qed.

(** No line written for a config is the line [k=value] of a boolean
    option [k], for a value that stands for an integer or a truth
    value. *)
Lemma boolean_has_no_integer_line (c : dict) (k value : string) (b : bool) :
  well_formed c ->
  In (k, PyBool b) c ->
  In value bare_values ->
  ~ In (k +:+ String "=" value)
      (map (fun kv => save_line (fst kv) (snd kv)) (sorted_items c)).
Proof.
  intros [Hn Hok] Hin Hvalue Hline.
  apply in_map_iff in Hline as ([k' v'] & Hsave & Hin').
  simpl in Hsave.
  assert (Hin'c : In (k', v') c).
  { apply list_elem_of_In. apply list_elem_of_In in Hin'.
    unfold sorted_items in Hin'. by rewrite merge_sort_Permutation in Hin'. }
  rewrite Forall_forall in Hok.
  assert (Hk : key_ok k = true).
  { specialize (Hok _ (proj2 (list_elem_of_In _ _) Hin)).
    unfold entry_ok in Hok. by apply andb_true_iff in Hok as [? _]. }
  assert (Hk' : key_ok k' = true).
  { specialize (Hok _ (proj2 (list_elem_of_In _ _) Hin'c)).
    unfold entry_ok in Hok. by apply andb_true_iff in Hok as [? _]. }
  destruct (saved_line_of_integer k' v' k value Hk' Hk Hvalue Hsave)
    as [-> [n ->]].
  by pose proof (items_of_key_equal c (k, PyInt n) (k, PyBool b)
                   Hn Hin'c Hin eq_refl).
Qed.

Lemma app_inv_nl (s t : string) : s +:+ nl = t +:+ nl -> s = t.
Proof. apply app_inv_tail. Qed.

(** C10. The saver and the viewer test for a boolean before they test for
    an integer. In the file that [save_config] writes for a config, and
    in what [view_config] shows of it, the line of an option that holds a
    boolean is [NAME=y] when it is true and [#NAME is not set] when it is
    false; no line is [NAME=1] or [NAME=0], nor [NAME=True] or
    [NAME=False], although a boolean passes the integer test. *)
Theorem boolean_tested_before_integer (st : state) (fs : files)
    (path k : string) (b : bool) :
  well_formed (config st) ->
  In (k, PyBool b) (config st) ->
  let line := if b then k +:+ "=y" else "#" +:+ k +:+ " is not set" in
  isinstance_int (PyBool b) = true
  /\ (exists text,
        save_config (config st) path fs !! path = Some text
        /\ In (line +:+ nl) (file_lines text)
        /\ forall value, In value bare_values ->
             ~ In (k +:+ "=" +:+ value +:+ nl) (file_lines text))
  /\ (exists shown,
        tty (snd (view_config st)) = tty st ++ shown
        /\ In (Print line) shown
        /\ forall value, In value bare_values ->
             ~ In (Print (k +:+ "=" +:+ value)) shown).
Proof.
  intros Hwf Hin line.
  assert (Hline : save_line k (PyBool b) = line) by (by destruct b).
  assert (Hk : key_ok k = true).
  { destruct Hwf as [_ Hok]. rewrite Forall_forall in Hok.
    specialize (Hok _ (proj2 (list_elem_of_In _ _) Hin)).
    unfold entry_ok in Hok. by apply andb_true_iff in Hok as [? _]. }
  assert (Hlisted : In line (map (fun kv => save_line (fst kv) (snd kv))
                               (sorted_items (config st)))).
  { apply in_map_iff. exists (k, PyBool b).
    split; [exact Hline|by apply sorted_items_elem]. }
  split; [done|]. split.
  - exists (save_text (config st)).
    split; [unfold save_config; apply lookup_insert_eq|].
    rewrite file_lines_save_text by done. split.
    + apply in_map_iff. exists line. split; [done|]. by right; right.
    + intros value Hvalue Hbare.
      apply in_map_iff in Hbare as (body & Hbody & Hin').
      change (k +:+ "=" +:+ value +:+ nl)
        with (k +:+ String "=" (value +:+ nl)) in Hbody.
      replace (k +:+ String "=" (value +:+ nl))
        with ((k +:+ String "=" value) +:+ nl) in Hbody
        by (by rewrite app_assoc').
      apply app_inv_nl in Hbody. subst body.
      destruct Hin' as [Hh|[Hh|Hin']].
      * apply (heading_is_no_assignment "# LittleKernel Configuration"
                 k value); [by left|done|done|done].
      * apply (heading_is_no_assignment "" k value);
          [by right; left|done|done|done].
      * by apply (boolean_has_no_integer_line (config st) k value b).
  - eexists. split; [apply view_config_tty|]. split.
    + apply in_or_app. right. apply in_or_app. left. by apply in_map.
    + intros value Hvalue Hbare.
      change (k +:+ "=" +:+ value) with (k +:+ String "=" value) in Hbare.
      apply in_app_or in Hbare as [Hh|Hbare].
      { destruct Hh as [Hh|[Hh|[Hh|[Hh|[]]]]]; [done|..];
          injection Hh as Hh.
        - apply (heading_is_no_assignment "Current Configuration" k value);
            [by right; right; left|done|done|done].
        - apply (heading_is_no_assignment "=====================" k value);
            [by right; right; right; left|done|done|done].
        - apply (heading_is_no_assignment "" k value);
            [by right; left|done|done|done]. }
      apply in_app_or in Hbare as [Hbare|Hh].
      { apply in_map_iff in Hbare as (body & [= ->] & Hin').
        by apply (boolean_has_no_integer_line (config st) k value b). }
      destruct Hh as [Hh|[Hh|[]]]; [|done]. injection Hh as Hh.
      apply (heading_is_no_assignment "" k value);
        [by right; left|done|done|done].
Qed.

Lemma default_config_well_formed : well_formed default_config.
Proof.
  split.
  - cbv [default_config dict_keys map fst].
    apply (bool_decide_unpack _). by vm_compute.
  - unfold default_config. repeat constructor.
Qed.

Lemma boolean_tested_before_integer_witness :
  exists text,
    save_config default_config ".config" ∅ !! ".config" = Some text
    /\ In ("#CONFIG_PROFILING is not set" +:+ nl) (file_lines text)
    /\ ~ In ("CONFIG_PROFILING=0" +:+ nl) (file_lines text).
Proof.
  assert (Hin : In ("CONFIG_PROFILING", PyBool false)
                  (config (State default_config ∅ [] [])))
    by (simpl; tauto).
  destruct (boolean_tested_before_integer
              (State default_config ∅ [] []) ∅ ".config"
              "CONFIG_PROFILING" false default_config_well_formed Hin)
    as (_ & (text & Hfile & Hline & Hbare) & _).
  exists text. split; [exact Hfile|]. split; [exact Hline|].
  apply (Hbare "0"). right. by left.
Defined.

(** ** The guards in the header file *)

Lemma lookup_map {A B} (f : A -> B) (l : list A) (i : nat) :
  map f l !! i = option_map f (l !! i).
Proof.
  revert i. induction l as [|x l IH]; intros [|i]; by simpl.
Qed.

Lemma last_map {A B} (f : A -> B) (l : list A) :
  last (map f l) = option_map f (last l).
Proof.
  induction l as [|x [|y l] IH]; done.
Qed.

(** A line that starts with the first word of a directive starts with it
    before its newline. *)
Lemma startswith_app_nl (p a : string) :
  no_break p = true ->
  startswith p (a +:+ nl) = true -> startswith p a = true.
Proof.
  revert a. induction p as [|x p IH]; intros a Hp; [done|].
  simpl in Hp. apply andb_true_iff in Hp as [[Hlf _]%andb_true_iff Hp].
  apply negb_true_iff in Hlf.
  destruct a as [|c a].
  - change (Ascii.eqb x LF && startswith p "" = true -> false = true).
    by rewrite Hlf.
  - rewrite app_cons.
    change (Ascii.eqb x c && startswith p (a +:+ nl) = true
            -> Ascii.eqb x c && startswith p a = true).
    intros [Hc Hs]%andb_true_iff. rewrite Hc. by apply IH.
Qed.

(** The lines written: every [#define] is the guard of the file or the
    middle line of the block of an entry. *)
Lemma define_lines_wrapped (defines : list define) (i : nat) (l : string) :
  header_lines defines !! i = Some l ->
  startswith "#define " l = true ->
  (i = 2%nat /\ l = "#define _KERNEL_CONFIG_DEFINES_H")
  \/ (exists d j,
        d ∈ defines /\ l = define_line d /\ i = S j
        /\ header_lines defines !! j = Some ("#ifndef " +:+ def_name d)
        /\ header_lines defines !! S i = Some "#endif").
Proof.
  intros Hi Hdef. unfold header_lines in *.
  destruct i as [|[|[|[|i]]]]; simpl in Hi.
  - injection Hi as <-. by vm_compute in Hdef.
  - injection Hi as <-. by vm_compute in Hdef.
  - injection Hi as <-. by left.
  - injection Hi as <-. by vm_compute in Hdef.
  - right. apply lookup_app_Some in Hi as [Hi|[Hlen Hi]].
    + destruct (define_in_blocks _ _ _ Hi Hdef)
        as (d & j & Hin & Hl & -> & Hj & Hn).
      exists d, (4 + j)%nat. split; [done|]. split; [done|]. split; [done|].
      split; simpl; by apply lookup_app_l_Some.
    + apply list_lookup_singleton_Some in Hi as [_ <-]. by vm_compute in Hdef.
Qed.

(** The lines written: every entry has its block. *)
Lemma entry_block_written (defines : list define) (d : define) :
  d ∈ defines ->
  exists j,
    header_lines defines !! j = Some ("#ifndef " +:+ def_name d)
    /\ header_lines defines !! S j = Some (define_line d)
    /\ header_lines defines !! S (S j) = Some "#endif".
Proof.
  intros Hd.
  assert (H : exists j,
             flat_map define_block defines !! j
             = Some ("#ifndef " +:+ def_name d)
             /\ flat_map define_block defines !! S j = Some (define_line d)
             /\ flat_map define_block defines !! S (S j) = Some "#endif").
  { induction defines as [|d0 ds IH]; [by apply elem_of_nil in Hd|].
    change (flat_map define_block (d0 :: ds))
      with ([ "#ifndef " +:+ def_name d0; define_line d0; "#endif"; "" ]
            ++ flat_map define_block ds).
    apply elem_of_cons in Hd as [->|Hd].
    - by exists 0%nat.
    - destruct (IH Hd) as (j & H0 & H1 & H2). by exists (4 + j)%nat. }
  destruct H as (j & H0 & H1 & H2).
  exists (4 + j)%nat. unfold header_lines. simpl.
  split; [|split]; by apply lookup_app_l_Some.
Qed.

Lemma header_text_lines (text : string) :
  file_lines (header_text (parse_text text))
  = map (fun l => l +:+ nl) (header_lines (parse_text text)).
Proof.
  unfold header_text. rewrite header_text_chunks.
  apply file_lines_chunks, header_lines_no_break, parse_text_ok.
Qed.

(** C6, amended. In the header file that the generator writes, every
    entry read from the config has a block of three lines [#ifndef NAME],
    [#define NAME ...], [#endif] of its own, and every line that starts
    with [#define] is the middle line of such a block, or the third line
    of the file, which with the second line and the last one is the guard
    of the file. That guard is the fixed macro [_KERNEL_CONFIG_DEFINES_H],
    whatever output path is given; and the text written is the same for
    every run on the same config text. *)
Theorem header_guard_structure (fs : files)
    (config_file header_file text : string) :
  fs !! config_file = Some text ->
  exists header,
    snd (fst (generate_config_header config_file header_file fs))
      !! header_file = Some header
    /\ file_lines header !! 1%nat
       = Some ("#ifndef _KERNEL_CONFIG_DEFINES_H" +:+ nl)
    /\ file_lines header !! 2%nat
       = Some ("#define _KERNEL_CONFIG_DEFINES_H" +:+ nl)
    /\ last (file_lines header)
       = Some ("#endif /* _KERNEL_CONFIG_DEFINES_H */" +:+ nl)
    /\ (forall d, d ∈ parse_text text ->
          exists j,
            file_lines header !! j = Some ("#ifndef " +:+ def_name d +:+ nl)
            /\ file_lines header !! S j = Some (define_line d +:+ nl)
            /\ file_lines header !! S (S j) = Some ("#endif" +:+ nl))
    /\ (forall i l,
          file_lines header !! i = Some l ->
          startswith "#define " l = true ->
          (i = 2%nat /\ l = "#define _KERNEL_CONFIG_DEFINES_H" +:+ nl)
          \/ (exists d j,
                d ∈ parse_text text /\ l = define_line d +:+ nl /\ i = S j
                /\ file_lines header !! j
                   = Some ("#ifndef " +:+ def_name d +:+ nl)
                /\ file_lines header !! S i = Some ("#endif" +:+ nl)))
    /\ (forall (fs' : files) (config_file' header_file' : string),
          fs' !! config_file' = Some text ->
          snd (fst (generate_config_header config_file' header_file' fs'))
            !! header_file' = Some header).
Proof.
  intros Hfs. exists (header_text (parse_text text)).
  split; [unfold generate_config_header; rewrite Hfs; apply lookup_insert_eq|].
  rewrite header_text_lines.
  set (defines := parse_text text).
  split; [done|]. split; [done|]. split.
  { rewrite last_map. unfold header_lines.
    change (?a :: ?b :: ?c :: ?d :: ?r) with ([a; b; c; d] ++ r).
    by rewrite !last_app. }
  split.
  { intros d Hd.
    destruct (entry_block_written defines d Hd) as (j & H0 & H1 & H2).
    exists j. rewrite !lookup_map, H0, H1, H2.
    split; [|done]. simpl. by rewrite app_assoc'. }
  split.
  { intros i l Hi Hdef. rewrite lookup_map in Hi.
    destruct (header_lines defines !! i) as [l0|] eqn:Hl0; [|done].
    injection Hi as <-.
    apply startswith_app_nl in Hdef; [|done].
    destruct (define_lines_wrapped defines i l0 Hl0 Hdef)
      as [[-> ->]|(d & j & Hd & -> & -> & Hj & Hn)]; [by left|].
    right. exists d, j. rewrite !lookup_map, Hj, Hn.
    split; [done|]. split; [done|]. split; [done|].
    split; [|done]. simpl. by rewrite app_assoc'. }
  intros fs' config_file' header_file' Hfs'.
  unfold generate_config_header. rewrite Hfs'. apply lookup_insert_eq.
Qed.

Lemma header_guard_structure_witness :
  exists header j,
    snd (fst (generate_config_header ".config" "kernel_config_defines.h"
                {[ ".config" := Scenario.config_text ]}))
      !! "kernel_config_defines.h" = Some header
    /\ file_lines header !! j = Some ("#ifndef CONFIG_TIMER_HZ" +:+ nl)
    /\ file_lines header !! S j
       = Some ("#define CONFIG_TIMER_HZ 100  /* numeric */" +:+ nl)
    /\ file_lines header !! S (S j) = Some ("#endif" +:+ nl).
Proof.
  destruct (header_guard_structure {[ ".config" := Scenario.config_text ]}
              ".config" "kernel_config_defines.h" Scenario.config_text
              (lookup_singleton_eq _ _))
    as (header & Hfile & _ & _ & _ & Hentry & _).
  destruct (Hentry ("CONFIG_TIMER_HZ", "100", "numeric"))
    as (j & H0 & H1 & H2).
  { apply list_elem_of_In. vm_compute. tauto. }
  exists header, j. split; [exact Hfile|]. split; [exact H0|].
  split; [exact H1|exact H2].
Defined.
